(** * Spam gate and e-mail dispatcher of the Luminar Capital site

    A shallow embedding of

    - [validateRecaptcha], [validateHoneypot], [validateTimestamp] and
      [validateSpam] (the spam-validation utilities), and
    - [handler] of [src/pages/api/email.ts] (the [/api/email] endpoint),

    together with the properties the specification states about them.

    JavaScript values are embedded as they reach the code: numbers are
    IEEE-754 binary64 values ([spec_float] of the standard library, with the
    library's own comparison and correctly rounded subtraction), strings are
    sequences of UTF-16 code units, and a request body is an arbitrary
    JSON value.  The conversions the operators apply to such a value are
    written out, with the [TypeError]s they raise.  Everything the code
    reads from outside its own text
    (environment variables, the clock, the verification service, the
    mail-send capability) is gathered in a record [world]; every call that
    leaves the process is recorded in a trace of [event]s. *)

From Stdlib Require Import ZArith NArith List Bool String Ascii Lia.
From Stdlib Require Import Floats.SpecFloat.
Import ListNotations.

Set Warnings "-register-all".

(* ------------------------------------------------------------------ *)
(** ** Numbers *)

Module Num.

Local Open Scope Z_scope.

(** A JavaScript number is a binary64 value. *)
Definition number := spec_float.

Definition prec : Z := 53.
Definition emax : Z := 1024.

(** The number denoted by an integer literal. *)
Definition of_Z (z : Z) : number := binary_normalize prec emax z 0 false.

(** [a - b] *)
Definition sub (a b : number) : number := SFsub prec emax a b.

(** [a / b], used only to read decimal literals ([0.3] is [3 / 10]
    correctly rounded). *)
Definition div (a b : number) : number := SFdiv prec emax a b.

(** The relational operators.  Each is false as soon as an operand is
    NaN. *)
Definition lt (a b : number) : bool := SFltb a b.
Definition gt (a b : number) : bool := SFltb b a.
Definition le (a b : number) : bool := SFleb a b.
Definition ge (a b : number) : bool := SFleb b a.

Definition NaN : number := S754_nan.
Definition zero : number := S754_zero false.
Definition one : number := of_Z 1.

(** ToBoolean on a number: [+0], [-0] and NaN are falsy. *)
Definition truthy (x : number) : bool :=
  match x with
  | S754_zero _ | S754_nan => false
  | _ => true
  end.

(** The sign of a number that compares below zero. *)
Definition negative (x : number) : bool := lt x zero.

(** The literals of the source. *)
Definition c3000 : number := of_Z 3000.
Definition c1800000 : number := of_Z 1800000.
(** [0.3]: the binary64 value nearest to 3/10,
    5404319552844595 * 2^-54. *)
Definition c0_3 : number := S754_finite false 5404319552844595 (-54).

End Num.

Definition number : Type := Num.number.

(* ------------------------------------------------------------------ *)
(** ** Strings *)

Module Str.

Local Open Scope N_scope.

(** A JavaScript string is a sequence of UTF-16 code units. *)
Definition jsstring := list N.

(** A string literal of the source (ASCII). *)
Definition lit (s : string) : jsstring :=
  map N_of_ascii (list_ascii_of_string s).

Fixpoint eqb (a b : jsstring) : bool :=
  match a, b with
  | [], [] => true
  | x :: a', y :: b' => N.eqb x y && eqb a' b'
  | _, _ => false
  end.

(** WhiteSpace and LineTerminator code points of ECMAScript, the ones
    [String.prototype.trim] strips. *)
Definition is_ws (c : N) : bool :=
  ((9 <=? c) && (c <=? 13))         (* TAB LF VT FF CR *)
  || (c =? 32)                       (* SPACE *)
  || (c =? 160)                      (* NO-BREAK SPACE *)
  || (c =? 5760)                     (* OGHAM SPACE MARK *)
  || ((8192 <=? c) && (c <=? 8202)) (* EN QUAD .. HAIR SPACE *)
  || (c =? 8232) || (c =? 8233)      (* LINE / PARAGRAPH SEPARATOR *)
  || (c =? 8239)                     (* NARROW NO-BREAK SPACE *)
  || (c =? 8287)                     (* MEDIUM MATHEMATICAL SPACE *)
  || (c =? 12288)                    (* IDEOGRAPHIC SPACE *)
  || (c =? 65279).                   (* ZERO WIDTH NO-BREAK SPACE *)

Fixpoint trimStart (s : jsstring) : jsstring :=
  match s with
  | [] => []
  | c :: s' => if is_ws c then trimStart s' else s
  end.

Definition trimEnd (s : jsstring) : jsstring := rev (trimStart (rev s)).

(** [s.trim()] *)
Definition trim (s : jsstring) : jsstring := trimEnd (trimStart s).

Fixpoint startsWith (s p : jsstring) : bool :=
  match p, s with
  | [], _ => true
  | _ :: _, [] => false
  | x :: p', y :: s' => N.eqb x y && startsWith s' p'
  end.

(** [s.includes(p)] *)
Fixpoint includes (s p : jsstring) : bool :=
  startsWith s p
  || match s with
     | [] => false
     | _ :: s' => includes s' p
     end.

(** ToBoolean on a string: only the empty string is falsy. *)
Definition truthy (s : jsstring) : bool :=
  match s with [] => false | _ => true end.

End Str.

Definition jsstring : Type := Str.jsstring.
Notation "` s" := (Str.lit s) (at level 1, format "` s").

(* ------------------------------------------------------------------ *)
(** ** Values *)

(** A value as [JSON.parse] can produce it, plus [undefined] (a missing
    property).  An object is the list of its own properties; the first
    binding of a name is the property of that name. *)
Inductive jsval : Type :=
| VUndefined
| VNull
| VBool (b : bool)
| VNum (x : number)
| VStr (s : jsstring)
| VArr (xs : list jsval)
| VObj (fields : list (jsstring * jsval)).

(** The result of evaluating an expression or awaiting a promise: a value,
    or a thrown exception (a rejected promise). *)
Inductive completion (A : Type) : Type :=
| Normal (a : A)
| Throw (e : jsval).

Arguments Normal {A} a.
Arguments Throw {A} e.

(** An [Error] object with the given message. *)
Definition mkError (message : jsstring) : jsval :=
  VObj [(`"message", VStr message)].

(** The places where the engine raises a [TypeError].  The wording of the
    message is the engine's; it depends on the expression of the source
    (its text is recorded) and on the offending value. *)
Inductive site : Type :=
| ReadOfNullish (object : string) (property : jsstring) (value : jsval)
    (* [object.property] is read and [object] is [null] or [undefined] *)
| DestructureOfNullish (object : string) (value : jsval)
    (* [const { ... } = object] and [object] is [null] or [undefined] *)
| NotAFunction (object : string) (method : string) (value : jsval)
    (* [object.method(...)] is called and [object.method] is not callable *)
| NotConvertible (value : jsval)
    (* an object without a callable [toString] is converted to a
       primitive value *).

(** ToBoolean *)
Definition truthy (v : jsval) : bool :=
  match v with
  | VUndefined | VNull => false
  | VBool b => b
  | VNum x => Num.truthy x
  | VStr s => Str.truthy s
  | VArr _ | VObj _ => true
  end.

(** [v === true] *)
Definition is_true (v : jsval) : bool :=
  match v with VBool true => true | _ => false end.

(** [v === s] for a string [s] *)
Definition is_string (v : jsval) (s : jsstring) : bool :=
  match v with VStr s' => Str.eqb s' s | _ => false end.

Fixpoint lookup (k : jsstring) (fields : list (jsstring * jsval)) : jsval :=
  match fields with
  | [] => VUndefined
  | (k', v) :: rest => if Str.eqb k' k then v else lookup k rest
  end.

(* ------------------------------------------------------------------ *)
(** ** The world outside the code *)

(** [process.env], restricted to the variables the code reads. *)
Record process_env : Type := {
  RECAPTCHA_SECRET_KEY : option jsstring;
  PARTNER_EMAIL : option jsstring;
  FINANCING_EMAIL : option jsstring;
  RECIPIENT_EMAIL : option jsstring
}.

(** The argument of [fetch]. *)
Record fetch_request : Type := {
  fetch_url : jsstring;
  fetch_method : jsstring;
  fetch_headers : list (jsstring * jsstring);
  fetch_body : jsstring
}.

(** What [fetch] resolves to: a status line and the outcome of
    [response.json()]. *)
Record fetch_response : Type := {
  response_status : Z;
  response_json : completion jsval
}.

(** The argument of the mail-send capability [sendEmail]. *)
Record mail : Type := {
  mail_to : jsval;
  mail_subject : jsval;
  mail_htmlMessage : jsval
}.

Record world : Type := {
  env : process_env;
  (** [Date.now()] *)
  Date_now : number;
  (** [fetch(url, init)]: rejects, or resolves with a response *)
  fetch : fetch_request -> completion fetch_response;
  (** [sendEmail({to, subject, htmlMessage})]: resolves with the provider's
      result, or rejects *)
  sendEmail : mail -> completion jsval;
  (** ToNumber on a string (StringToNumber) and ToString on a number
      (Number::toString); both are total *)
  StringToNumber : jsstring -> number;
  NumberToString : number -> jsstring;
  (** the message of a [TypeError] raised by the engine *)
  TypeError_message : site -> jsstring
}.

Inductive console_level : Type := log | warn | error.

(** What the code does to the outside, in order. *)
Inductive event : Type :=
| EConsole (level : console_level) (label : jsstring)
| EDateNow
| EFetch (request : fetch_request)
| ESendEmail (m : mail).

(* ------------------------------------------------------------------ *)
(** ** Computations: a trace of events and a completion *)

Definition M (A : Type) : Type := (completion A * list event)%type.

Definition ret {A} (a : A) : M A := (Normal a, []).

Definition throw {A} (e : jsval) : M A := (Throw e, []).

Definition bind {A B} (m : M A) (k : A -> M B) : M B :=
  match m with
  | (Normal a, t) => let (r, t') := k a in (r, t ++ t')
  | (Throw e, t) => (Throw e, t)
  end.

Definition emit (e : event) : M unit := (Normal tt, [e]).

Definition lift {A} (c : completion A) : M A := (c, []).

(** [try { m } catch (e) { h e }] *)
Definition try_catch {A} (m : M A) (h : jsval -> M A) : M A :=
  match m with
  | (Throw e, t) => let (r, t') := h e in (r, t ++ t')
  | (Normal a, t) => (Normal a, t)
  end.

Notation "x <- m ;; k" := (bind m (fun x => k))
  (at level 61, m at next level, right associativity).
Notation "m ;;; k" := (bind m (fun _ => k))
  (at level 61, right associativity).

Definition result {A} (m : M A) : completion A := fst m.
Definition trace {A} (m : M A) : list event := snd m.

Definition is_fetch (e : event) : bool :=
  match e with EFetch _ => true | _ => false end.
Definition is_send (e : event) : bool :=
  match e with ESendEmail _ => true | _ => false end.
Definition is_clock (e : event) : bool :=
  match e with EDateNow => true | _ => false end.

(** The outbound calls of a trace. *)
Definition fetches (t : list event) : list event := filter is_fetch t.
Definition mails (t : list event) : list event := filter is_send t.
Definition clock_reads (t : list event) : list event := filter is_clock t.

(* ------------------------------------------------------------------ *)
(** ** Primitive operations of the language *)

Section Primitives.

Variable w : world.

Definition TypeError (s : site) : jsval := mkError (w.(TypeError_message) s).

(** [object.k], where [v] is the value of [object], for a data property
    [k] that no built-in prototype defines (all property names read by the
    code are such). *)
Definition getProp (object : string) (v : jsval) (k : jsstring) : M jsval :=
  match v with
  | VUndefined | VNull => throw (TypeError (ReadOfNullish object k v))
  | VObj fields => ret (lookup k fields)
  | VBool _ | VNum _ | VStr _ | VArr _ => ret VUndefined
  end.

(** The check that opens [const { ... } = object]: [null] and [undefined]
    cannot be destructured. *)
Definition destructure (object : string) (v : jsval) : M unit :=
  match v with
  | VUndefined | VNull => throw (TypeError (DestructureOfNullish object v))
  | _ => ret tt
  end.

(** [object.trim()]: the string method on a string; on any other JSON value
    [object.trim] is not a function. *)
Definition callTrim (object : string) (v : jsval) : M jsstring :=
  match v with
  | VStr s => ret (Str.trim s)
  | VUndefined | VNull => throw (TypeError (ReadOfNullish object `"trim" v))
  | _ => throw (TypeError (NotAFunction object "trim" v))
  end.

(** [object.includes(p)] for a string [p]: the string method on a string,
    the array method (an element strictly equal to [p]) on an array. *)
Definition callIncludes (object : string) (v : jsval) (p : jsstring)
  : M bool :=
  match v with
  | VStr s => ret (Str.includes s p)
  | VArr xs => ret (existsb (fun x => is_string x p) xs)
  | VUndefined | VNull =>
      throw (TypeError (ReadOfNullish object `"includes" v))
  | _ => throw (TypeError (NotAFunction object "includes" v))
  end.

(** ToString on a value of a parsed body.  An array is joined with commas,
    [null] and [undefined] elements giving the empty string.  A parsed
    object has no callable property of its own: its [toString] and
    [valueOf] are those of [Object.prototype] unless a property of that
    name hides them.  [valueOf] never yields a primitive value, so the
    conversion gives ["[object Object]"], or raises a [TypeError] when a
    property named [toString] hides the inherited method. *)
Fixpoint ToString (v : jsval) : completion jsstring :=
  match v with
  | VUndefined => Normal `"undefined"
  | VNull => Normal `"null"
  | VBool b => Normal (if b then `"true" else `"false")
  | VNum x => Normal (w.(NumberToString) x)
  | VStr s => Normal s
  | VArr xs =>
      (fix join (xs : list jsval) : completion jsstring :=
         match xs with
         | [] => Normal []
         | x :: rest =>
             match (match x with
                    | VUndefined | VNull => Normal []
                    | _ => ToString x
                    end) with
             | Throw e => Throw e
             | Normal s =>
                 match rest with
                 | [] => Normal s
                 | _ :: _ =>
                     match join rest with
                     | Throw e => Throw e
                     | Normal s' => Normal (s ++ `"," ++ s')
                     end
                 end
             end
         end) xs
  | VObj fields =>
      if existsb (fun f => Str.eqb (fst f) `"toString") fields
      then Throw (TypeError (NotConvertible v))
      else Normal `"[object Object]"
  end.

(** An element of an array as [join] writes it. *)
Definition element (x : jsval) : completion jsstring :=
  match x with
  | VUndefined | VNull => Normal []
  | _ => ToString x
  end.

(** [xs.join()], the conversion of an array, by its own equations. *)
Fixpoint join (xs : list jsval) : completion jsstring :=
  match xs with
  | [] => Normal []
  | x :: rest =>
      match element x with
      | Throw e => Throw e
      | Normal s =>
          match rest with
          | [] => Normal s
          | _ :: _ =>
              match join rest with
              | Throw e => Throw e
              | Normal s' => Normal (s ++ `"," ++ s')
              end
          end
      end
  end.

(** ToNumber.  An array or object is first converted to a primitive value,
    which is the string [ToString] gives (the inherited [valueOf] returns
    the object itself), and that string is read as a number. *)
Definition ToNumber (v : jsval) : completion number :=
  match v with
  | VUndefined => Normal Num.NaN
  | VNull => Normal Num.zero
  | VBool b => Normal (if b then Num.one else Num.zero)
  | VNum x => Normal x
  | VStr s => Normal (w.(StringToNumber) s)
  | VArr _ | VObj _ =>
      match ToString v with
      | Normal s => Normal (w.(StringToNumber) s)
      | Throw e => Throw e
      end
  end.

(** [Date.now()] *)
Definition DateNow : M number := emit EDateNow ;;; ret w.(Date_now).

(** [await fetch(...)] *)
Definition doFetch (r : fetch_request) : M fetch_response :=
  emit (EFetch r) ;;; lift (w.(fetch) r).

(** [await sendEmail(...)] *)
Definition doSendEmail (m : mail) : M jsval :=
  emit (ESendEmail m) ;;; lift (w.(sendEmail) m).

Definition console (l : console_level) (label : string) : M unit :=
  emit (EConsole l `label).

End Primitives.

(** [process.env.X]: a string or [undefined]. *)
Definition env_value (o : option jsstring) : jsval :=
  match o with Some s => VStr s | None => VUndefined end.

(** [process.env.X || 'fallback'] *)
Definition env_or (o : option jsstring) (fallback : jsstring) : jsval :=
  if truthy (env_value o) then env_value o else VStr fallback.

(* ------------------------------------------------------------------ *)
(** ** The spam-validation utilities *)

Record SpamValidationResult : Type := {
  isValid : bool;
  reason : option jsstring
}.

Section SpamValidation.

Variable w : world.

(** The request [validateRecaptcha] sends to the verification service. *)
Definition siteverify (secretKey token : jsstring) : fetch_request :=
  {| fetch_url := `"https://www.google.com/recaptcha/api/siteverify";
     fetch_method := `"POST";
     fetch_headers :=
       [(`"Content-Type", `"application/x-www-form-urlencoded")];
     fetch_body := `"secret=" ++ secretKey ++ `"&response=" ++ token |}.

(** [data.success === true && data.score >= 0.3 &&
    data.action === expectedAction], evaluated left to right. *)
Definition recaptchaVerdict (data : jsval) (expectedAction : jsstring)
  : M bool :=
  success <- getProp w "data" data `"success" ;;
  if is_true success then
    score <- getProp w "data" data `"score" ;;
    points <- lift (ToNumber w score) ;;
    if Num.ge points Num.c0_3 then
      action <- getProp w "data" data `"action" ;;
      ret (is_string action expectedAction)
    else ret false
  else ret false.

Definition validateRecaptcha (token expectedAction : jsstring) : M bool :=
  let secretKey := w.(env).(RECAPTCHA_SECRET_KEY) in
  if negb (truthy (env_value secretKey)) then
    console error "RECAPTCHA_SECRET_KEY not configured" ;;;
    ret false
  else
    let key := match secretKey with Some k => k | None => [] end in
    try_catch
      (response <- doFetch w (siteverify key token) ;;
       data <- lift response.(response_json) ;;
       isValid <- recaptchaVerdict data expectedAction ;;
       (if negb isValid
        then console warn "reCAPTCHA validation failed:"
        else ret tt) ;;;
       ret isValid)
      (fun _ =>
         console error "reCAPTCHA validation error:" ;;;
         ret false).

(** [honeypotValue : string | undefined] *)
Definition validateHoneypot (honeypotValue : option jsstring) : bool :=
  match honeypotValue with
  | None => true
  | Some s => negb (Str.truthy s) || Str.eqb (Str.trim s) []
  end.

Definition validateTimestamp (timestamp : number) : M bool :=
  now <- DateNow w ;;
  let elapsed := Num.sub now timestamp in
  ret (Num.ge elapsed Num.c3000 && Num.le elapsed Num.c1800000).

(** [action] is [None] when the caller omits the fourth argument. *)
Definition validateSpam (recaptchaToken : jsstring)
    (honeypot : option jsstring) (timestamp : number)
    (action : option jsstring) : M SpamValidationResult :=
  let action := match action with Some a => a | None => `"contact_form" end in
  if negb (validateHoneypot honeypot) then
    ret {| isValid := false; reason := Some `"Honeypot field filled" |}
  else
    timely <- validateTimestamp timestamp ;;
    if negb timely then
      ret {| isValid := false; reason := Some `"Suspicious timing" |}
    else
      recaptchaValid <- validateRecaptcha recaptchaToken action ;;
      if negb recaptchaValid then
        ret {| isValid := false;
               reason := Some `"reCAPTCHA validation failed" |}
      else
        ret {| isValid := true; reason := None |}.

End SpamValidation.

(* ------------------------------------------------------------------ *)
(** ** The [/api/email] endpoint *)

Record request : Type := {
  req_method : option jsstring;
  req_body : jsval
}.

(** What [res.status(code).json(body)] sends. *)
Record reply : Type := {
  status : Z;
  json : jsval
}.

(** The object literal [{ success, response, error }]. *)
Definition envelope (success : bool) (response error : jsval) : jsval :=
  VObj [(`"success", VBool success); (`"response", response);
        (`"error", error)].

Section Handler.

Variable w : world.

(** [req.method !== 'POST'] *)
Definition not_POST (method : option jsstring) : bool :=
  match method with
  | Some m => negb (Str.eqb m `"POST")
  | None => true
  end.

(** [honeypot && honeypot.trim() !== ''] *)
Definition honeypotFilled (honeypot : jsval) : M bool :=
  if truthy honeypot then
    t <- callTrim w "honeypot" honeypot ;;
    ret (negb (Str.eqb t []))
  else ret false.

(** [if (timestamp) { elapsed = Date.now() - timestamp;
    elapsed < 3000 || elapsed > 1800000 }] *)
Definition timingSuspicious (timestamp : jsval) : M bool :=
  if truthy timestamp then
    now <- DateNow w ;;
    started <- lift (ToNumber w timestamp) ;;
    let elapsed := Num.sub now started in
    ret (Num.lt elapsed Num.c3000 || Num.gt elapsed Num.c1800000)
  else ret false.

(** [subject && subject.includes(tag)] as a condition *)
Definition subjectIncludes (subject : jsval) (tag : jsstring) : M bool :=
  if truthy subject then callIncludes w "subject" subject tag
  else ret false.

(** The routing block: the value of [recipientEmail]. *)
Definition resolveRecipient (to subject : jsval) : M jsval :=
  if negb (truthy to) then
    partner <- subjectIncludes subject `"Partner" ;;
    if partner then
      ret (env_or w.(env).(PARTNER_EMAIL) `"partners@luminarcapital.com")
    else
      financing <- subjectIncludes subject `"Financing" ;;
      if financing then
        ret (env_or w.(env).(FINANCING_EMAIL)
               `"clientsuccess@luminarcapital.com")
      else
        ret (env_value w.(env).(RECIPIENT_EMAIL))
  else ret to.

Definition silentDrop : reply :=
  {| status := 200; json := envelope true VNull VNull |}.

(** The body of the [try] block. *)
Definition handlerTry (body : jsval) : M reply :=
  destructure w "req.body" body ;;;
  to <- getProp w "req.body" body `"to" ;;
  subject <- getProp w "req.body" body `"subject" ;;
  htmlMessage <- getProp w "req.body" body `"htmlMessage" ;;
  honeypot <- getProp w "req.body" body `"honeypot" ;;
  timestamp <- getProp w "req.body" body `"timestamp" ;;
  filled <- honeypotFilled honeypot ;;
  if filled then
    console warn "Spam detected: Honeypot filled" ;;;
    ret silentDrop
  else
    suspicious <- timingSuspicious timestamp ;;
    if suspicious then
      console warn "Spam detected: Suspicious timing" ;;;
      ret silentDrop
    else
      recipientEmail <- resolveRecipient to subject ;;
      console log "=== EMAIL DEBUG ===" ;;;
      console log "To:" ;;;
      console log "Subject:" ;;;
      response <- doSendEmail w {| mail_to := recipientEmail;
                                   mail_subject := subject;
                                   mail_htmlMessage := htmlMessage |} ;;
      console log "Email sent successfully!" ;;;
      ret {| status := 200; json := envelope true response VNull |}.

(** The body of the [catch] block. *)
Definition handlerCatch (err : jsval) : M reply :=
  console error "=== EMAIL ERROR ===" ;;;
  console error "Full error:" ;;;
  message <- getProp w "error" err `"message" ;;
  console error "Error message:" ;;;
  message' <- getProp w "error" err `"message" ;;
  ret {| status := 500; json := envelope false VNull message' |}.

Definition handler (req : request) : M reply :=
  if not_POST req.(req_method) then
    ret {| status := 405;
           json := VObj [(`"error", VStr `"Method not allowed")] |}
  else
    try_catch (handlerTry req.(req_body)) handlerCatch.

End Handler.

(* ------------------------------------------------------------------ *)
(** ** Vocabulary of the specification *)

(** [s] contains [p] as a substring. *)
Definition contains (s p : jsstring) : Prop :=
  exists before after, s = before ++ p ++ after.

(** Empty or made of white space only. *)
Definition blank (s : jsstring) : Prop :=
  Forall (fun c => Str.is_ws c = true) s.

(** [v.k], when reading it does not throw. *)
Definition field (v : jsval) (k : string) : jsval :=
  match v with
  | VObj fields => lookup `k fields
  | _ => VUndefined
  end.

(** [null] or [undefined]: the values whose properties cannot be read. *)
Definition nullish (v : jsval) : bool :=
  match v with VUndefined | VNull => true | _ => false end.

(** The decision rule of the bot-score verifier on the fields of the
    payload: [success == true AND score >= 0.3 AND action == expected]. *)
Definition accepts (w : world) (data : jsval) (expectedAction : jsstring)
  : bool :=
  is_true (field data "success")
  && match ToNumber w (field data "score") with
     | Normal score => Num.ge score Num.c0_3
     | Throw _ => false
     end
  && is_string (field data "action") expectedAction.

(** A submission: a request with method POST. *)
Definition is_POST (req : request) : Prop := req.(req_method) = Some `"POST".

(** The honeypot field is filled: a string with a character that is not
    white space. *)
Definition honeypot_filled (honeypot : jsval) : Prop :=
  exists s, honeypot = VStr s /\ ~ blank s.

(** The honeypot field is clean: absent (or any falsy value), or a blank
    string. *)
Definition honeypot_clean (honeypot : jsval) : Prop :=
  truthy honeypot = false \/ exists s, honeypot = VStr s /\ blank s.

(** [Date.now() - timestamp] at the endpoint: a number, or the
    [TypeError] of a timestamp that cannot be converted. *)
Definition elapsed (w : world) (timestamp : jsval) : completion number :=
  match ToNumber w timestamp with
  | Normal started => Normal (Num.sub w.(Date_now) started)
  | Throw e => Throw e
  end.

(** The timing is implausible: a timestamp is present and the elapsed time
    is below 3000 ms or above 1800000 ms. *)
Definition timing_implausible (w : world) (timestamp : jsval) : Prop :=
  truthy timestamp = true
  /\ exists e, elapsed w timestamp = Normal e
       /\ (Num.lt e Num.c3000 = true \/ Num.gt e Num.c1800000 = true).

(** The timing check lets the submission through: no timestamp, or an
    elapsed time that is neither below 3000 ms nor above 1800000 ms. *)
Definition timing_accepted (w : world) (timestamp : jsval) : Prop :=
  truthy timestamp = false
  \/ exists e, elapsed w timestamp = Normal e
       /\ Num.lt e Num.c3000 = false /\ Num.gt e Num.c1800000 = false.

(** The timing check fails: a timestamp is present and cannot be converted
    to a number. *)
Definition timing_unconvertible (w : world) (timestamp : jsval) (e : jsval)
  : Prop :=
  truthy timestamp = true /\ ToNumber w timestamp = Throw e.

(** The endpoint detects spam in the body of a submission. *)
Definition detects_spam (w : world) (body : jsval) : Prop :=
  honeypot_filled (field body "honeypot")
  \/ (honeypot_clean (field body "honeypot")
      /\ timing_implausible w (field body "timestamp")).

(** The body of a submission passes the spam checks of the endpoint. *)
Definition passes_spam_checks (w : world) (body : jsval) : Prop :=
  nullish body = false
  /\ honeypot_clean (field body "honeypot")
  /\ timing_accepted w (field body "timestamp").

(** The subject is a string that contains [tag]. *)
Definition subject_tagged (subject : jsval) (tag : string) : Prop :=
  exists s, subject = VStr s /\ contains s `tag.

(** The subject is a string, or is missing (any falsy value). *)
Definition subject_textual (subject : jsval) : Prop :=
  truthy subject = false \/ exists s, subject = VStr s.

(** The mailboxes of the routing table and the default mailbox. *)
Definition partner_mailbox (w : world) : jsval :=
  env_or w.(env).(PARTNER_EMAIL) `"partners@luminarcapital.com".
Definition financing_mailbox (w : world) : jsval :=
  env_or w.(env).(FINANCING_EMAIL) `"clientsuccess@luminarcapital.com".
Definition default_mailbox (w : world) : jsval :=
  env_value w.(env).(RECIPIENT_EMAIL).

(** The mail a submission asks for, once the recipient is resolved. *)
Definition mail_of (recipient body : jsval) : mail :=
  {| mail_to := recipient;
     mail_subject := field body "subject";
     mail_htmlMessage := field body "htmlMessage" |}.


(** The 53-bit mantissa of the binary64 value of a positive integer below
    2^53: the integer shifted left until it has 53 binary digits. *)
Definition aligned_mantissa (p : positive) : positive :=
  match (Zpos (Pos.size p) - 53)%Z with
  | Zneg k => Pos.iter xO p k
  | _ => p
  end.

(** A shift record with no bits shifted out. *)
Definition exact_record (m : Z) : shr_record :=
  {| shr_m := m; shr_r := false; shr_s := false |}.

(* ------------------------------------------------------------------ *)
(** ** Sample worlds and submissions *)

Module Sample.

Local Open Scope Z_scope.

Definition environment : process_env :=
  {| RECAPTCHA_SECRET_KEY := Some `"secret-key";
     PARTNER_EMAIL := Some `"partner-desk@example.com";
     FINANCING_EMAIL := None;
     RECIPIENT_EMAIL := Some `"office@example.com" |}.

(** A verification payload [{success, score, action}]. *)
Definition payload (success : bool) (score : number) (action : string)
  : jsval :=
  VObj [(`"success", VBool success); (`"score", VNum score);
        (`"action", VStr `action)].

(** A world whose clock shows [now], whose verification service answers
    with [verification] and whose mail capability answers with
    [delivery].  It reads every string as NaN and prints every number as
    "0": the samples hold no numeric string and no array of numbers. *)
Definition world_of (e : process_env) (now : Z)
    (verification : completion fetch_response)
    (delivery : completion jsval) : world :=
  {| env := e;
     Date_now := Num.of_Z now;
     fetch := fun _ => verification;
     sendEmail := fun _ => delivery;
     StringToNumber := fun _ => Num.NaN;
     NumberToString := fun _ => `"0";
     TypeError_message := fun _ => `"TypeError" |}.

Definition now : Z := 1700000010000.

Definition http (code : Z) (data : jsval) : completion fetch_response :=
  Normal {| response_status := code; response_json := Normal data |}.

(** The service scores the token 0.9 for [contact_form]; the mail
    provider returns an id. *)
Definition friendly : world :=
  world_of environment now
    (http 200 (payload true (Num.div (Num.of_Z 9) (Num.of_Z 10))
                 "contact_form"))
    (Normal (VStr `"message-id-1")).

(** The service denies the token. *)
Definition denying : world :=
  world_of environment now
    (http 200 (payload false Num.zero "contact_form"))
    (Normal (VStr `"message-id-1")).

(** The service answers 503 with a body that reads as a pass. *)
Definition failing_service : world :=
  world_of environment now
    (http 503 (payload true Num.one "contact_form"))
    (Normal (VStr `"message-id-1")).

(** The mail provider times out. *)
Definition smtp_down : world :=
  world_of environment now
    (http 200 (payload true Num.one "contact_form"))
    (Throw (mkError `"SMTP timeout")).

(** No verification secret is configured. *)
Definition no_secret : world :=
  world_of {| RECAPTCHA_SECRET_KEY := None;
              PARTNER_EMAIL := None;
              FINANCING_EMAIL := None;
              RECIPIENT_EMAIL := None |}
    now
    (http 200 (payload true Num.one "contact_form"))
    (Normal (VStr `"message-id-1")).

(** A form opened [ago] milliseconds before [now]. *)
Definition opened (ago : Z) : number := Num.of_Z (now - ago).

Definition post (body : jsval) : request :=
  {| req_method := Some `"POST"; req_body := body |}.

Definition submission (subject honeypot : string) (timestamp : jsval)
  : jsval :=
  VObj [(`"subject", VStr `subject);
        (`"htmlMessage", VStr `"<p>hello</p>");
        (`"honeypot", VStr `honeypot);
        (`"timestamp", timestamp)].


(** A submission without a timestamp. *)
Definition untimed (subject : string) : jsval :=
  VObj [(`"subject", VStr `subject);
        (`"htmlMessage", VStr `"<p>hello</p>");
        (`"honeypot", VStr `"")].

End Sample.

(* ------------------------------------------------------------------ *)
(** ** The runs of the endpoint *)

(** The failure reply [{success: false, response: null, error}] with
    status 500. *)
Definition failure (message : jsval) : reply :=
  {| status := 500; json := envelope false VNull message |}.

(** The success reply [{success: true, response, error: null}] with
    status 200. *)
Definition success (response : jsval) : reply :=
  {| status := 200; json := envelope true response VNull |}.

(** The reply to a request that is not a POST. *)
Definition method_not_allowed : reply :=
  {| status := 405; json := VObj [(`"error", VStr `"Method not allowed")] |}.

(** What the [catch] block logs when it completes. *)
Definition error_logs : list event :=
  [EConsole error `"=== EMAIL ERROR ==="; EConsole error `"Full error:";
   EConsole error `"Error message:"].

(** The clock read of the timing check, made when a timestamp is
    present. *)
Definition timing_read (body : jsval) : list event :=
  if truthy (field body "timestamp") then [EDateNow] else [].

(** The debug logs and the call of the mail-send capability. *)
Definition send_events (recipient body : jsval) : list event :=
  [EConsole log `"=== EMAIL DEBUG ==="; EConsole log `"To:";
   EConsole log `"Subject:"; ESendEmail (mail_of recipient body)].

(** A truthy value that is not a string. *)
Definition untyped_text (v : jsval) : Prop :=
  truthy v = true /\ forall s, v <> VStr s.

(** The ten ways a request is handled: the outcome and the trace of
    each. *)
Inductive handler_run (w : world) (req : request) : M reply -> Prop :=
| run_wrong_method :
    ~ is_POST req ->
    handler_run w req (Normal method_not_allowed, [])
| run_no_body :
    is_POST req -> nullish req.(req_body) = true ->
    handler_run w req
      (Normal (failure (VStr (w.(TypeError_message)
                                (DestructureOfNullish "req.body"
                                   req.(req_body))))),
       error_logs)
| run_untyped_honeypot :
    is_POST req -> nullish req.(req_body) = false ->
    untyped_text (field req.(req_body) "honeypot") ->
    handler_run w req
      (Normal (failure (VStr (w.(TypeError_message)
                                (NotAFunction "honeypot" "trim"
                                   (field req.(req_body) "honeypot"))))),
       error_logs)
| run_honeypot_drop :
    is_POST req ->
    honeypot_filled (field req.(req_body) "honeypot") ->
    handler_run w req
      (Normal silentDrop,
       [EConsole warn `"Spam detected: Honeypot filled"])
| run_timing_drop :
    is_POST req ->
    honeypot_clean (field req.(req_body) "honeypot") ->
    timing_implausible w (field req.(req_body) "timestamp") ->
    handler_run w req
      (Normal silentDrop,
       [EDateNow; EConsole warn `"Spam detected: Suspicious timing"])
| run_unconvertible_timestamp err :
    is_POST req -> nullish req.(req_body) = false ->
    honeypot_clean (field req.(req_body) "honeypot") ->
    timing_unconvertible w (field req.(req_body) "timestamp") err ->
    handler_run w req
      (Normal (failure (field err "message")), [EDateNow] ++ error_logs)
| run_unroutable :
    is_POST req -> passes_spam_checks w req.(req_body) ->
    truthy (field req.(req_body) "to") = false ->
    untyped_text (field req.(req_body) "subject") ->
    (forall xs, field req.(req_body) "subject" <> VArr xs) ->
    handler_run w req
      (Normal (failure (VStr (w.(TypeError_message)
                                (NotAFunction "subject" "includes"
                                   (field req.(req_body) "subject"))))),
       timing_read req.(req_body) ++ error_logs)
| run_sent recipient response :
    is_POST req -> passes_spam_checks w req.(req_body) ->
    resolveRecipient w (field req.(req_body) "to")
      (field req.(req_body) "subject") = (Normal recipient, []) ->
    w.(sendEmail) (mail_of recipient req.(req_body)) = Normal response ->
    handler_run w req
      (Normal (success response),
       timing_read req.(req_body)
       ++ send_events recipient req.(req_body)
       ++ [EConsole log `"Email sent successfully!"])
| run_send_failed recipient err :
    is_POST req -> passes_spam_checks w req.(req_body) ->
    resolveRecipient w (field req.(req_body) "to")
      (field req.(req_body) "subject") = (Normal recipient, []) ->
    w.(sendEmail) (mail_of recipient req.(req_body)) = Throw err ->
    nullish err = false ->
    handler_run w req
      (Normal (failure (field err "message")),
       timing_read req.(req_body)
       ++ send_events recipient req.(req_body) ++ error_logs)
| run_escaped recipient err :
    is_POST req -> passes_spam_checks w req.(req_body) ->
    resolveRecipient w (field req.(req_body) "to")
      (field req.(req_body) "subject") = (Normal recipient, []) ->
    w.(sendEmail) (mail_of recipient req.(req_body)) = Throw err ->
    nullish err = true ->
    handler_run w req
      (Throw (TypeError w (ReadOfNullish "error" `"message" err)),
       timing_read req.(req_body)
       ++ send_events recipient req.(req_body)
       ++ [EConsole error `"=== EMAIL ERROR ===";
           EConsole error `"Full error:"]).

(* ------------------------------------------------------------------ *)
(** ** More sample submissions *)

Module Scenario.

Local Open Scope Z_scope.

(** The confirmation mail of a form: an explicit destination. *)
Definition confirmation (to : string) (subject : jsval) : jsval :=
  VObj [(`"to", VStr `to);
        (`"subject", subject);
        (`"htmlMessage", VStr `"<p>thank you</p>");
        (`"honeypot", VStr `"");
        (`"timestamp", VNum (Sample.opened 10000))].

(** A submission whose honeypot is the number 1. *)
Definition numeric_honeypot : jsval :=
  VObj [(`"subject", VStr `"Hello"); (`"honeypot", VNum Num.one)].

(** A submission whose subject is the number 1. *)
Definition numeric_subject : jsval :=
  VObj [(`"subject", VNum Num.one); (`"honeypot", VStr `"")].

(** The mail provider rejects with [null]. *)
Definition rejecting_with_null : world :=
  Sample.world_of Sample.environment Sample.now
    (Sample.http 200 (Sample.payload true Num.one "contact_form"))
    (Throw VNull).

(** No mailbox is configured. *)
Definition no_mailboxes : world :=
  Sample.world_of
    {| RECAPTCHA_SECRET_KEY := Some `"secret-key";
       PARTNER_EMAIL := None;
       FINANCING_EMAIL := Some [];
       RECIPIENT_EMAIL := None |}
    Sample.now
    (Sample.http 200 (Sample.payload true Num.one "contact_form"))
    (Normal (VStr `"message-id-1")).



(** A submission whose timestamp is an object with a property named
    [toString], which cannot be converted to a number. *)
Definition opaque_timestamp : jsval :=
  Sample.submission "Hello" ""
    (VObj [(`"toString", VNum Num.one)]).

(** A submission whose timestamp is the string "soon"; the sample worlds
    read every string as NaN. *)
Definition textual_timestamp : jsval :=
  Sample.submission "Hello" "" (VStr `"soon").

End Scenario.

(* ------------------------------------------------------------------ *)
(** ** The browser side: [browserSendEmail] and the forms *)

(** [ISendEmail], the argument of [browserSendEmail]. *)
Record ISendEmail : Type := {
  arg_to : option jsstring;
  arg_subject : jsstring;
  arg_htmlMessage : jsstring;
  arg_honeypot : option jsstring;
  arg_timestamp : option number
}.

(** An optional number: a number or [undefined]. *)
Definition number_value (o : option number) : jsval :=
  match o with Some x => VNum x | None => VUndefined end.

(** The object literal [{to, subject, htmlMessage, honeypot, timestamp}]
    that [browserSendEmail] posts. *)
Definition send_body (a : ISendEmail) : jsval :=
  VObj [(`"to", env_value a.(arg_to));
        (`"subject", VStr a.(arg_subject));
        (`"htmlMessage", VStr a.(arg_htmlMessage));
        (`"honeypot", env_value a.(arg_honeypot));
        (`"timestamp", number_value a.(arg_timestamp))].

(** The callbacks the forms hand to [setTimeout]. *)
Inductive timer : Type :=
| ResetForm      (* reset(), setIsFocused, setConsent(false),
                    formStartTime.current = Date.now() *)
| ClearError     (* setSubmittedError(null) *)
| ClearSuccess   (* setIsSubmittedSuccess(false) *).

(** What a form does, in order. *)
Inductive ui_event : Type :=
| Alert (message : jsstring)
| SetIsSubmitting (b : bool)
| SetIsSubmittedSuccess (b : bool)
| SetSubmittedError (message : jsval)
| SetTimeout (callback : timer) (ms : Z)
| AxiosPost (url : jsstring) (data : jsval).

(** What the browser code reads from outside its own text: [axios.post],
    the constants [EMAIL_SUBJECT] and [messages.user()] of the
    configuration, and the engine's [TypeError] messages. *)
Record browser : Type := {
  axios_post : jsstring -> jsval -> completion jsval;
  EMAIL_SUBJECT_PARTNER : jsstring;
  EMAIL_SUBJECT_FINANCING : jsstring;
  messages_user : jsstring;
  browser_TypeError_message : site -> jsstring
}.

(** Computations of the browser side. *)
Definition UI (A : Type) : Type := (completion A * list ui_event)%type.

Definition ui_ret {A} (a : A) : UI A := (Normal a, []).

Definition ui_bind {A B} (m : UI A) (k : A -> UI B) : UI B :=
  match m with
  | (Normal a, t) => let (r, t') := k a in (r, t ++ t')
  | (Throw e, t) => (Throw e, t)
  end.

Definition ui_emit (e : ui_event) : UI unit := (Normal tt, [e]).

(** [try { m } catch (err) { h err } finally { f }]: [f] runs in every
    case; the statement completes as [f] does when [f] throws, and
    otherwise as the [try] block or, when that threw, as the handler. *)
Definition try_catch_finally {A} (m : UI A) (h : jsval -> UI A)
    (f : UI unit) : UI A :=
  let (r1, t1) := m in
  let (r2, t2) :=
    match r1 with
    | Normal a => (Normal a, [])
    | Throw e => h e
    end in
  let (r3, t3) := f in
  (match r3 with Throw e => Throw e | Normal _ => r2 end, t1 ++ t2 ++ t3).

Notation "x <~ m ;; k" := (ui_bind m (fun x => k))
  (at level 61, m at next level, right associativity).
Notation "m >> k" := (ui_bind m (fun _ => k))
  (at level 61, right associativity).

(** The requests of a trace. *)
Definition is_post (e : ui_event) : bool :=
  match e with AxiosPost _ _ => true | _ => false end.
Definition posts (t : list ui_event) : list ui_event := filter is_post t.

(** What distinguishes the three forms: the subject constant, the text
    shown when the error carries no message, and whether the [finally]
    block schedules the clearing of the success flag. *)
Record form_variant : Type := {
  form_subject : jsstring;
  form_fallback : jsstring;
  form_clears_success : bool
}.

(** The state a submit handler closes over. *)
Record form_state : Type := {
  consent : bool;
  honeypot : jsstring;
  formStartTime : number
}.

Section Forms.

(** The values of a form ([IFormInput]), their [email] field, and
    [messages.admin(data)]. *)
Variable IFormInput : Type.
Variable email : IFormInput -> jsstring.
Variable messages_admin : IFormInput -> jsstring.

Variable b : browser.

(** [axios.post('/api/email', body)] *)
Definition browserSendEmail (a : ISendEmail) : UI jsval :=
  ui_emit (AxiosPost `"/api/email" (send_body a)) >>
  (b.(axios_post) `"/api/email" (send_body a), []).

(** The mail to the administrators: no destination. *)
Definition admin_mail (v : form_variant) (st : form_state)
    (data : IFormInput) : ISendEmail :=
  {| arg_to := None;
     arg_subject := v.(form_subject);
     arg_htmlMessage := messages_admin data;
     arg_honeypot := Some st.(honeypot);
     arg_timestamp := Some st.(formStartTime) |}.

(** The confirmation to the user. *)
Definition user_mail (v : form_variant) (st : form_state)
    (data : IFormInput) : ISendEmail :=
  {| arg_to := Some (email data);
     arg_subject := v.(form_subject);
     arg_htmlMessage := b.(messages_user);
     arg_honeypot := Some st.(honeypot);
     arg_timestamp := Some st.(formStartTime) |}.

(** [error.response?.data?.message] *)
Definition responseMessage (err : jsval) : UI jsval :=
  if nullish err then
    (Throw (mkError (b.(browser_TypeError_message)
                       (ReadOfNullish "error" `"response" err))), [])
  else
    let response := field err "response" in
    if nullish response then ui_ret VUndefined
    else
      let data := field response "data" in
      if nullish data then ui_ret VUndefined
      else ui_ret (field data "message").

(** The submit handler of a form. *)
Definition onSubmit (v : form_variant) (st : form_state)
    (data : IFormInput) : UI unit :=
  if negb st.(consent) then
    ui_emit (Alert `"Please check the consent box to proceed.")
  else
    ui_emit (SetIsSubmitting true) >>
    try_catch_finally
      (browserSendEmail (admin_mail v st data) >>
       browserSendEmail (user_mail v st data) >>
       ui_emit (SetIsSubmittedSuccess true) >>
       ui_emit (SetTimeout ResetForm 1000))
      (fun err =>
         message <~ responseMessage err ;;
         ui_emit (SetSubmittedError
                    (if truthy message then message
                     else VStr v.(form_fallback))) >>
         ui_emit (SetTimeout ClearError 3000))
      (ui_emit (SetIsSubmitting false) >>
       if v.(form_clears_success)
       then ui_emit (SetTimeout ClearSuccess 5000)
       else ui_ret tt).

(** [BecomeAPartnerDefaultForm] *)
Definition BecomeAPartnerDefaultForm_onSubmit
  : form_state -> IFormInput -> UI unit :=
  onSubmit {| form_subject := b.(EMAIL_SUBJECT_PARTNER);
              form_fallback := `"Submission failed";
              form_clears_success := true |}.

(** [ApplyForFinancingDefaultForm] *)
Definition ApplyForFinancingDefaultForm_onSubmit
  : form_state -> IFormInput -> UI unit :=
  onSubmit {| form_subject := b.(EMAIL_SUBJECT_FINANCING);
              form_fallback := `"Submission failed";
              form_clears_success := true |}.

(** [ApplyForFinancingModalForm] *)
Definition ApplyForFinancingModalForm_onSubmit
  : form_state -> IFormInput -> UI unit :=
  onSubmit {| form_subject := b.(EMAIL_SUBJECT_FINANCING);
              form_fallback := `"Submission failed. Please try again.";
              form_clears_success := false |}.

End Forms.

(** A number as it arrives after [JSON.stringify] and [JSON.parse]: NaN
    and the infinities are written as [null], and [-0] as [0]. *)
Definition wire_number (x : number) : jsval :=
  match x with
  | S754_nan | S754_infinity _ => VNull
  | S754_zero _ => VNum Num.zero
  | S754_finite _ _ _ => VNum x
  end.

(** A value as it arrives after [JSON.stringify] and [JSON.parse]: a
    property whose value is [undefined] is left out, and an [undefined]
    element of an array becomes [null]. *)
Fixpoint wire (v : jsval) : jsval :=
  match v with
  | VNum x => wire_number x
  | VArr xs =>
      VArr ((fix elements (xs : list jsval) : list jsval :=
               match xs with
               | [] => []
               | VUndefined :: rest => VNull :: elements rest
               | x :: rest => wire x :: elements rest
               end) xs)
  | VObj fields =>
      VObj ((fix properties (fs : list (jsstring * jsval))
               : list (jsstring * jsval) :=
               match fs with
               | [] => []
               | (_, VUndefined) :: rest => properties rest
               | (k, x) :: rest => (k, wire x) :: properties rest
               end) fields)
  | VUndefined | VNull | VBool _ | VStr _ => v
  end.

(** The request the endpoint receives for a posted body: axios writes the
    body as JSON and the endpoint is handed the parsed text. *)
Definition api_request (data : jsval) : request :=
  {| req_method := Some `"POST"; req_body := wire data |}.

(* ------------------------------------------------------------------ *)
(** ** Sample browsers and forms *)

Module Page.

Local Open Scope Z_scope.

(** What [axios.post] resolves to for a reply of the endpoint. *)
Definition axios_response (r : reply) : jsval :=
  VObj [(`"status", VNum (Num.of_Z r.(status))); (`"data", r.(json))].

(** What [axios.post] rejects with for a reply outside 2xx. *)
Definition axios_error (r : reply) : jsval :=
  VObj [(`"message", VStr `"Request failed");
        (`"response", axios_response r)].

Definition browser_of (post : jsstring -> jsval -> completion jsval)
  : browser :=
  {| axios_post := post;
     EMAIL_SUBJECT_PARTNER := `"Partner inquiry";
     EMAIL_SUBJECT_FINANCING := `"Financing request";
     messages_user := `"<p>thank you</p>";
     browser_TypeError_message := fun _ => `"TypeError" |}.

(** Every request resolves. *)
Definition online : browser :=
  browser_of (fun _ _ => Normal (axios_response silentDrop)).

(** Every request is rejected with the failure reply of the endpoint. *)
Definition failing : browser :=
  browser_of
    (fun _ _ => Throw (axios_error (failure (VStr `"SMTP timeout")))).

(** Every request is rejected with [undefined]. *)
Definition broken : browser := browser_of (fun _ _ => Throw VUndefined).

(** A form whose values are just the e-mail address. *)
Definition admin_html (address : jsstring) : jsstring :=
  `"<p>lead: " ++ address ++ `"</p>".

Definition filled_in : form_state :=
  {| consent := true; honeypot := []; formStartTime := Sample.opened 10000 |}.

Definition typed : ISendEmail :=
  {| arg_to := None;
     arg_subject := `"Partner inquiry";
     arg_htmlMessage := `"<p>lead</p>";
     arg_honeypot := Some [];
     arg_timestamp := Some (Sample.opened 10000) |}.

End Page.

(* ------------------------------------------------------------------ *)
(** ** Facts about strings *)

Lemma Str_eqb_eq (a b : jsstring) : Str.eqb a b = true <-> a = b.
Proof.
  revert b; induction a as [|x a IH]; intros [|y b]; simpl;
    try (split; [discriminate | congruence]).
  - split; reflexivity.
  - rewrite andb_true_iff, N.eqb_eq, IH. split.
    + intros [-> ->]; reflexivity.
    + intros E; injection E; auto.
Qed.

Lemma Str_eqb_refl (a : jsstring) : Str.eqb a a = true.
Proof. apply Str_eqb_eq; reflexivity. Qed.

Lemma trimStart_nil_iff (s : jsstring) : Str.trimStart s = [] <-> blank s.
Proof.
  unfold blank. induction s as [|x s IH]; simpl.
  - split; auto.
  - destruct (Str.is_ws x) eqn:W.
    + rewrite IH. split; [intros; constructor; assumption|].
      intros F; inversion F; assumption.
    + split; [discriminate|]. intros F; inversion F; congruence.
Qed.

Lemma trimStart_suffix (s : jsstring) :
  exists ws, s = ws ++ Str.trimStart s /\ blank ws.
Proof.
  induction s as [|x s (ws & E & B)]; simpl.
  - exists []; split; [reflexivity | constructor].
  - destruct (Str.is_ws x) eqn:W.
    + exists (x :: ws); split; [simpl; congruence | constructor; assumption].
    + exists []; split; [reflexivity | constructor].
Qed.

Lemma blank_app (a b : jsstring) : blank (a ++ b) <-> blank a /\ blank b.
Proof. unfold blank. apply Forall_app. Qed.

Lemma blank_rev (a : jsstring) : blank (rev a) <-> blank a.
Proof.
  unfold blank. rewrite !Forall_forall.
  split; intros H x I; apply H; [apply -> in_rev | apply <- in_rev]; exact I.
Qed.

(** Trimming leaves nothing exactly when the string is blank. *)
Lemma trim_nil_iff (s : jsstring) : Str.trim s = [] <-> blank s.
Proof.
  unfold Str.trim, Str.trimEnd.
  destruct (trimStart_suffix s) as (ws & E & B).
  split.
  - intros H.
    assert (R : Str.trimStart (rev (Str.trimStart s)) = []).
    { rewrite <- (rev_involutive (Str.trimStart _)), H. reflexivity. }
    apply (proj1 (trimStart_nil_iff _)) in R.
    apply (proj1 (blank_rev _)) in R.
    rewrite E. apply blank_app; split; assumption.
  - intros H. apply trimStart_nil_iff in H. rewrite H. reflexivity.
Qed.

(** A string that is not blank has a character that is not white space. *)
Lemma not_blank_iff (s : jsstring) :
  ~ blank s <-> Exists (fun c => Str.is_ws c = false) s.
Proof.
  unfold blank. induction s as [|x s IH].
  - split; [intros H; destruct H; constructor | intros H; inversion H].
  - split.
    + intros H. destruct (Str.is_ws x) eqn:W.
      * right. apply IH. intros F. apply H. constructor; assumption.
      * left. exact W.
    + intros H F. inversion F; subst. inversion H; subst; [congruence|].
      apply IH in H1. contradiction.
Qed.

Lemma startsWith_spec (s p : jsstring) :
  Str.startsWith s p = true <-> exists after, s = p ++ after.
Proof.
  revert s; induction p as [|x p IH]; intros s; simpl.
  - destruct s; split; eauto.
  - destruct s as [|y s].
    + split; [discriminate | intros (b & E); discriminate].
    + simpl. rewrite andb_true_iff, N.eqb_eq, IH. split.
      * intros (-> & b & ->). exists b; reflexivity.
      * intros (b & E). injection E as -> ->. eauto.
Qed.

(** [s.includes(p)] holds exactly when [p] occurs in [s]. *)
Lemma includes_spec (s p : jsstring) :
  Str.includes s p = true <-> contains s p.
Proof.
  unfold contains. induction s as [|y s IH]; cbn [Str.includes].
  - rewrite orb_false_r, startsWith_spec. split.
    + intros (b & E). exists [], b. exact E.
    + intros (a & b & E). destruct a; simpl in E.
      * eauto.
      * discriminate.
  - rewrite orb_true_iff, IH, startsWith_spec. split.
    + intros [(b & E) | (a & b & E)].
      * exists [], b. exact E.
      * exists (y :: a), b. simpl. congruence.
    + intros (a & b & E). destruct a as [|x a]; simpl in E.
      * left. eauto.
      * right. injection E as _ E. eauto.
Qed.

(* ------------------------------------------------------------------ *)
(** ** Facts about computations *)

Lemma run_eta {A} (m : M A) : m = (result m, trace m).
Proof. destruct m; reflexivity. Qed.

Lemma bind_normal {A B} (m : M A) (k : A -> M B) a :
  result m = Normal a ->
  bind m k = (result (k a), trace m ++ trace (k a)).
Proof.
  destruct m as [r t]; simpl; intros ->. destruct (k a); reflexivity.
Qed.

Lemma bind_throw {A B} (m : M A) (k : A -> M B) e :
  result m = Throw e -> bind m k = (Throw e, trace m).
Proof. destruct m as [r t]; simpl; intros ->. reflexivity. Qed.

Lemma try_catch_normal {A} (m : M A) h a :
  result m = Normal a -> try_catch m h = (Normal a, trace m).
Proof. destruct m as [r t]; simpl; intros ->. reflexivity. Qed.

Lemma try_catch_throw {A} (m : M A) h e :
  result m = Throw e ->
  try_catch m h = (result (h e), trace m ++ trace (h e)).
Proof.
  destruct m as [r t]; simpl; intros ->. destruct (h e); reflexivity.
Qed.

(* ------------------------------------------------------------------ *)
(** ** Facts about numbers *)

(** Integers of magnitude below 2^53 are binary64 values; on them the
    comparisons and the subtraction of the library agree with those of
    [Z].  Epoch timestamps in milliseconds are such integers. *)

Section Integers.

Local Open Scope Z_scope.

Lemma digits2_pos_size (p : positive) : digits2_pos p = Pos.size p.
Proof. induction p; simpl; congruence. Qed.

Lemma size_iter_xO (p k : positive) :
  Pos.size (Pos.iter xO p k) = (Pos.size p + k)%positive.
Proof.
  induction k as [|k IH] using Pos.peano_ind.
  - simpl. lia.
  - rewrite Pos.iter_succ. simpl. rewrite IH. lia.
Qed.

Lemma compare_iter_xO (p q k : positive) :
  Pos.compare (Pos.iter xO p k) (Pos.iter xO q k) = Pos.compare p q.
Proof.
  induction k as [|k IH] using Pos.peano_ind.
  - reflexivity.
  - rewrite !Pos.iter_succ. exact IH.
Qed.

Lemma size_bound (p : positive) :
  Zpos p < 2 ^ 53 -> Zpos (Pos.size p) <= 53.
Proof.
  intros H. pose proof (Pos.size_le p) as L.
  assert (L' : 2 ^ Zpos (Pos.size p) <= 2 * Zpos p).
  { rewrite <- Pos2Z.inj_pow. change (2 * Zpos p) with (Zpos p~0). lia. }
  destruct (Z.le_gt_cases (Zpos (Pos.size p)) 53) as [ok|bad]; [exact ok|].
  assert (2 ^ 54 <= 2 ^ Zpos (Pos.size p)) by (apply Z.pow_le_mono_r; lia).
  lia.
Qed.

Lemma round_canonical (s : bool) (m : positive) (e : Z) :
  Pos.size m = 53%positive -> -1074 <= e <= 971 ->
  binary_round_aux Num.prec Num.emax s (Zpos m) e loc_Exact
  = S754_finite s m e.
Proof.
  intros D E.
  unfold binary_round_aux, shr_fexp, fexp, emin, Num.prec, Num.emax.
  cbn [Zdigits2 shr_record_of_loc]. rewrite digits2_pos_size, D.
  replace (Z.max (53 + e - 53) (3 - 1024 - 53) - e) with 0 by lia.
  cbn [shr shr_m loc_of_shr_record round_nearest_even Zdigits2].
  rewrite digits2_pos_size, D.
  replace (Z.max (53 + e - 53) (3 - 1024 - 53) - e) with 0 by lia.
  cbn [shr shr_m].
  destruct (Z.leb_spec e (1024 - 53)); [reflexivity | lia].
Qed.

Lemma of_pos (s : bool) (p : positive) :
  Zpos p < 2 ^ 53 ->
  binary_round Num.prec Num.emax s p 0
  = S754_finite s (aligned_mantissa p) (Zpos (Pos.size p) - 53).
Proof.
  intros H. pose proof (size_bound p H) as B.
  unfold binary_round, shl_align, fexp, emin, Num.prec, Num.emax,
    aligned_mantissa.
  rewrite digits2_pos_size.
  replace (Z.max (Zpos (Pos.size p) + 0 - 53) (3 - 1024 - 53) - 0)
    with (Zpos (Pos.size p) - 53) by lia.
  replace (Z.max (Zpos (Pos.size p) + 0 - 53) (3 - 1024 - 53))
    with (Zpos (Pos.size p) - 53) by lia.
  destruct (Zpos (Pos.size p) - 53) as [|k|k] eqn:K.
  - apply round_canonical; lia.
  - lia.
  - apply round_canonical; [|lia]. rewrite size_iter_xO. lia.
Qed.

Lemma size_lt_lt (p q : positive) :
  Zpos (Pos.size p) < Zpos (Pos.size q) -> (p < q)%positive.
Proof.
  intros H.
  pose proof (Pos.size_gt p) as G. pose proof (Pos.size_le q) as L.
  assert (G' : Zpos p < 2 ^ Zpos (Pos.size p)).
  { rewrite <- Pos2Z.inj_pow. exact G. }
  assert (L' : 2 ^ Zpos (Pos.size q) <= 2 * Zpos q).
  { rewrite <- Pos2Z.inj_pow. exact L. }
  assert (M : 2 ^ (Zpos (Pos.size p) + 1) <= 2 ^ Zpos (Pos.size q))
    by (apply Z.pow_le_mono_r; lia).
  rewrite Z.pow_add_r in M by lia. change (2 ^ 1) with 2 in M. lia.
Qed.

Lemma compare_canon (p q : positive) :
  match Zpos (Pos.size p) - 53 ?= Zpos (Pos.size q) - 53 with
  | Eq => Pos.compare_cont Eq (aligned_mantissa p) (aligned_mantissa q)
  | Lt => Lt
  | Gt => Gt
  end = Pos.compare p q.
Proof.
  destruct (Z.compare_spec (Zpos (Pos.size p) - 53) (Zpos (Pos.size q) - 53))
    as [E|L|G].
  - unfold aligned_mantissa. rewrite E.
    destruct (Zpos (Pos.size q) - 53); try reflexivity.
    apply compare_iter_xO.
  - symmetry. apply Pos.compare_lt_iff, size_lt_lt. lia.
  - symmetry. apply Pos.compare_gt_iff, size_lt_lt. lia.
Qed.

Lemma SFcompare_of_Z (a b : Z) :
  Z.abs a < 2 ^ 53 -> Z.abs b < 2 ^ 53 ->
  SFcompare (Num.of_Z a) (Num.of_Z b) = Some (a ?= b).
Proof.
  intros A B. unfold Num.of_Z, binary_normalize.
  destruct a as [|p|p], b as [|q|q]; rewrite ?of_pos by exact A;
    rewrite ?of_pos by exact B; try reflexivity.
  - cbn [SFcompare]. rewrite compare_canon. reflexivity.
  - cbn [SFcompare Z.compare].
    rewrite <- (compare_canon p q).
    destruct (Zpos (Pos.size p) - 53 ?= Zpos (Pos.size q) - 53);
      reflexivity.
Qed.

Lemma le_of_Z (a b : Z) :
  Z.abs a < 2 ^ 53 -> Z.abs b < 2 ^ 53 ->
  Num.le (Num.of_Z a) (Num.of_Z b) = (a <=? b).
Proof.
  intros A B. unfold Num.le, SFleb, Z.leb. rewrite (SFcompare_of_Z _ _ A B).
  destruct (a ?= b); reflexivity.
Qed.

Lemma lt_of_Z (a b : Z) :
  Z.abs a < 2 ^ 53 -> Z.abs b < 2 ^ 53 ->
  Num.lt (Num.of_Z a) (Num.of_Z b) = (a <? b).
Proof.
  intros A B. unfold Num.lt, SFltb, Z.ltb. rewrite (SFcompare_of_Z _ _ A B).
  destruct (a ?= b); reflexivity.
Qed.

Lemma iter_xO_val (p k : positive) :
  Zpos (Pos.iter xO p k) = Zpos p * 2 ^ Zpos k.
Proof.
  induction k as [|k IH] using Pos.peano_ind.
  - simpl. lia.
  - rewrite Pos.iter_succ, Pos2Z.inj_xO, IH, Pos2Z.inj_succ, Z.pow_succ_r
      by lia.
    lia.
Qed.

Lemma iter_pos_iter {A} (f : A -> A) (n : positive) (x : A) :
  iter_pos f n x = Pos.iter f x n.
Proof.
  revert x; induction n as [n IH|n IH|]; intros x; simpl.
  - rewrite !IH, !Pos.iter_swap. reflexivity.
  - rewrite !IH. reflexivity.
  - reflexivity.
Qed.

Lemma shr_iter_xO (q j : positive) :
  iter_pos shr_1 j (exact_record (Zpos (Pos.iter xO q j)))
  = exact_record (Zpos q).
Proof.
  rewrite iter_pos_iter.
  induction j as [|j IH] using Pos.peano_ind.
  - reflexivity.
  - rewrite !Pos.iter_succ, <- Pos.iter_swap. exact IH.
Qed.

Lemma round_shifted (s : bool) (q j : positive) (e : Z) :
  Pos.size q = 53%positive -> -1074 <= e + Zpos j <= 971 ->
  binary_round_aux Num.prec Num.emax s (Zpos (Pos.iter xO q j)) e loc_Exact
  = S754_finite s q (e + Zpos j).
Proof.
  intros D E.
  unfold binary_round_aux, shr_fexp, fexp, emin, Num.prec, Num.emax.
  cbn [Zdigits2 shr_record_of_loc].
  rewrite digits2_pos_size, size_iter_xO, D.
  replace (Z.max (Zpos (53 + j) + e - 53) (3 - 1024 - 53) - e)
    with (Zpos j) by lia.
  cbn [shr]. fold (exact_record (Zpos (Pos.iter xO q j))).
  rewrite shr_iter_xO.
  cbn [exact_record shr_m loc_of_shr_record round_nearest_even Zdigits2
       shr_record_of_loc].
  rewrite digits2_pos_size, D.
  replace (Z.max (53 + (e + Zpos j) - 53) (3 - 1024 - 53) - (e + Zpos j))
    with 0 by lia.
  cbn [shr shr_m].
  destruct (Z.leb_spec (e + Zpos j) (1024 - 53)); [reflexivity | lia].
Qed.

Lemma round_shift (s : bool) (p k : positive) :
  Zpos p < 2 ^ 53 ->
  binary_round Num.prec Num.emax s (Pos.iter xO p k) (Zneg k)
  = binary_round Num.prec Num.emax s p 0.
Proof.
  intros H. rewrite (of_pos s p H). pose proof (size_bound p H) as B.
  unfold binary_round, shl_align, fexp, emin, Num.prec, Num.emax.
  rewrite digits2_pos_size, size_iter_xO.
  replace (Z.max (Zpos (Pos.size p + k) + Zneg k - 53) (3 - 1024 - 53))
    with (Zpos (Pos.size p) - 53) by lia.
  unfold aligned_mantissa.
  destruct (Zpos (Pos.size p) - 53 - Zneg k) as [|j|j] eqn:J.
  - rewrite round_canonical; [|rewrite size_iter_xO; lia | lia].
    replace (Zpos (Pos.size p) - 53) with (Zneg k) by lia. reflexivity.
  - destruct (Pos.eq_dec j k) as [->|NE].
    + rewrite round_shifted by lia.
      replace (Zpos (Pos.size p) - 53) with 0 by lia.
      f_equal. lia.
    + assert (L : (j < k)%positive) by lia.
      replace k with (j + (k - j))%positive at 1 by lia.
      rewrite Pos.iter_add.
      rewrite round_shifted; [|rewrite size_iter_xO; lia | lia].
      replace (Zpos (Pos.size p) - 53) with (Zneg (k - j)) by lia.
      f_equal. lia.
  - rewrite round_canonical; [|rewrite !size_iter_xO; lia | lia].
    replace (Zpos (Pos.size p) - 53) with (Zneg (j + k)) by lia.
    rewrite Pos.iter_add. reflexivity.
Qed.

Lemma normalize_shift (z k : Z) :
  0 <= k -> Z.abs z < 2 ^ 53 ->
  binary_normalize Num.prec Num.emax (z * 2 ^ k) (- k) false = Num.of_Z z.
Proof.
  intros K H. unfold Num.of_Z. destruct k as [|k|k]; [| |lia].
  - rewrite Z.mul_1_r. reflexivity.
  - destruct z as [|p|p].
    + reflexivity.
    + rewrite <- iter_xO_val. apply round_shift. exact H.
    + change (Zneg p) with (- Zpos p).
      rewrite Z.mul_opp_l, <- iter_xO_val. apply round_shift. exact H.
Qed.

Lemma aligned_mantissa_val (p : positive) :
  Zpos p < 2 ^ 53 ->
  Zpos (aligned_mantissa p) = Zpos p * 2 ^ (53 - Zpos (Pos.size p)).
Proof.
  intros H. pose proof (size_bound p H) as B. unfold aligned_mantissa.
  destruct (Zpos (Pos.size p) - 53) as [|k|k] eqn:K.
  - replace (53 - Zpos (Pos.size p)) with 0 by lia. lia.
  - lia.
  - rewrite iter_xO_val. f_equal. f_equal. lia.
Qed.

Lemma shl_align_val (m : positive) (e ez : Z) :
  ez <= e -> Zpos (fst (shl_align m e ez)) = Zpos m * 2 ^ (e - ez).
Proof.
  intros L. unfold shl_align. destruct (ez - e) as [|d|d] eqn:D.
  - replace (e - ez) with 0 by lia. cbn [fst]. lia.
  - lia.
  - cbn [fst]. rewrite iter_xO_val. f_equal. f_equal. lia.
Qed.

(** The aligned mantissa of an integer, with its sign. *)
Lemma aligned_val (s : bool) (p : positive) (ez : Z) :
  Zpos p < 2 ^ 53 -> ez <= Zpos (Pos.size p) - 53 ->
  cond_Zopp s
    (Zpos (fst (shl_align (aligned_mantissa p) (Zpos (Pos.size p) - 53) ez)))
  = cond_Zopp s (Zpos p) * 2 ^ (- ez).
Proof.
  intros H L. pose proof (size_bound p H) as B.
  rewrite (shl_align_val _ _ _ L), (aligned_mantissa_val _ H), <- Z.mul_assoc.
  rewrite <- Z.pow_add_r by lia.
  replace (53 - Zpos (Pos.size p) + (Zpos (Pos.size p) - 53 - ez))
    with (- ez) by lia.
  destruct s; cbn [cond_Zopp]; lia.
Qed.

Lemma sub_of_Z (a b : Z) :
  Z.abs a < 2 ^ 53 -> Z.abs b < 2 ^ 53 -> Z.abs (a - b) < 2 ^ 53 ->
  Num.sub (Num.of_Z a) (Num.of_Z b) = Num.of_Z (a - b).
Proof.
  intros A B AB.
  assert (F : forall (sa sb : bool) (p q : positive),
             Zpos p < 2 ^ 53 -> Zpos q < 2 ^ 53 ->
             Z.abs (cond_Zopp sa (Zpos p) - cond_Zopp sb (Zpos q)) < 2 ^ 53 ->
             Num.sub
               (S754_finite sa (aligned_mantissa p) (Zpos (Pos.size p) - 53))
               (S754_finite sb (aligned_mantissa q) (Zpos (Pos.size q) - 53))
             = Num.of_Z (cond_Zopp sa (Zpos p) - cond_Zopp sb (Zpos q))).
  { intros sa sb p q P Q PQ. unfold Num.sub, SFsub.
    pose proof (size_bound p P). pose proof (size_bound q Q).
    set (ez := Z.min (Zpos (Pos.size p) - 53) (Zpos (Pos.size q) - 53)).
    rewrite !aligned_val by (subst ez; lia).
    rewrite <- Z.mul_sub_distr_r.
    rewrite <- (Z.opp_involutive ez) at 2.
    apply normalize_shift; [subst ez; lia | exact PQ]. }
  unfold Num.of_Z at 1 2, binary_normalize.
  destruct a as [|p|p], b as [|q|q];
    rewrite ?of_pos by exact A; rewrite ?of_pos by exact B.
  - reflexivity.
  - unfold Num.of_Z, binary_normalize. cbn [Z.sub Z.opp Z.add].
    rewrite of_pos by exact B. reflexivity.
  - unfold Num.of_Z, binary_normalize. cbn [Z.sub Z.opp Z.add].
    rewrite of_pos by exact B. reflexivity.
  - rewrite Z.sub_0_r. unfold Num.of_Z, binary_normalize.
    rewrite of_pos by exact A. reflexivity.
  - apply (F false false p q A B AB).
  - apply (F false true p q A B AB).
  - rewrite Z.sub_0_r. unfold Num.of_Z, binary_normalize.
    rewrite of_pos by exact A. reflexivity.
  - apply (F true false p q A B AB).
  - apply (F true true p q A B AB).
Qed.

End Integers.

Lemma negative_below_3000 (x : number) :
  Num.negative x = true -> Num.ge x Num.c3000 = false.
Proof.
  destruct x as [s | s | | s m e]; try discriminate;
    destruct s; try discriminate; intros _; reflexivity.
Qed.

(** The literal [0.3] is 3/10 correctly rounded. *)
Lemma c0_3_is_3_div_10 : Num.c0_3 = Num.div (Num.of_Z 3) (Num.of_Z 10).
Proof. vm_compute. reflexivity. Qed.

(* ------------------------------------------------------------------ *)
(** ** The honeypot checker *)

(** C6.  [validateHoneypot] answers true exactly when the value is absent
    or blank (empty after trimming, that is, empty or made of white space
    only), and false exactly when the value has a character that is not
    white space.  It is a total function to [bool]: it emits no event and
    cannot throw. *)
Theorem validateHoneypot_clean_iff (honeypotValue : option jsstring) :
  (validateHoneypot honeypotValue = true <->
     honeypotValue = None
     \/ exists s, honeypotValue = Some s /\ Str.trim s = [] /\ blank s)
  /\ (validateHoneypot honeypotValue = false <->
        exists s, honeypotValue = Some s
                  /\ Exists (fun c => Str.is_ws c = false) s).
Proof.
  destruct honeypotValue as [s|]; simpl.
  - assert (T : negb (Str.truthy s) || Str.eqb (Str.trim s) [] = true
                <-> blank s).
    { rewrite orb_true_iff, Str_eqb_eq, trim_nil_iff.
      split; [intros [E|B]; [|exact B] | auto].
      destruct s; [constructor | discriminate]. }
    split.
    + rewrite T. split.
      * intros B. right. exists s. repeat split; [apply trim_nil_iff|]; exact B.
      * intros [E | (s' & E & _ & B)]; [discriminate|].
        injection E as <-. exact B.
    + rewrite <- not_true_iff_false, T, not_blank_iff. split.
      * intros X. exists s. split; [reflexivity | exact X].
      * intros (s' & E & X). injection E as <-. exact X.
  - split; split; auto; try discriminate.
    intros (s & E & _). discriminate.
Qed.

(* ------------------------------------------------------------------ *)
(** ** The timing heuristic *)

(** C5.  With [elapsed = Date.now() - timestamp], [validateTimestamp]
    returns (never throws) the truth of [3000 <= elapsed <= 1800000].  On
    integer milliseconds this is the order of the integers: when the clock
    and the timestamp are integers (of magnitude below 2^53, as epoch
    milliseconds are), the answer is true exactly when
    [3000 <= now - timestamp <= 1800000].  Both bounds are inclusive, 2999
    and 1800001 are rejected, and so is every negative [elapsed]. *)
Theorem validateTimestamp_window (w : world) (timestamp : number) :
  let elapsed := Num.sub w.(Date_now) timestamp in
  exists b,
    result (validateTimestamp w timestamp) = Normal b
    /\ (b = true <->
          Num.le Num.c3000 elapsed = true
          /\ Num.le elapsed Num.c1800000 = true)
    /\ (forall e : Z,
          (Z.abs e < 2 ^ 53)%Z -> elapsed = Num.of_Z e ->
          (b = true <-> (3000 <= e <= 1800000)%Z))
    /\ (forall now ts : Z,
          (Z.abs now < 2 ^ 53)%Z -> (Z.abs ts < 2 ^ 53)%Z ->
          (Z.abs (now - ts) < 2 ^ 53)%Z ->
          w.(Date_now) = Num.of_Z now -> timestamp = Num.of_Z ts ->
          (b = true <-> (3000 <= now - ts <= 1800000)%Z))
    /\ (elapsed = Num.of_Z 3000 -> b = true)
    /\ (elapsed = Num.of_Z 1800000 -> b = true)
    /\ (elapsed = Num.of_Z 2999 -> b = false)
    /\ (elapsed = Num.of_Z 1800001 -> b = false)
    /\ (Num.negative elapsed = true -> b = false).
Proof.
  intros elapsed.
  exists (Num.ge elapsed Num.c3000 && Num.le elapsed Num.c1800000).
  split; [reflexivity|].
  split; [apply andb_true_iff|].
  assert (I : forall e : Z,
             (Z.abs e < 2 ^ 53)%Z -> elapsed = Num.of_Z e ->
             (Num.ge elapsed Num.c3000 && Num.le elapsed Num.c1800000 = true
              <-> (3000 <= e <= 1800000)%Z)).
  { intros e B ->. unfold Num.ge, Num.c3000, Num.c1800000.
    fold (Num.le (Num.of_Z 3000) (Num.of_Z e)).
    rewrite !le_of_Z by (exact B || (cbn; lia)).
    rewrite andb_true_iff, !Z.leb_le. reflexivity. }
  split; [exact I|].
  split.
  { intros now ts Bn Bt Bd En Et. apply I; [exact Bd|].
    subst elapsed. rewrite En, Et. apply sub_of_Z; assumption. }
  repeat split; try (intros ->; vm_compute; reflexivity).
  intros N. rewrite (negative_below_3000 _ N). reflexivity.
Qed.

(** At the clock of [Sample.friendly], a form opened exactly 3000 ms ago is
    accepted, one opened 2999 ms ago or 1800001 ms ago is not, and neither
    is one stamped 5000 ms in the future. *)
Lemma validateTimestamp_window_witness :
  result (validateTimestamp Sample.friendly (Sample.opened 3000))
    = Normal true
  /\ result (validateTimestamp Sample.friendly (Sample.opened 1800000))
       = Normal true
  /\ result (validateTimestamp Sample.friendly (Sample.opened 2999))
       = Normal false
  /\ result (validateTimestamp Sample.friendly (Sample.opened 1800001))
       = Normal false
  /\ result (validateTimestamp Sample.friendly (Sample.opened (-5000)))
       = Normal false.
Proof.
  assert (W : forall ago : Z,
             (-10000 <= ago <= 2000000)%Z ->
             exists b,
               result (validateTimestamp Sample.friendly (Sample.opened ago))
               = Normal b
               /\ (b = true <-> (3000 <= ago <= 1800000)%Z)).
  { intros ago A.
    destruct (validateTimestamp_window Sample.friendly (Sample.opened ago))
      as (b & R & _ & _ & I & _).
    exists b. split; [exact R|].
    rewrite (I Sample.now (Sample.now - ago)%Z);
      unfold Sample.now; try reflexivity; lia. }
  refine (conj _ (conj _ (conj _ (conj _ _)))).
  - destruct (W 3000%Z) as (b & -> & I); [lia|].
    f_equal. apply I. lia.
  - destruct (W 1800000%Z) as (b & -> & I); [lia|].
    f_equal. apply I. lia.
  - destruct (W 2999%Z) as ([|] & -> & I); [lia| |reflexivity].
    assert (3000 <= 2999 <= 1800000)%Z by (apply I; reflexivity). lia.
  - destruct (W 1800001%Z) as ([|] & -> & I); [lia| |reflexivity].
    assert (3000 <= 1800001 <= 1800000)%Z by (apply I; reflexivity). lia.
  - destruct (W (-5000)%Z) as ([|] & -> & I); [lia| |reflexivity].
    assert (3000 <= -5000 <= 1800000)%Z by (apply I; reflexivity). lia.
Defined.

(* ------------------------------------------------------------------ *)
(** ** The spam gate *)

Lemma validateTimestamp_trace (w : world) (timestamp : number) :
  trace (validateTimestamp w timestamp) = [EDateNow].
Proof. reflexivity. Qed.

(** C1.  [validateSpam] checks the honeypot, then the timing, then the
    bot score, and stops at the first check that fails.  A filled honeypot
    gives "Honeypot field filled" with an empty trace: the clock is not read
    and the verifier is not called.  Otherwise implausible timing gives
    "Suspicious timing" and the trace holds the clock read only: the
    verifier is not called.  Otherwise the verdict of the verifier decides
    between "reCAPTCHA validation failed" and a valid result with no
    reason, and the trace is the clock read followed by the verifier's own
    trace.  An omitted [action] stands for ["contact_form"]. *)
Theorem validateSpam_ordered_short_circuit
    (w : world) (recaptchaToken : jsstring) (honeypot : option jsstring)
    (timestamp : number) (action : option jsstring) :
  let expected :=
    match action with Some a => a | None => `"contact_form" end in
  let run := validateSpam w recaptchaToken honeypot timestamp action in
  let verifier := validateRecaptcha w recaptchaToken expected in
  (validateHoneypot honeypot = false ->
     run = (Normal {| isValid := false;
                      reason := Some `"Honeypot field filled" |}, []))
  /\ (validateHoneypot honeypot = true ->
      result (validateTimestamp w timestamp) = Normal false ->
        run = (Normal {| isValid := false;
                         reason := Some `"Suspicious timing" |}, [EDateNow])
        /\ fetches (trace run) = [])
  /\ (validateHoneypot honeypot = true ->
      result (validateTimestamp w timestamp) = Normal true ->
      result verifier = Normal false ->
        run = (Normal {| isValid := false;
                         reason := Some `"reCAPTCHA validation failed" |},
               EDateNow :: trace verifier))
  /\ (validateHoneypot honeypot = true ->
      result (validateTimestamp w timestamp) = Normal true ->
      result verifier = Normal true ->
        run = (Normal {| isValid := true; reason := None |},
               EDateNow :: trace verifier)).
Proof.
  intros expected run verifier. subst run. unfold validateSpam.
  fold expected. fold verifier.
  refine (conj _ (conj _ (conj _ _))).
  - intros ->. reflexivity.
  - intros -> T. cbn [negb].
    rewrite (bind_normal _ _ _ T), validateTimestamp_trace.
    split; reflexivity.
  - intros -> T V. cbn [negb].
    rewrite (bind_normal _ _ _ T), validateTimestamp_trace. cbn [negb].
    rewrite (bind_normal _ _ _ V). cbn [negb result trace ret fst snd].
    rewrite app_nil_r. reflexivity.
  - intros -> T V. cbn [negb].
    rewrite (bind_normal _ _ _ T), validateTimestamp_trace. cbn [negb].
    rewrite (bind_normal _ _ _ V). cbn [negb result trace ret fst snd].
    rewrite app_nil_r. reflexivity.
Qed.

(** The four outcomes of the gate, each on a concrete submission: a filled
    honeypot; a form submitted after one second; a token the service
    denies; a clean submission. *)
Lemma validateSpam_ordered_short_circuit_witness :
  validateSpam Sample.friendly `"token" (Some `"spammerbot")
      (Sample.opened 10000) None
    = (Normal {| isValid := false;
                 reason := Some `"Honeypot field filled" |}, [])
  /\ validateSpam Sample.friendly `"token" None (Sample.opened 1000) None
     = (Normal {| isValid := false; reason := Some `"Suspicious timing" |},
        [EDateNow])
  /\ result (validateSpam Sample.denying `"token" (Some `"  ")
               (Sample.opened 10000) None)
     = Normal {| isValid := false;
                 reason := Some `"reCAPTCHA validation failed" |}
  /\ result (validateSpam Sample.friendly `"token" (Some [])
               (Sample.opened 10000) (Some `"contact_form"))
     = Normal {| isValid := true; reason := None |}.
Proof.
  refine (conj _ (conj _ (conj _ _))).
  - apply (validateSpam_ordered_short_circuit Sample.friendly `"token"
             (Some `"spammerbot") (Sample.opened 10000) None).
    reflexivity.
  - apply (validateSpam_ordered_short_circuit Sample.friendly `"token"
             None (Sample.opened 1000) None); reflexivity.
  - destruct (validateSpam_ordered_short_circuit Sample.denying `"token"
                (Some `"  ") (Sample.opened 10000) None)
      as (_ & _ & H & _).
    rewrite H; reflexivity.
  - destruct (validateSpam_ordered_short_circuit Sample.friendly `"token"
                (Some []) (Sample.opened 10000) (Some `"contact_form"))
      as (_ & _ & _ & H).
    rewrite H; reflexivity.
Defined.

(* ------------------------------------------------------------------ *)
(** ** The bot-score verifier *)

Lemma is_true_iff (v : jsval) : is_true v = true <-> v = VBool true.
Proof.
  destruct v as [| |[|]| | | |]; simpl; split;
    (discriminate || reflexivity || congruence).
Qed.

Lemma is_string_iff (v : jsval) (s : jsstring) :
  is_string v s = true <-> v = VStr s.
Proof.
  destruct v; simpl; try (split; (discriminate || congruence)).
  rewrite Str_eqb_eq. split; congruence.
Qed.

Lemma accepts_iff (w : world) (data : jsval) (expectedAction : jsstring) :
  accepts w data expectedAction = true <->
    field data "success" = VBool true
    /\ (exists score,
          ToNumber w (field data "score") = Normal score
          /\ Num.ge score Num.c0_3 = true)
    /\ field data "action" = VStr expectedAction.
Proof.
  unfold accepts.
  rewrite !andb_true_iff, is_true_iff, is_string_iff.
  destruct (ToNumber w (field data "score")) as [score|e].
  - split.
    + intros ((S & G) & A). eauto.
    + intros (S & (score' & E & G) & A). injection E as <-. auto.
  - split.
    + intros ((_ & G) & _). discriminate.
    + intros (_ & (score' & E & _) & _). discriminate.
Qed.

(** Reading the verdict off a payload emits nothing.  It throws when the
    payload is [null] or [undefined], or when [success] is true and the
    score cannot be converted to a number; the decision rule is false
    then. *)
Lemma recaptchaVerdict_spec (w : world) (data : jsval) (expected : jsstring) :
  exists r,
    recaptchaVerdict w data expected = (r, [])
    /\ match r with
       | Normal valid => valid = accepts w data expected
       | Throw _ => accepts w data expected = false
       end.
Proof.
  unfold recaptchaVerdict, accepts.
  destruct data as [| | b | x | s | xs | fields];
    try (eexists; split; reflexivity).
  cbn [getProp nullish field].
  unfold bind at 1; cbn [ret].
  destruct (is_true (lookup `"success" fields));
    [|eexists; split; reflexivity].
  unfold bind at 1; cbn [ret]. unfold lift.
  destruct (ToNumber w (lookup `"score" fields)) as [score|e];
    [|eexists; split; reflexivity].
  cbn [bind andb app].
  destruct (Num.ge score Num.c0_3); eexists; split; reflexivity.
Qed.

(** The verifier when a secret is configured and the service answers with
    a payload. *)
Lemma validateRecaptcha_answered
    (w : world) (token expected key : jsstring) r (data : jsval) :
  w.(env).(RECAPTCHA_SECRET_KEY) = Some key -> key <> [] ->
  w.(fetch) (siteverify key token) = Normal r ->
  r.(response_json) = Normal data ->
  result (validateRecaptcha w token expected)
  = Normal (accepts w data expected).
Proof.
  intros K NE F J. unfold validateRecaptcha. rewrite K.
  destruct key as [|c key]; [congruence|].
  cbn [env_value truthy Str.truthy negb].
  unfold doFetch. rewrite F.
  cbn [emit lift bind ret app]. rewrite J. cbn [lift bind app].
  destruct (recaptchaVerdict_spec w data expected) as ([valid|e] & -> & V).
  - rewrite <- V. destruct valid; reflexivity.
  - rewrite V. reflexivity.
Qed.

(** The verifier always returns; it never throws. *)
Lemma validateRecaptcha_returns (w : world) (token expected : jsstring) :
  exists b, result (validateRecaptcha w token expected) = Normal b.
Proof.
  unfold validateRecaptcha.
  destruct (negb (truthy (env_value (RECAPTCHA_SECRET_KEY (env w)))));
    [eexists; reflexivity|].
  unfold doFetch.
  destruct (fetch w _) as [r|e]; [|eexists; reflexivity].
  cbn [emit lift bind ret app].
  destruct (response_json r) as [data|e]; [|eexists; reflexivity].
  cbn [lift bind app].
  destruct (recaptchaVerdict_spec w data expected) as ([valid|e] & -> & _);
    [|eexists; reflexivity].
  destruct valid; eexists; reflexivity.
Qed.

(** C3.  With a secret configured and a payload received, the token is
    judged valid exactly when [success] is the boolean true, [score >= 0.3]
    and [action] is the expected action.  The threshold is the binary64
    value of the literal [0.3], that is 3/10 correctly rounded,
    5404319552844595 * 2^-54; the comparison is that of binary64 numbers on
    the score converted to a number (a score that cannot be converted gives
    false).  The threshold is inclusive: with [success] true and the action
    matching, the score 0.3 is valid and the score 0.2999 (2999/10000
    correctly rounded) is not. *)
Theorem validateRecaptcha_decision_rule
    (w : world) (token expected key : jsstring) r (data : jsval) :
  w.(env).(RECAPTCHA_SECRET_KEY) = Some key -> key <> [] ->
  w.(fetch) (siteverify key token) = Normal r ->
  r.(response_json) = Normal data ->
  let threshold := Num.div (Num.of_Z 3) (Num.of_Z 10) in
  exists valid,
    result (validateRecaptcha w token expected) = Normal valid
    /\ threshold = S754_finite false 5404319552844595 (-54)
    /\ (valid = true <->
          field data "success" = VBool true
          /\ (exists score,
                ToNumber w (field data "score") = Normal score
                /\ Num.ge score threshold = true)
          /\ field data "action" = VStr expected)
    /\ (field data "success" = VBool true ->
        field data "action" = VStr expected ->
          (field data "score" = VNum threshold -> valid = true)
          /\ (field data "score"
                = VNum (Num.div (Num.of_Z 2999) (Num.of_Z 10000)) ->
              valid = false)
          /\ (forall score,
                field data "score" = VNum score ->
                (valid = true <-> SFleb threshold score = true))).
Proof.
  intros K NE F J threshold. exists (accepts w data expected).
  split; [exact (validateRecaptcha_answered w token expected _ _ _ K NE F J)|].
  assert (T : threshold = Num.c0_3) by (vm_compute; reflexivity).
  split; [vm_compute; reflexivity|].
  rewrite T. split; [apply accepts_iff|].
  intros S A. unfold accepts. rewrite S, A. cbn [is_true is_string andb].
  rewrite Str_eqb_refl.
  refine (conj _ (conj _ _)).
  - intros ->. reflexivity.
  - intros ->. reflexivity.
  - intros score ->. cbn [ToNumber]. rewrite andb_true_r. reflexivity.
Qed.

(** The rule at the boundary: the service of [Sample.friendly] scored 0.9;
    here it scores exactly 0.3, then 0.2999. *)
Lemma validateRecaptcha_decision_rule_witness :
  result (validateRecaptcha
            (Sample.world_of Sample.environment Sample.now
               (Sample.http 200
                  (Sample.payload true (Num.div (Num.of_Z 3) (Num.of_Z 10))
                     "contact_form"))
               (Normal VNull))
            `"token" `"contact_form") = Normal true
  /\ result (validateRecaptcha
               (Sample.world_of Sample.environment Sample.now
                  (Sample.http 200
                     (Sample.payload true
                        (Num.div (Num.of_Z 2999) (Num.of_Z 10000))
                        "contact_form"))
                  (Normal VNull))
               `"token" `"contact_form") = Normal false.
Proof.
  split.
  - destruct (validateRecaptcha_decision_rule
                (Sample.world_of Sample.environment Sample.now
                   (Sample.http 200
                      (Sample.payload true
                         (Num.div (Num.of_Z 3) (Num.of_Z 10))
                         "contact_form"))
                   (Normal VNull))
                `"token" `"contact_form" `"secret-key" _ _
                eq_refl ltac:(discriminate) eq_refl eq_refl)
      as (valid & R & _ & _ & B).
    rewrite R. f_equal. apply B; reflexivity.
  - destruct (validateRecaptcha_decision_rule
                (Sample.world_of Sample.environment Sample.now
                   (Sample.http 200
                      (Sample.payload true
                         (Num.div (Num.of_Z 2999) (Num.of_Z 10000))
                         "contact_form"))
                   (Normal VNull))
                `"token" `"contact_form" `"secret-key" _ _
                eq_refl ltac:(discriminate) eq_refl eq_refl)
      as (valid & R & _ & _ & B).
    rewrite R. f_equal. apply B; reflexivity.
Defined.

(** C4, as the code has it.  The verifier never throws.  Without a secret
    (unset or empty) it returns false and makes no outbound call.  A
    rejected [fetch], a rejected [response.json()] and a payload whose
    [success] is not the boolean true (a payload that is [null], not an
    object, or lacks the field) all give false.  The status of the response
    is not read: a response is judged by its payload whatever its status. *)
Theorem validateRecaptcha_fails_closed
    (w : world) (token expected : jsstring) :
  let run := validateRecaptcha w token expected in
  let secret := w.(env).(RECAPTCHA_SECRET_KEY) in
  exists valid,
    result run = Normal valid
    /\ (secret = None \/ secret = Some [] ->
          valid = false /\ fetches (trace run) = [])
    /\ (forall key e,
          secret = Some key ->
          w.(fetch) (siteverify key token) = Throw e -> valid = false)
    /\ (forall key r e,
          secret = Some key ->
          w.(fetch) (siteverify key token) = Normal r ->
          r.(response_json) = Throw e -> valid = false)
    /\ (forall key r data,
          secret = Some key ->
          w.(fetch) (siteverify key token) = Normal r ->
          r.(response_json) = Normal data ->
          field data "success" <> VBool true -> valid = false)
    /\ (forall key r data,
          secret = Some key -> key <> [] ->
          w.(fetch) (siteverify key token) = Normal r ->
          r.(response_json) = Normal data ->
          valid = accepts w data expected).
Proof.
  intros run secret.
  destruct (validateRecaptcha_returns w token expected) as (valid & R).
  exists valid. split; [exact R|].
  assert (U : secret = None \/ secret = Some [] ->
              run = (Normal false,
                     [EConsole error `"RECAPTCHA_SECRET_KEY not configured"])).
  { subst run secret. unfold validateRecaptcha.
    intros [-> | ->]; reflexivity. }
  assert (Inj : forall b, result run = Normal b -> valid = b).
  { intros b E. subst run. rewrite R in E. congruence. }
  refine (conj _ (conj _ (conj _ (conj _ _)))).
  - intros S. rewrite (U S) in *. split; [apply Inj|]; reflexivity.
  - intros key e K F. destruct key as [|c key].
    + apply Inj. rewrite U by auto. reflexivity.
    + apply Inj. subst run secret. unfold validateRecaptcha, doFetch.
      rewrite K, F. reflexivity.
  - intros key r e K F J. destruct key as [|c key].
    + apply Inj. rewrite U by auto. reflexivity.
    + apply Inj. subst run secret. unfold validateRecaptcha, doFetch.
      rewrite K, F. cbn [env_value truthy Str.truthy negb emit lift bind app].
      rewrite J. reflexivity.
  - intros key r data K F J NS. destruct key as [|c key].
    + apply Inj. rewrite U by auto. reflexivity.
    + apply Inj. subst run secret.
      rewrite (validateRecaptcha_answered w token expected _ _ _ K
                 ltac:(discriminate) F J).
      f_equal. unfold accepts.
      destruct (is_true (field data "success")) eqn:T; [|reflexivity].
      apply is_true_iff in T. contradiction.
  - intros key r data K NE F J. apply Inj.
    exact (validateRecaptcha_answered w token expected _ _ _ K NE F J).
Qed.

(** Fail-closed on concrete worlds: no secret; the service answers with a
    denial. *)
Lemma validateRecaptcha_fails_closed_witness :
  validateRecaptcha Sample.no_secret `"token" `"contact_form"
    = (Normal false,
       [EConsole error `"RECAPTCHA_SECRET_KEY not configured"])
  /\ result (validateRecaptcha Sample.denying `"token" `"contact_form")
     = Normal false.
Proof.
  split.
  - destruct (validateRecaptcha_fails_closed Sample.no_secret
                `"token" `"contact_form") as (valid & R & U & _).
    destruct (U (or_introl eq_refl)) as (-> & _).
    rewrite (run_eta (validateRecaptcha _ _ _)), R. reflexivity.
  - destruct (validateRecaptcha_fails_closed Sample.denying
                `"token" `"contact_form") as (valid & R & _ & _ & _ & D & _).
    rewrite R. f_equal.
    apply (D `"secret-key" _ _ eq_refl eq_refl eq_refl). discriminate.
Defined.

(** C4 as stated fails: the service of [Sample.failing_service] answers
    with status 503, which is not a 2xx status, and the verifier still
    returns true, because the payload of that response reads as a pass. *)
Lemma validateRecaptcha_accepts_non_2xx :
  exists r,
    Sample.failing_service.(fetch)
      (siteverify `"secret-key" `"token") = Normal r
    /\ r.(response_status) = 503%Z
    /\ ~ (200 <= r.(response_status) < 300)%Z
    /\ result (validateRecaptcha Sample.failing_service
                 `"token" `"contact_form") = Normal true.
Proof.
  eexists. split; [reflexivity|].
  split; [reflexivity|]. split; [cbn; lia | reflexivity].
Qed.

(* ------------------------------------------------------------------ *)
(** ** Facts about the parts of the endpoint *)

Lemma bind_ret {A B} (a : A) (k : A -> M B) : bind (ret a) k = k a.
Proof. unfold bind, ret. destruct (k a); reflexivity. Qed.

Lemma bind_pure {A B} (a : A) (k : A -> M B) : bind (Normal a, []) k = k a.
Proof. exact (bind_ret a k). Qed.

Lemma bind_pair {A B} (a : A) (t : list event) (k : A -> M B) :
  bind (Normal a, t) k = (result (k a), t ++ trace (k a)).
Proof. exact (bind_normal (Normal a, t) k a eq_refl). Qed.

Lemma getProp_field (w : world) (object : string) (v : jsval) (k : string) :
  nullish v = false -> getProp w object v `k = ret (field v k).
Proof. destruct v; try discriminate; reflexivity. Qed.

Lemma getProp_nullish (w : world) (object : string) (v : jsval)
    (k : jsstring) :
  nullish v = true ->
  getProp w object v k = throw (TypeError w (ReadOfNullish object k v)).
Proof. destruct v; try discriminate; reflexivity. Qed.

Lemma destructure_value (w : world) (object : string) (v : jsval) :
  nullish v = false -> destructure w object v = ret tt.
Proof. destruct v; try discriminate; reflexivity. Qed.

Lemma destructure_nullish (w : world) (object : string) (v : jsval) :
  nullish v = true ->
  destructure w object v
  = throw (TypeError w (DestructureOfNullish object v)).
Proof. destruct v; try discriminate; reflexivity. Qed.

(** Joining the elements of an array throws nothing but the engine's
    [TypeError] for an object that cannot be converted. *)
Lemma ToString_array (w : world) (xs : list jsval) :
  ToString w (VArr xs) = join w xs.
Proof.
  induction xs as [|x rest IH]; [reflexivity|].
  cbn [join]. rewrite <- IH. reflexivity.
Qed.

(** Induction on a value through the elements of its arrays. *)
Lemma jsval_elements_ind (P : jsval -> Prop) :
  P VUndefined -> P VNull -> (forall b, P (VBool b)) ->
  (forall x, P (VNum x)) -> (forall s, P (VStr s)) ->
  (forall xs, Forall P xs -> P (VArr xs)) ->
  (forall fields, P (VObj fields)) ->
  forall v, P v.
Proof.
  intros HU HN HB HX HS HA HO.
  fix IH 1. intros [| | b | x | s | xs | fields].
  - exact HU.
  - exact HN.
  - exact (HB b).
  - exact (HX x).
  - exact (HS s).
  - apply HA. induction xs as [|x rest IHrest]; constructor;
      [apply IH | exact IHrest].
  - exact (HO fields).
Qed.

Lemma ToString_throws (w : world) (v e : jsval) :
  ToString w v = Throw e -> exists v', e = TypeError w (NotConvertible v').
Proof.
  revert e. induction v as [| | b | x | s | xs IH | fields]
    using jsval_elements_ind; intros e; try discriminate.
  - rewrite ToString_array. revert e.
    induction IH as [|x rest Hx _ IHrest]; intros e; [discriminate|].
    cbn [join].
    destruct (element w x) as [s|e'] eqn:Ex.
    + destruct rest as [|y rest']; [discriminate|].
      destruct (join w (y :: rest')) as [s'|e''] eqn:Er; [discriminate|].
      intros H. injection H as <-. exact (IHrest _ eq_refl).
    + intros H. injection H as <-.
      destruct x; try discriminate Ex; exact (Hx _ Ex).
  - intros H. simpl in H.
    match type of H with
    | (if ?c then _ else _) = _ => destruct c; [|discriminate H]
    end.
    injection H as <-. eexists. reflexivity.
Qed.

Lemma ToNumber_throws (w : world) (v e : jsval) :
  ToNumber w v = Throw e -> exists v', e = TypeError w (NotConvertible v').
Proof.
  destruct v as [| | b | x | s | xs | fields]; try discriminate;
    unfold ToNumber;
    match goal with
    | |- context [ToString w ?v] =>
        destruct (ToString w v) as [s|e'] eqn:E; [discriminate|];
          intros H; injection H as <-; exact (ToString_throws w _ _ E)
    end.
Qed.

(** The value thrown by a failed conversion is an [Error] with a
    message. *)
Lemma ToNumber_error (w : world) (v e : jsval) :
  ToNumber w v = Throw e ->
  nullish e = false /\ exists m, field e "message" = VStr m.
Proof.
  intros H. destruct (ToNumber_throws w _ _ H) as (v' & ->).
  split; [reflexivity | eexists; reflexivity].
Qed.

Lemma ToNumber_primitive (w : world) (v : jsval) :
  (forall xs, v <> VArr xs) -> (forall fields, v <> VObj fields) ->
  exists x, ToNumber w v = Normal x.
Proof.
  intros A O. destruct v; try (eexists; reflexivity).
  - destruct (A xs). reflexivity.
  - destruct (O fields). reflexivity.
Qed.

Lemma not_blank_truthy (s : jsstring) : ~ blank s -> Str.truthy s = true.
Proof. destruct s; [intros H; destruct H; constructor | reflexivity]. Qed.

Lemma honeypotFilled_filled (w : world) (honeypot : jsval) :
  honeypot_filled honeypot -> honeypotFilled w honeypot = (Normal true, []).
Proof.
  intros (s & -> & NB). unfold honeypotFilled. cbn [truthy callTrim].
  rewrite (not_blank_truthy _ NB), bind_ret.
  destruct (Str.eqb (Str.trim s) []) eqn:E; [|reflexivity].
  apply Str_eqb_eq, trim_nil_iff in E. contradiction.
Qed.

Lemma honeypotFilled_clean (w : world) (honeypot : jsval) :
  honeypot_clean honeypot -> honeypotFilled w honeypot = (Normal false, []).
Proof.
  unfold honeypotFilled. intros [F | (s & -> & B)].
  - rewrite F. reflexivity.
  - cbn [truthy callTrim]. destruct (Str.truthy s); [|reflexivity].
    rewrite bind_ret. apply trim_nil_iff in B. rewrite B. reflexivity.
Qed.

Lemma timingSuspicious_implausible (w : world) (timestamp : jsval) :
  timing_implausible w timestamp ->
  timingSuspicious w timestamp = (Normal true, [EDateNow]).
Proof.
  unfold timing_implausible, elapsed, timingSuspicious.
  intros (-> & e & E & H).
  destruct (ToNumber w timestamp) as [started|err]; [|discriminate].
  injection E as <-.
  cbn [DateNow emit bind ret app lift].
  destruct H as [-> | ->]; rewrite ?orb_true_r; reflexivity.
Qed.

Lemma timingSuspicious_accepted (w : world) (timestamp : jsval) :
  timing_accepted w timestamp ->
  timingSuspicious w timestamp
  = (Normal false, if truthy timestamp then [EDateNow] else []).
Proof.
  unfold timing_accepted, elapsed, timingSuspicious.
  intros [-> | (e & E & L & G)].
  - reflexivity.
  - destruct (truthy timestamp); [|reflexivity].
    destruct (ToNumber w timestamp) as [started|err]; [|discriminate].
    injection E as <-.
    cbn [DateNow emit bind ret app lift]. rewrite L, G. reflexivity.
Qed.

(** A timestamp that cannot be converted: the subtraction throws, after
    the clock was read. *)
Lemma timingSuspicious_unconvertible (w : world) (timestamp err : jsval) :
  timing_unconvertible w timestamp err ->
  timingSuspicious w timestamp = (Throw err, [EDateNow]).
Proof.
  unfold timing_unconvertible, timingSuspicious. intros (-> & ->). reflexivity.
Qed.


(** The timing test of the endpoint on integer milliseconds. *)
Lemma timing_implausible_integers (w : world) (now ts : Z) :
  (Z.abs now < 2 ^ 53)%Z -> (Z.abs ts < 2 ^ 53)%Z ->
  (Z.abs (now - ts) < 2 ^ 53)%Z ->
  w.(Date_now) = Num.of_Z now ->
  (timing_implausible w (VNum (Num.of_Z ts)) <->
     ts <> 0%Z /\ (now - ts < 3000 \/ 1800000 < now - ts)%Z).
Proof.
  intros Bn Bt Bd En. unfold timing_implausible, elapsed.
  cbn [ToNumber truthy]. rewrite En, (sub_of_Z _ _ Bn Bt Bd).
  assert (T : Num.truthy (Num.of_Z ts) = true <-> ts <> 0%Z).
  { unfold Num.of_Z, binary_normalize.
    destruct ts as [|p|p]; rewrite ?of_pos by exact Bt; cbn [Num.truthy];
      split; (congruence || discriminate || reflexivity). }
  assert (O : (Num.lt (Num.of_Z (now - ts)) Num.c3000 = true
               \/ Num.gt (Num.of_Z (now - ts)) Num.c1800000 = true)
              <-> (now - ts < 3000 \/ 1800000 < now - ts)%Z).
  { unfold Num.gt, Num.c3000, Num.c1800000.
    fold (Num.lt (Num.of_Z 1800000) (Num.of_Z (now - ts))).
    rewrite !lt_of_Z by (exact Bd || (cbn; lia)).
    rewrite !Z.ltb_lt. reflexivity. }
  rewrite T, <- O. split.
  - intros (NZ & e & E & H). injection E as <-. auto.
  - intros (NZ & H). eauto.
Qed.

(** Resolving the recipient emits nothing. *)
Lemma resolveRecipient_trace (w : world) (to subject : jsval) :
  trace (resolveRecipient w to subject) = [].
Proof.
  unfold resolveRecipient, subjectIncludes.
  destruct (truthy to); [reflexivity|]. cbn [negb].
  destruct (truthy subject); [|reflexivity].
  destruct subject as [| | b | x | s | xs | fields]; try reflexivity;
    cbn [callIncludes]; rewrite bind_ret.
  - destruct (Str.includes s _); [reflexivity|]. rewrite bind_ret.
    destruct (Str.includes s _); reflexivity.
  - destruct (existsb _ xs); [reflexivity|]. rewrite bind_ret.
    destruct (existsb _ xs); reflexivity.
Qed.

(** The routing rules on a textual subject, first match first. *)
Lemma resolveRecipient_routes (w : world) (to subject : jsval) :
  truthy to = false -> subject_textual subject ->
  exists recipient,
    resolveRecipient w to subject = (Normal recipient, [])
    /\ (subject_tagged subject "Partner" -> recipient = partner_mailbox w)
    /\ (~ subject_tagged subject "Partner" ->
        subject_tagged subject "Financing" ->
          recipient = financing_mailbox w)
    /\ (~ subject_tagged subject "Partner" ->
        ~ subject_tagged subject "Financing" ->
          recipient = default_mailbox w).
Proof.
  intros T X. unfold resolveRecipient, subjectIncludes. rewrite T. cbn [negb].
  assert (Untagged : truthy subject = false ->
                     ~ subject_tagged subject "Partner"
                     /\ ~ subject_tagged subject "Financing").
  { intros F; split; intros (s & -> & a & b & E);
      (destruct s; [destruct a; discriminate | discriminate]). }
  destruct (truthy subject) eqn:TS.
  - destruct X as [F | (s & ->)]; [congruence|].
    cbn [callIncludes]. rewrite bind_ret.
    assert (Tag : forall tag, Str.includes s `tag = true
                              <-> subject_tagged (VStr s) tag).
    { intros tag. rewrite includes_spec. split.
      - intros C. exists s. auto.
      - intros (s' & E & C). injection E as <-. exact C. }
    destruct (Str.includes s `"Partner") eqn:P.
    + eexists. split; [reflexivity|]. apply Tag in P.
      refine (conj _ (conj _ _)); intros; (reflexivity || tauto).
    + rewrite bind_ret. assert (NP : ~ subject_tagged (VStr s) "Partner").
      { rewrite <- Tag, P. discriminate. }
      destruct (Str.includes s `"Financing") eqn:Fi.
      * eexists. split; [reflexivity|]. apply Tag in Fi.
        refine (conj _ (conj _ _)); intros; (reflexivity || tauto).
      * assert (NF : ~ subject_tagged (VStr s) "Financing").
        { rewrite <- Tag, Fi. discriminate. }
        eexists. split; [reflexivity|].
        refine (conj _ (conj _ _)); intros; (reflexivity || tauto).
  - rewrite !bind_ret. eexists. split; [reflexivity|].
    destruct (Untagged eq_refl).
    refine (conj _ (conj _ _)); intros; (reflexivity || tauto).
Qed.

Lemma bind_emit {B} (e : event) (k : unit -> M B) :
  bind (emit e) k = (result (k tt), e :: trace (k tt)).
Proof. unfold bind, emit. destruct (k tt); reflexivity. Qed.

Lemma handler_POST (w : world) (req : request) :
  is_POST req ->
  handler w req = try_catch (handlerTry w req.(req_body)) (handlerCatch w).
Proof. unfold is_POST, handler. intros ->. reflexivity. Qed.

Lemma handler_not_POST (w : world) (req : request) :
  ~ is_POST req ->
  handler w req
  = (Normal {| status := 405;
               json := VObj [(`"error", VStr `"Method not allowed")] |}, []).
Proof.
  unfold is_POST, handler, not_POST.
  destruct (req_method req) as [m|]; intros N; [|reflexivity].
  destruct (Str.eqb m `"POST") eqn:E; [|reflexivity].
  apply Str_eqb_eq in E. subst m. destruct N. reflexivity.
Qed.

Lemma detects_spam_body (w : world) (body : jsval) :
  detects_spam w body -> nullish body = false.
Proof.
  intros [(s & E & _) | (_ & T & _)]; destruct body; try reflexivity;
    discriminate.
Qed.

(** Destructuring [req.body] reads five fields and emits nothing. *)
Ltac enter_try N :=
  unfold handlerTry;
  rewrite (destructure_value _ _ _ N), !(getProp_field _ _ _ _ N), !bind_ret.

Lemma handlerTry_no_body (w : world) (body : jsval) :
  nullish body = true ->
  handlerTry w body
  = (Throw (TypeError w (DestructureOfNullish "req.body" body)), []).
Proof.
  intros N. unfold handlerTry. rewrite (destructure_nullish _ _ _ N).
  reflexivity.
Qed.

(** Detected spam: the silent drop, after a warning and nothing else (the
    timing branch reads the clock first). *)
Lemma handlerTry_detected (w : world) (body : jsval) :
  detects_spam w body ->
  result (handlerTry w body) = Normal silentDrop
  /\ mails (trace (handlerTry w body)) = [].
Proof.
  intros D. pose proof (detects_spam_body _ _ D) as N. enter_try N.
  destruct D as [F | (C & T)].
  - rewrite (honeypotFilled_filled w _ F). split; reflexivity.
  - rewrite (honeypotFilled_clean w _ C), bind_pure.
    rewrite (timingSuspicious_implausible _ _ T). split; reflexivity.
Qed.

(** Passed checks: the mail is sent to the resolved recipient, and the
    outcome of the capability is the outcome of the [try] block. *)
Lemma handlerTry_passed (w : world) (body recipient : jsval) :
  passes_spam_checks w body ->
  result (resolveRecipient w (field body "to") (field body "subject"))
    = Normal recipient ->
  handlerTry w body
  = (match w.(sendEmail) (mail_of recipient body) with
     | Normal r => Normal {| status := 200; json := envelope true r VNull |}
     | Throw e => Throw e
     end,
     (if truthy (field body "timestamp") then [EDateNow] else [])
     ++ [EConsole log `"=== EMAIL DEBUG ==="; EConsole log `"To:";
         EConsole log `"Subject:"; ESendEmail (mail_of recipient body)]
     ++ match w.(sendEmail) (mail_of recipient body) with
        | Normal _ => [EConsole log `"Email sent successfully!"]
        | Throw _ => []
        end).
Proof.
  intros (N & C & T) R. enter_try N.
  rewrite (honeypotFilled_clean w _ C), bind_pure.
  rewrite (timingSuspicious_accepted _ _ T).
  rewrite bind_pair.
  rewrite (bind_normal _ _ _ R), resolveRecipient_trace.
  unfold console, doSendEmail. rewrite !bind_emit.
  fold (mail_of recipient body).
  destruct (sendEmail w (mail_of recipient body)) as [r|e];
    cbn [lift bind result trace fst snd ret app emit]; reflexivity.
Qed.

(** The [catch] block on a thrown value whose properties can be read. *)
Lemma handlerCatch_readable (w : world) (err : jsval) :
  nullish err = false ->
  handlerCatch w err
  = (Normal {| status := 500;
               json := envelope false VNull (field err "message") |},
     [EConsole error `"=== EMAIL ERROR ==="; EConsole error `"Full error:";
      EConsole error `"Error message:"]).
Proof.
  intros N. unfold handlerCatch, console.
  rewrite !(getProp_field _ _ _ _ N).
  repeat (rewrite ?bind_emit, ?bind_ret; cbn beta).
  reflexivity.
Qed.



(* ------------------------------------------------------------------ *)
(** ** The submission dispatcher *)

(** C2.  A submission in which the endpoint detects spam (a filled
    honeypot, or else a clean honeypot and implausible timing: a timestamp
    that reads as a number and lies less than 3000 ms or more than
    1800000 ms before the clock) is answered with status 200 and the object
    [{success: true, response: null, error: null}], and the mail-send
    capability is not invoked.  In particular this is the answer to a
    submission whose honeypot is "spammerbot", whatever its other fields,
    and to a submission with a clean honeypot whose timestamp, in integer
    milliseconds, is less than 3000 ms or more than 1800000 ms before the
    clock. *)
Theorem handler_silently_drops_spam (w : world) (req : request) :
  is_POST req ->
  let run := handler w req in
  let dropped :=
    result run = Normal {| status := 200;
                           json := VObj [(`"success", VBool true);
                                         (`"response", VNull);
                                         (`"error", VNull)] |}
    /\ mails (trace run) = [] in
  (detects_spam w req.(req_body) -> dropped)
  /\ (field req.(req_body) "honeypot" = VStr `"spammerbot" -> dropped)
  /\ (forall now ts : Z,
        (Z.abs now < 2 ^ 53)%Z -> (Z.abs ts < 2 ^ 53)%Z ->
        (Z.abs (now - ts) < 2 ^ 53)%Z ->
        w.(Date_now) = Num.of_Z now ->
        honeypot_clean (field req.(req_body) "honeypot") ->
        field req.(req_body) "timestamp" = VNum (Num.of_Z ts) ->
        ts <> 0%Z -> (now - ts < 3000 \/ 1800000 < now - ts)%Z ->
        dropped).
Proof.
  intros P run dropped.
  assert (D : detects_spam w (req_body req) -> dropped).
  { intros D. destruct (handlerTry_detected _ _ D) as (R & S).
    subst dropped run. rewrite (handler_POST w _ P).
    rewrite (try_catch_normal _ _ _ R). split; [reflexivity | exact S]. }
  split; [exact D|]. split.
  - intros H. apply D. left. exists `"spammerbot". split; [exact H|].
    intros B. inversion B as [|c s W _]. discriminate W.
  - intros now ts Bn Bt Bd En C Et NZ Out. apply D. right.
    split; [exact C|]. rewrite Et.
    apply (timing_implausible_integers w now ts Bn Bt Bd En). auto.
Qed.

(** The scenario of the specification at [Sample.friendly], with a
    plausible timestamp and with none. *)
Lemma handler_silently_drops_spam_witness :
  (result (handler Sample.friendly
             (Sample.post (Sample.submission "Partner inquiry" "spammerbot"
                             (VNum (Sample.opened 10000)))))
   = Normal {| status := 200;
               json := VObj [(`"success", VBool true); (`"response", VNull);
                             (`"error", VNull)] |}
   /\ mails (trace (handler Sample.friendly
                      (Sample.post
                         (Sample.submission "Partner inquiry" "spammerbot"
                            (VNum (Sample.opened 10000)))))) = [])
  /\ (result (handler Sample.friendly
                (Sample.post (Sample.submission "Hello" ""
                                (VNum (Sample.opened 1000)))))
      = Normal {| status := 200;
                  json := VObj [(`"success", VBool true);
                                (`"response", VNull); (`"error", VNull)] |}
      /\ mails (trace (handler Sample.friendly
                         (Sample.post
                            (Sample.submission "Hello" ""
                               (VNum (Sample.opened 1000)))))) = []).
Proof.
  split.
  - apply (proj1 (proj2 (handler_silently_drops_spam Sample.friendly
             (Sample.post (Sample.submission "Partner inquiry" "spammerbot"
                             (VNum (Sample.opened 10000))))
             eq_refl))).
    reflexivity.
  - apply (proj2 (proj2 (handler_silently_drops_spam Sample.friendly
             (Sample.post (Sample.submission "Hello" ""
                             (VNum (Sample.opened 1000))))
             eq_refl)) Sample.now (Sample.now - 1000)%Z);
      try reflexivity; try (unfold Sample.now; lia).
    right. exists []. split; [reflexivity | constructor].
Defined.

(** C7.  For a submission that passes the spam checks (a body that can be
    destructured, a clean honeypot, and no timestamp or one that reads as a
    number inside the window) and whose recipient resolves, the outcome of
    the mail-send capability decides the reply: a result [r] gives status
    200 with [{success: true, response: r, error: null}]; a thrown error
    with message [m] is caught and gives status 500 with
    [{success: false, response: null, error: m}].  In both cases the
    endpoint returns: nothing is thrown past it. *)
Theorem handler_maps_send_outcome
    (w : world) (req : request) (recipient : jsval) :
  is_POST req ->
  passes_spam_checks w req.(req_body) ->
  result (resolveRecipient w (field req.(req_body) "to")
            (field req.(req_body) "subject")) = Normal recipient ->
  let sent := w.(sendEmail) (mail_of recipient req.(req_body)) in
  (forall r,
     sent = Normal r ->
     result (handler w req)
     = Normal {| status := 200;
                 json := VObj [(`"success", VBool true); (`"response", r);
                               (`"error", VNull)] |})
  /\ (forall err m,
        sent = Throw err ->
        field err "message" = VStr m ->
        result (handler w req)
        = Normal {| status := 500;
                    json := VObj [(`"success", VBool false);
                                  (`"response", VNull);
                                  (`"error", VStr m)] |}).
Proof.
  intros P C R sent. subst sent. rewrite (handler_POST w _ P).
  pose proof (handlerTry_passed _ _ _ C R) as T.
  split.
  - intros r S. rewrite S in T.
    assert (Ok : result (handlerTry w (req_body req))
                 = Normal {| status := 200; json := envelope true r VNull |})
      by (rewrite T; reflexivity).
    rewrite (try_catch_normal _ _ _ Ok). reflexivity.
  - intros err m S Msg. rewrite S in T.
    assert (N : nullish err = false)
      by (destruct err; (reflexivity || discriminate)).
    assert (Ko : result (handlerTry w (req_body req)) = Throw err)
      by (rewrite T; reflexivity).
    rewrite (try_catch_throw _ _ _ Ko).
    rewrite (handlerCatch_readable w _ N), Msg. reflexivity.
Qed.

(** Both outcomes on the same submission: the provider of
    [Sample.friendly] returns an id, the provider of [Sample.smtp_down]
    throws "SMTP timeout". *)
Lemma handler_maps_send_outcome_witness :
  result (handler Sample.friendly
            (Sample.post (Sample.submission "Financing request" ""
                            (VNum (Sample.opened 10000)))))
  = Normal {| status := 200;
              json := VObj [(`"success", VBool true);
                            (`"response", VStr `"message-id-1");
                            (`"error", VNull)] |}
  /\ result (handler Sample.smtp_down
               (Sample.post (Sample.submission "Financing request" ""
                               (VNum (Sample.opened 10000)))))
     = Normal {| status := 500;
                 json := VObj [(`"success", VBool false);
                               (`"response", VNull);
                               (`"error", VStr `"SMTP timeout")] |}.
Proof.
  assert (C : forall w,
             w.(Date_now) = Num.of_Z Sample.now ->
             passes_spam_checks w
               (Sample.submission "Financing request" ""
                  (VNum (Sample.opened 10000)))).
  { intros w E. split; [reflexivity|]. split.
    - right. exists []. split; [reflexivity | constructor].
    - right. unfold elapsed. cbn [ToNumber]. rewrite E.
      eexists. split; [reflexivity|]. split; reflexivity. }
  split.
  - apply (proj1 (handler_maps_send_outcome Sample.friendly
             (Sample.post (Sample.submission "Financing request" ""
                             (VNum (Sample.opened 10000))))
             (VStr `"clientsuccess@luminarcapital.com")
             eq_refl (C Sample.friendly eq_refl) eq_refl)).
    reflexivity.
  - apply (proj2 (handler_maps_send_outcome Sample.smtp_down
             (Sample.post (Sample.submission "Financing request" ""
                             (VNum (Sample.opened 10000))))
             (VStr `"clientsuccess@luminarcapital.com")
             eq_refl (C Sample.smtp_down eq_refl) eq_refl))
      with (err := mkError `"SMTP timeout"); reflexivity.
Defined.

(** The [try] block when the checks pass and the recipient cannot be
    resolved: the exception leaves the block before any mail is sent. *)
Lemma handlerTry_unroutable (w : world) (body err : jsval) :
  passes_spam_checks w body ->
  result (resolveRecipient w (field body "to") (field body "subject"))
    = Throw err ->
  handlerTry w body
  = (Throw err, if truthy (field body "timestamp") then [EDateNow] else []).
Proof.
  intros (N & C & T) R. enter_try N.
  rewrite (honeypotFilled_clean w _ C), bind_pure.
  rewrite (timingSuspicious_accepted _ _ T), bind_pair.
  rewrite (bind_throw _ _ _ R), resolveRecipient_trace, app_nil_r.
  reflexivity.
Qed.

(** The [catch] block only writes to the error log. *)
Lemma handlerCatch_trace (w : world) (err : jsval) :
  trace (handlerCatch w err)
  = [EConsole error `"=== EMAIL ERROR ==="; EConsole error `"Full error:"]
    ++ (if nullish err then [] else [EConsole error `"Error message:"]).
Proof.
  destruct (nullish err) eqn:N.
  - unfold handlerCatch, console.
    rewrite !bind_emit, (getProp_nullish _ _ _ _ N). reflexivity.
  - rewrite (handlerCatch_readable w _ N). reflexivity.
Qed.

(** Once the checks pass and the recipient resolves, exactly one mail is
    sent, to that recipient. *)
Lemma handler_sends_once (w : world) (req : request) (recipient : jsval) :
  is_POST req ->
  passes_spam_checks w req.(req_body) ->
  result (resolveRecipient w (field req.(req_body) "to")
            (field req.(req_body) "subject")) = Normal recipient ->
  mails (trace (handler w req))
  = [ESendEmail (mail_of recipient req.(req_body))].
Proof.
  intros P C R. rewrite (handler_POST w _ P).
  pose proof (handlerTry_passed _ _ _ C R) as T.
  destruct (sendEmail w (mail_of recipient (req_body req))) as [r|e] eqn:S.
  - assert (Ok : result (handlerTry w (req_body req))
                 = Normal {| status := 200; json := envelope true r VNull |})
      by (rewrite T; reflexivity).
    rewrite (try_catch_normal _ _ _ Ok), T. cbn [trace snd].
    destruct (truthy (field (req_body req) "timestamp")); reflexivity.
  - assert (Ko : result (handlerTry w (req_body req)) = Throw e)
      by (rewrite T; reflexivity).
    rewrite (try_catch_throw _ _ _ Ko), handlerCatch_trace, T.
    cbn [trace snd].
    destruct (truthy (field (req_body req) "timestamp"));
      destruct (nullish e); reflexivity.
Qed.

(** C8, as the code has it.  For a submission that passes the spam checks,
    names no destination and has a textual subject (a string, or a missing
    or otherwise falsy subject), the recipient follows the ordered rules: a subject containing "Partner" goes to the partner
    mailbox; otherwise a subject containing "Financing" goes to the
    financing mailbox; otherwise the default mailbox is used.  The
    mail-send capability is invoked once, with that recipient and the
    subject and html body of the submission.  The subject
    "Partner inquiry" goes to the partner mailbox. *)
Theorem handler_routes_by_subject (w : world) (req : request) :
  is_POST req ->
  passes_spam_checks w req.(req_body) ->
  truthy (field req.(req_body) "to") = false ->
  subject_textual (field req.(req_body) "subject") ->
  let subject := field req.(req_body) "subject" in
  exists recipient,
    mails (trace (handler w req))
    = [ESendEmail {| mail_to := recipient;
                     mail_subject := subject;
                     mail_htmlMessage :=
                       field req.(req_body) "htmlMessage" |}]
    /\ (subject_tagged subject "Partner" -> recipient = partner_mailbox w)
    /\ (~ subject_tagged subject "Partner" ->
        subject_tagged subject "Financing" ->
          recipient = financing_mailbox w)
    /\ (~ subject_tagged subject "Partner" ->
        ~ subject_tagged subject "Financing" ->
          recipient = default_mailbox w)
    /\ (subject = VStr `"Partner inquiry" -> recipient = partner_mailbox w).
Proof.
  intros P C T X subject.
  destruct (resolveRecipient_routes w _ _ T X)
    as (recipient & R & RP & RF & RD).
  exists recipient.
  assert (R' : result (resolveRecipient w (field (req_body req) "to")
                         (field (req_body req) "subject")) = Normal recipient)
    by (rewrite R; reflexivity).
  split; [exact (handler_sends_once _ _ _ P C R')|].
  refine (conj RP (conj RF (conj RD _))).
  intros E. apply RP. exists `"Partner inquiry". split; [exact E|].
  exists [], `" inquiry". reflexivity.
Qed.

(** The scenario of the specification: "Partner inquiry", ten seconds
    after the form was opened, goes to the configured partner mailbox. *)
Lemma handler_routes_by_subject_witness :
  mails (trace (handler Sample.friendly
                  (Sample.post (Sample.submission "Partner inquiry" ""
                                  (VNum (Sample.opened 10000))))))
  = [ESendEmail {| mail_to := VStr `"partner-desk@example.com";
                   mail_subject := VStr `"Partner inquiry";
                   mail_htmlMessage := VStr `"<p>hello</p>" |}].
Proof.
  assert (C : passes_spam_checks Sample.friendly
                (Sample.submission "Partner inquiry" ""
                   (VNum (Sample.opened 10000)))).
  { split; [reflexivity|]. split.
    - right. exists []. split; [reflexivity | constructor].
    - right. eexists. split; [reflexivity|]. split; reflexivity. }
  destruct (handler_routes_by_subject Sample.friendly
              (Sample.post (Sample.submission "Partner inquiry" ""
                              (VNum (Sample.opened 10000))))
              eq_refl C eq_refl
              (or_intror (ex_intro _ `"Partner inquiry" eq_refl)))
    as (recipient & S & _ & _ & _ & RP).
  rewrite S, (RP eq_refl). reflexivity.
Defined.

(** C8 as stated fails for a subject that is not textual: the submission
    [Scenario.numeric_subject] (subject the number 1, honeypot empty, no
    timestamp, no destination) passes the spam checks, yet no routing rule
    is applied and the mail-send capability is not invoked: reading
    [subject.includes] throws, and the reply is status 500. *)
Lemma handler_numeric_subject_is_not_routed :
  is_POST (Sample.post Scenario.numeric_subject)
  /\ passes_spam_checks Sample.friendly Scenario.numeric_subject
  /\ field Scenario.numeric_subject "to" = VUndefined
  /\ field Scenario.numeric_subject "subject" = VNum (Num.of_Z 1)
  /\ result (handler Sample.friendly (Sample.post Scenario.numeric_subject))
     = Normal {| status := 500;
                 json := VObj [(`"success", VBool false);
                               (`"response", VNull);
                               (`"error", VStr `"TypeError")] |}
  /\ mails (trace (handler Sample.friendly
                     (Sample.post Scenario.numeric_subject))) = [].
Proof.
  refine (conj eq_refl (conj _ (conj eq_refl (conj eq_refl
            (conj eq_refl eq_refl))))).
  split; [reflexivity|]. split.
  - right. exists []. split; [reflexivity | constructor].
  - left. reflexivity.
Qed.

(** The routing throws on a subject that is neither a string nor an array
    nor falsy. *)
Lemma resolveRecipient_untyped (w : world) (to subject : jsval) :
  truthy to = false -> truthy subject = true ->
  (forall s, subject <> VStr s) -> (forall xs, subject <> VArr xs) ->
  resolveRecipient w to subject
  = (Throw (TypeError w (NotAFunction "subject" "includes" subject)), []).
Proof.
  intros T S NS NA.
  unfold resolveRecipient, subjectIncludes. rewrite T, S. cbn [negb].
  destruct subject as [| | b | x | s | xs | fs];
    try discriminate; try reflexivity.
  - destruct (NS s). reflexivity.
  - destruct (NA xs). reflexivity.
Qed.

(** X9.  Outside the typed submission: a subject that is neither a string
    nor an array nor falsy (a number, [true], an object) has no [includes]
    method.  With no destination the routing throws, the failure branch
    answers 500 with the engine's message for [subject.includes], and no
    mail is sent. *)
Remark handler_untyped_subject (w : world) (req : request) :
  is_POST req ->
  passes_spam_checks w req.(req_body) ->
  truthy (field req.(req_body) "to") = false ->
  truthy (field req.(req_body) "subject") = true ->
  (forall s, field req.(req_body) "subject" <> VStr s) ->
  (forall xs, field req.(req_body) "subject" <> VArr xs) ->
  result (handler w req)
  = Normal {| status := 500;
              json := VObj [(`"success", VBool false);
                            (`"response", VNull);
                            (`"error",
                             VStr (w.(TypeError_message)
                                     (NotAFunction "subject" "includes"
                                        (field req.(req_body) "subject"))))]
           |}
  /\ mails (trace (handler w req)) = [].
Proof.
  intros P C T S NS NA.
  set (err := TypeError w (NotAFunction "subject" "includes"
                             (field (req_body req) "subject"))).
  assert (R : result (resolveRecipient w (field (req_body req) "to")
                        (field (req_body req) "subject")) = Throw err).
  { rewrite (resolveRecipient_untyped w _ _ T S NS NA). reflexivity. }
  pose proof (handlerTry_unroutable _ _ _ C R) as U.
  assert (Ko : result (handlerTry w (req_body req)) = Throw err)
    by (rewrite U; reflexivity).
  rewrite (handler_POST w _ P), (try_catch_throw _ _ _ Ko).
  rewrite (handlerCatch_readable w err eq_refl), U.
  split; [reflexivity|].
  cbn [trace snd]. destruct (truthy (field (req_body req) "timestamp"));
    reflexivity.
Qed.






(* ------------------------------------------------------------------ *)
(** * Further properties of the spam-validation utilities *)

(** The verifier without a usable secret. *)
Lemma validateRecaptcha_unconfigured (w : world) (token expected : jsstring) :
  truthy (env_value w.(env).(RECAPTCHA_SECRET_KEY)) = false ->
  validateRecaptcha w token expected
  = (Normal false, [EConsole error `"RECAPTCHA_SECRET_KEY not configured"]).
Proof. unfold validateRecaptcha. intros ->. reflexivity. Qed.

(** The verifier with a secret: one call, then the verdict or a logged
    failure. *)
Lemma validateRecaptcha_configured
    (w : world) (token expected key : jsstring) :
  w.(env).(RECAPTCHA_SECRET_KEY) = Some key -> key <> [] ->
  exists valid logs,
    validateRecaptcha w token expected
    = (Normal valid, EFetch (siteverify key token) :: logs)
    /\ fetches logs = [] /\ mails logs = [] /\ clock_reads logs = [].
Proof.
  intros K NE. unfold validateRecaptcha, doFetch. rewrite K.
  destruct key as [|c key]; [congruence|].
  cbn [env_value truthy Str.truthy negb].
  destruct (fetch w _) as [r|e].
  - cbn [emit lift bind ret app].
    destruct (response_json r) as [data|e].
    + cbn [lift bind app].
      destruct (recaptchaVerdict_spec w data expected)
        as ([valid|e] & -> & _).
      * destruct valid;
          (eexists _, _; split; [reflexivity|]; repeat split).
      * eexists _, _. split; [reflexivity|]. repeat split.
    + eexists _, _. split; [reflexivity|]. repeat split.
  - eexists _, _. split; [reflexivity|]. repeat split.
Qed.

Lemma validateRecaptcha_calls_configured
    (w : world) (token expected key : jsstring) :
  w.(env).(RECAPTCHA_SECRET_KEY) = Some key -> key <> [] ->
  fetches (trace (validateRecaptcha w token expected))
  = [EFetch (siteverify key token)].
Proof.
  intros K NE.
  destruct (validateRecaptcha_configured w token expected key K NE)
    as (valid & logs & E & F & S & N).
  rewrite E. cbn [trace snd fetches filter is_fetch].
  fold (fetches logs). rewrite F. reflexivity.
Qed.

(** The verifier calls out at most once, reads no clock, sends no mail. *)
Lemma validateRecaptcha_calls (w : world) (token expected : jsstring) :
  (List.length (fetches (trace (validateRecaptcha w token expected))) <= 1)%nat
  /\ clock_reads (trace (validateRecaptcha w token expected)) = []
  /\ mails (trace (validateRecaptcha w token expected)) = [].
Proof.
  destruct (truthy (env_value w.(env).(RECAPTCHA_SECRET_KEY))) eqn:T.
  - destruct (RECAPTCHA_SECRET_KEY (env w)) as [[|c key]|] eqn:K;
      try discriminate T.
    destruct (validateRecaptcha_configured w token expected (c :: key) K
                ltac:(discriminate)) as (valid & logs & E & F & S & N).
    rewrite E. cbn [trace snd fetches mails clock_reads filter
                    is_fetch is_send is_clock].
    fold (fetches logs) (mails logs) (clock_reads logs).
    rewrite F, S, N. repeat split. cbn. lia.
  - rewrite (validateRecaptcha_unconfigured w token expected T).
    repeat split. cbn. lia.
Qed.

(** X1.  [validateRecaptcha] makes at most one outbound call.  With a
    secret configured it makes exactly one: a POST to the siteverify
    address whose body is [secret=<key>&response=<token>], the token
    inserted as it is.  It never reads the clock and never sends mail. *)
Theorem validateRecaptcha_single_call
    (w : world) (token expected : jsstring) :
  let run := validateRecaptcha w token expected in
  (forall key,
     w.(env).(RECAPTCHA_SECRET_KEY) = Some key -> key <> [] ->
     fetches (trace run)
     = [EFetch {| fetch_url :=
                    `"https://www.google.com/recaptcha/api/siteverify";
                  fetch_method := `"POST";
                  fetch_headers :=
                    [(`"Content-Type",
                      `"application/x-www-form-urlencoded")];
                  fetch_body :=
                    `"secret=" ++ key ++ `"&response=" ++ token |}])
  /\ (List.length (fetches (trace run)) <= 1)%nat
  /\ clock_reads (trace run) = []
  /\ mails (trace run) = [].
Proof.
  intros run. split.
  - intros key K NE.
    apply (validateRecaptcha_calls_configured w token expected key K NE).
  - apply validateRecaptcha_calls.
Qed.

(** At [Sample.friendly] the one call carries the sample key and the
    token. *)
Lemma validateRecaptcha_single_call_witness :
  fetches (trace (validateRecaptcha Sample.friendly `"tok" `"contact_form"))
  = [EFetch (siteverify `"secret-key" `"tok")].
Proof.
  apply (proj1 (validateRecaptcha_single_call Sample.friendly
                  `"tok" `"contact_form") `"secret-key" eq_refl).
  discriminate.
Defined.

(** X2.  [validateSpam] always returns a result; it never throws.  The
    result is valid exactly when the honeypot is clean, the timing is
    plausible and the verifier accepts the token, and exactly then it
    carries no reason; an invalid result carries one of the three reason
    strings.  At most one outbound call and one clock read are made. *)
Theorem validateSpam_verdict
    (w : world) (recaptchaToken : jsstring) (honeypot : option jsstring)
    (timestamp : number) (action : option jsstring) :
  let expected :=
    match action with Some a => a | None => `"contact_form" end in
  let run := validateSpam w recaptchaToken honeypot timestamp action in
  exists verdict,
    result run = Normal verdict
    /\ (verdict.(isValid) = true <->
          validateHoneypot honeypot = true
          /\ result (validateTimestamp w timestamp) = Normal true
          /\ result (validateRecaptcha w recaptchaToken expected)
             = Normal true)
    /\ (verdict.(isValid) = true <-> verdict.(reason) = None)
    /\ (verdict.(isValid) = false ->
          verdict.(reason) = Some `"Honeypot field filled"
          \/ verdict.(reason) = Some `"Suspicious timing"
          \/ verdict.(reason) = Some `"reCAPTCHA validation failed")
    /\ (List.length (fetches (trace run)) <= 1)%nat
    /\ (List.length (clock_reads (trace run)) <= 1)%nat
    /\ mails (trace run) = [].
Proof.
  intros expected run.
  pose proof (validateTimestamp_trace w timestamp) as TT.
  destruct (validateRecaptcha_returns w recaptchaToken expected)
    as (valid & V).
  destruct (validateRecaptcha_calls w recaptchaToken expected)
    as (F & N & S).
  assert (E : run
              = if validateHoneypot honeypot then
                  match result (validateTimestamp w timestamp) with
                  | Normal true =>
                      (Normal (if valid
                               then {| isValid := true; reason := None |}
                               else {| isValid := false;
                                       reason :=
                                         Some `"reCAPTCHA validation failed"
                                    |}),
                       EDateNow
                       :: trace (validateRecaptcha w recaptchaToken expected))
                  | _ =>
                      (Normal {| isValid := false;
                                 reason := Some `"Suspicious timing" |},
                       [EDateNow])
                  end
                else
                  (Normal {| isValid := false;
                             reason := Some `"Honeypot field filled" |}, [])).
  { subst run. unfold validateSpam. fold expected.
    destruct (validateHoneypot honeypot); cbn [negb]; [|reflexivity].
    destruct (result (validateTimestamp w timestamp)) as [[|]|e] eqn:T;
      [| |discriminate T];
      rewrite (bind_normal _ _ _ T), TT; cbn [negb]; [|reflexivity].
    rewrite (bind_normal _ _ _ V).
    destruct valid; cbn [negb ret result trace fst snd];
      rewrite app_nil_r; reflexivity. }
  rewrite E. clear E.
  destruct (validateHoneypot honeypot).
  - destruct (result (validateTimestamp w timestamp)) as [[|]|e] eqn:T;
      [| |discriminate T].
    + rewrite V.
      destruct valid; eexists; (split; [reflexivity|]);
        cbn [isValid reason trace snd fetches clock_reads mails filter
             is_fetch is_clock is_send];
        fold (fetches (trace (validateRecaptcha w recaptchaToken expected)))
             (clock_reads
                (trace (validateRecaptcha w recaptchaToken expected)))
             (mails (trace (validateRecaptcha w recaptchaToken expected)));
        rewrite N, S;
        refine (conj _ (conj _ (conj _ (conj F (conj _ eq_refl)))));
        try (cbn; lia).
      * split; auto.
      * split; auto.
      * split; [discriminate|]. intros (_ & _ & X). discriminate X.
      * split; discriminate.
      * auto.
    + eexists; split; [reflexivity|].
      refine (conj _ (conj _ (conj _ (conj _ (conj _ eq_refl)))));
        cbn [isValid reason trace snd fetches clock_reads filter is_fetch
             is_clock List.length];
        try lia; try (split; discriminate); auto.
      split; [discriminate|]. intros (_ & X & _). discriminate X.
  - eexists; split; [reflexivity|].
    refine (conj _ (conj _ (conj _ (conj _ (conj _ eq_refl)))));
      cbn [isValid reason trace snd fetches clock_reads filter is_fetch
           is_clock List.length];
      try lia; try (split; discriminate); auto.
Qed.

(** X3.  Without a verification secret (unset or empty) the gate accepts
    nothing: whatever the token, honeypot, timestamp and action,
    [validateSpam] returns an invalid result, and no outbound call is
    made. *)
Theorem validateSpam_closed_without_secret
    (w : world) (recaptchaToken : jsstring) (honeypot : option jsstring)
    (timestamp : number) (action : option jsstring) :
  truthy (env_value w.(env).(RECAPTCHA_SECRET_KEY)) = false ->
  let run := validateSpam w recaptchaToken honeypot timestamp action in
  exists verdict,
    result run = Normal verdict
    /\ verdict.(isValid) = false
    /\ fetches (trace run) = [].
Proof.
  intros U run. subst run. unfold validateSpam.
  destruct (validateHoneypot honeypot); cbn [negb];
    [|eexists; repeat split].
  destruct (result (validateTimestamp w timestamp)) as [[|]|e] eqn:T;
    [| |discriminate T];
    rewrite (bind_normal _ _ _ T), validateTimestamp_trace; cbn [negb];
    [|eexists; repeat split].
  rewrite (validateRecaptcha_unconfigured w _ _ U).
  eexists; repeat split.
Qed.

(** At [Sample.no_secret] a clean, well-timed submission is refused. *)
Lemma validateSpam_closed_without_secret_witness :
  exists verdict,
    result (validateSpam Sample.no_secret `"token" None
              (Sample.opened 10000) None) = Normal verdict
    /\ verdict.(isValid) = false
    /\ fetches (trace (validateSpam Sample.no_secret `"token" None
                         (Sample.opened 10000) None)) = [].
Proof.
  exact (validateSpam_closed_without_secret Sample.no_secret `"token"
           None (Sample.opened 10000) None eq_refl).
Defined.

(** X24.  A score that cannot be converted to a number (an object with a
    property named [toString]) makes the comparison [data.score >= 0.3]
    throw inside the [try] block: with [success] true the verifier logs a
    validation error and returns false, after its one outbound call. *)
Theorem validateRecaptcha_unconvertible_score
    (w : world) (token expected key : jsstring) r (data : jsval)
    (fields : list (jsstring * jsval)) :
  w.(env).(RECAPTCHA_SECRET_KEY) = Some key -> key <> [] ->
  w.(fetch) (siteverify key token) = Normal r ->
  r.(response_json) = Normal data ->
  field data "success" = VBool true ->
  field data "score" = VObj fields ->
  existsb (fun f => Str.eqb (fst f) `"toString") fields = true ->
  validateRecaptcha w token expected
  = (Normal false,
     [EFetch (siteverify key token);
      EConsole error `"reCAPTCHA validation error:"]).
Proof.
  intros K NE F J S Sc H. unfold validateRecaptcha. rewrite K.
  destruct key as [|c key]; [congruence|].
  cbn [env_value truthy Str.truthy negb].
  unfold doFetch. rewrite F.
  cbn [emit lift bind ret app]. rewrite J. cbn [lift bind app].
  destruct data as [| | b | x | s | xs | props]; try discriminate S.
  unfold recaptchaVerdict. cbn [getProp field] in *.
  rewrite S, Sc. cbn [is_true bind ret lift app]. unfold ToNumber. simpl.
  rewrite H. reflexivity.
Qed.

(** The service answers with the score [{toString: 1}]. *)
Lemma validateRecaptcha_unconvertible_score_witness :
  result (validateRecaptcha
            (Sample.world_of Sample.environment Sample.now
               (Sample.http 200
                  (VObj [(`"success", VBool true);
                         (`"score", VObj [(`"toString", VNum Num.one)]);
                         (`"action", VStr `"contact_form")]))
               (Normal VNull))
            `"token" `"contact_form") = Normal false.
Proof.
  rewrite (validateRecaptcha_unconvertible_score
             (Sample.world_of Sample.environment Sample.now
                (Sample.http 200
                   (VObj [(`"success", VBool true);
                          (`"score", VObj [(`"toString", VNum Num.one)]);
                          (`"action", VStr `"contact_form")]))
                (Normal VNull))
             `"token" `"contact_form" `"secret-key" _ _
             [(`"toString", VNum Num.one)]
             eq_refl ltac:(discriminate) eq_refl eq_refl
             eq_refl eq_refl eq_refl).
  reflexivity.
Defined.

(* ------------------------------------------------------------------ *)
(** * Further properties of the endpoint *)

Lemma is_POST_dec (req : request) : {is_POST req} + {~ is_POST req}.
Proof.
  unfold is_POST. destruct (req_method req) as [m|]; [|right; discriminate].
  destruct (Str.eqb m `"POST") eqn:E.
  - left. apply Str_eqb_eq in E. subst m. reflexivity.
  - right. intros H. injection H as ->. rewrite Str_eqb_refl in E.
    discriminate.
Qed.

(** A honeypot value is filled, clean, or a truthy value that is not a
    string (which has no [trim] method). *)
Lemma honeypot_cases (honeypot : jsval) :
  honeypot_filled honeypot
  \/ honeypot_clean honeypot
  \/ untyped_text honeypot.
Proof.
  destruct honeypot as [| | b | x | s | xs | fs];
    try (right; left; left; reflexivity);
    try (right; right; split; [reflexivity | discriminate]).
  - destruct b;
      [right; right; split; [reflexivity | discriminate]
      | right; left; left; reflexivity].
  - destruct (Num.truthy x) eqn:T;
      [right; right; split; [exact T | discriminate]
      | right; left; left; exact T].
  - destruct (forallb Str.is_ws s) eqn:B.
    + right; left; right. exists s. split; [reflexivity|].
      apply Forall_forall. apply forallb_forall. exact B.
    + left. exists s. split; [reflexivity|]. intros H.
      unfold blank in H. rewrite Forall_forall, <- forallb_forall in H.
      congruence.
Qed.

(** A timestamp is implausible, accepted, or cannot be converted. *)
Lemma timing_cases (w : world) (timestamp : jsval) :
  timing_implausible w timestamp
  \/ timing_accepted w timestamp
  \/ exists err, timing_unconvertible w timestamp err.
Proof.
  unfold timing_implausible, timing_accepted, timing_unconvertible, elapsed.
  destruct (truthy timestamp); [|right; left; left; reflexivity].
  destruct (ToNumber w timestamp) as [started|err];
    [|right; right; exists err; split; reflexivity].
  destruct (Num.lt (Num.sub (Date_now w) started) Num.c3000) eqn:L;
    [left; split; [reflexivity|]; eexists; split; [reflexivity|];
     left; exact L|].
  destruct (Num.gt (Num.sub (Date_now w) started) Num.c1800000) eqn:G;
    [left; split; [reflexivity|]; eexists; split; [reflexivity|];
     right; exact G|].
  right; left; right. eexists. split; [reflexivity|]. split; assumption.
Qed.

(** The three cases exclude one another. *)
Lemma timing_accepted_not_implausible (w : world) (timestamp : jsval) :
  timing_accepted w timestamp -> ~ timing_implausible w timestamp.
Proof.
  intros [F | (e & E & L & G)] (T & e' & E' & H); [congruence|].
  rewrite E in E'. injection E' as <-. destruct H; congruence.
Qed.

Lemma timing_accepted_not_unconvertible (w : world) (timestamp err : jsval) :
  timing_accepted w timestamp -> ~ timing_unconvertible w timestamp err.
Proof.
  unfold timing_accepted, timing_unconvertible, elapsed.
  intros [F | (e & E & _)] (T & U); [congruence|].
  rewrite U in E. discriminate.
Qed.

Lemma honeypotFilled_untyped (w : world) (honeypot : jsval) :
  untyped_text honeypot ->
  honeypotFilled w honeypot
  = (Throw (TypeError w (NotAFunction "honeypot" "trim" honeypot)), []).
Proof.
  intros (T & NS). unfold honeypotFilled. rewrite T.
  destruct honeypot; try discriminate; try reflexivity.
  destruct (NS s). reflexivity.
Qed.

(** The routing block returns a recipient or throws the [TypeError] of a
    subject without [includes]; it emits nothing. *)
Lemma resolveRecipient_cases (w : world) (to subject : jsval) :
  (exists recipient,
     resolveRecipient w to subject = (Normal recipient, []))
  \/ (truthy to = false /\ untyped_text subject
      /\ (forall xs, subject <> VArr xs)
      /\ resolveRecipient w to subject
         = (Throw (TypeError w (NotAFunction "subject" "includes" subject)),
            [])).
Proof.
  unfold resolveRecipient, subjectIncludes, untyped_text.
  destruct (truthy to); cbn [negb]; [left; eexists; reflexivity|].
  destruct (truthy subject) eqn:TS;
    [|rewrite !bind_ret; left; eexists; reflexivity].
  destruct subject as [| | b | x | s | xs | fs]; try discriminate TS;
    cbn [callIncludes];
    try (right; repeat split; (reflexivity || discriminate || exact TS));
    rewrite bind_ret.
  - destruct (Str.includes s _); [left; eexists; reflexivity|].
    rewrite bind_ret.
    destruct (Str.includes s _); left; eexists; reflexivity.
  - destruct (existsb _ xs); [left; eexists; reflexivity|].
    rewrite bind_ret.
    destruct (existsb _ xs); left; eexists; reflexivity.
Qed.

Lemma handlerTry_honeypot_drop (w : world) (body : jsval) :
  honeypot_filled (field body "honeypot") ->
  handlerTry w body
  = (Normal silentDrop, [EConsole warn `"Spam detected: Honeypot filled"]).
Proof.
  intros F. pose proof (detects_spam_body w _ (or_introl F)) as N.
  enter_try N. rewrite (honeypotFilled_filled w _ F). reflexivity.
Qed.

Lemma handlerTry_timing_drop (w : world) (body : jsval) :
  honeypot_clean (field body "honeypot") ->
  timing_implausible w (field body "timestamp") ->
  handlerTry w body
  = (Normal silentDrop,
     [EDateNow; EConsole warn `"Spam detected: Suspicious timing"]).
Proof.
  intros C T.
  pose proof (detects_spam_body w _ (or_intror (conj C T))) as N.
  enter_try N. rewrite (honeypotFilled_clean w _ C), bind_pure.
  rewrite (timingSuspicious_implausible _ _ T). reflexivity.
Qed.

Lemma handlerTry_untyped_honeypot (w : world) (body : jsval) :
  nullish body = false ->
  untyped_text (field body "honeypot") ->
  handlerTry w body
  = (Throw (TypeError w (NotAFunction "honeypot" "trim"
                           (field body "honeypot"))), []).
Proof.
  intros N U. enter_try N.
  rewrite (honeypotFilled_untyped w _ U). reflexivity.
Qed.

(** A clean honeypot and a timestamp that cannot be converted: the
    subtraction throws after the clock read, before any mail is sent. *)
Lemma handlerTry_unconvertible_timestamp (w : world) (body err : jsval) :
  nullish body = false ->
  honeypot_clean (field body "honeypot") ->
  timing_unconvertible w (field body "timestamp") err ->
  handlerTry w body = (Throw err, [EDateNow]).
Proof.
  intros N C U. enter_try N.
  rewrite (honeypotFilled_clean w _ C), bind_pure.
  rewrite (timingSuspicious_unconvertible _ _ _ U). reflexivity.
Qed.

Lemma try_catch_thrown {A} (e : jsval) (t : list event)
    (h : jsval -> M A) :
  try_catch (Throw e, t) h = (result (h e), t ++ trace (h e)).
Proof. exact (try_catch_throw (Throw e, t) h e eq_refl). Qed.

Lemma handlerCatch_nullish (w : world) (err : jsval) :
  nullish err = true ->
  handlerCatch w err
  = (Throw (TypeError w (ReadOfNullish "error" `"message" err)),
     [EConsole error `"=== EMAIL ERROR ==="; EConsole error `"Full error:"]).
Proof.
  intros N. unfold handlerCatch, console.
  rewrite !bind_emit, (getProp_nullish _ _ _ _ N). reflexivity.
Qed.

(** Every request is handled in one of the ten ways. *)
Lemma handler_runs (w : world) (req : request) :
  handler_run w req (handler w req).
Proof.
  destruct (is_POST_dec req) as [P | NP].
  2: { rewrite (handler_not_POST w _ NP). constructor. exact NP. }
  rewrite (handler_POST w _ P).
  assert (TE : forall s t,
             try_catch (Throw (TypeError w s), t) (handlerCatch w)
             = (Normal (failure (VStr (w.(TypeError_message) s))),
                t ++ error_logs)).
  { intros s t. rewrite try_catch_thrown.
    rewrite (handlerCatch_readable w (TypeError w s) eq_refl).
    reflexivity. }
  destruct (nullish (req_body req)) eqn:N.
  { rewrite (handlerTry_no_body w _ N), TE. apply run_no_body; assumption. }
  destruct (honeypot_cases (field (req_body req) "honeypot"))
    as [F | [C | U]].
  - rewrite (handlerTry_honeypot_drop w _ F). apply run_honeypot_drop;
      assumption.
  - destruct (timing_cases w (field (req_body req) "timestamp"))
      as [I | [A | (err & U)]].
    + rewrite (handlerTry_timing_drop w _ C I). apply run_timing_drop;
        assumption.
    + assert (PS : passes_spam_checks w (req_body req))
        by (repeat split; assumption).
      destruct (resolveRecipient_cases w (field (req_body req) "to")
                  (field (req_body req) "subject"))
        as [(recipient & R) | (T & US & NA & R)].
      * rewrite (handlerTry_passed w _ recipient PS
                   ltac:(rewrite R; reflexivity)).
        fold (timing_read (req_body req)).
        fold (send_events recipient (req_body req)).
        destruct (sendEmail w (mail_of recipient (req_body req)))
          as [r | e] eqn:S.
        -- apply (run_sent w req recipient r); assumption.
        -- rewrite try_catch_thrown, app_nil_r.
           destruct (nullish e) eqn:Ne.
           ++ rewrite (handlerCatch_nullish w e Ne).
              cbn [result trace fst snd]. rewrite <- app_assoc.
              apply (run_escaped w req recipient e); assumption.
           ++ rewrite (handlerCatch_readable w e Ne).
              cbn [result trace fst snd]. rewrite <- app_assoc.
              apply (run_send_failed w req recipient e); assumption.
      * rewrite (handlerTry_unroutable w _ _ PS
                   ltac:(rewrite R; reflexivity)).
        fold (timing_read (req_body req)). rewrite TE.
        apply run_unroutable; assumption.
    + rewrite (handlerTry_unconvertible_timestamp w _ _ N C U).
      rewrite try_catch_thrown.
      destruct (ToNumber_error w _ _ (proj2 U)) as (Ne & _).
      rewrite (handlerCatch_readable w err Ne).
      apply (run_unconvertible_timestamp w req err); assumption.
  - rewrite (handlerTry_untyped_honeypot w _ N U), TE.
    apply run_untyped_honeypot; assumption.
Qed.

Lemma timing_read_filters (body : jsval) :
  fetches (timing_read body) = [] /\ mails (timing_read body) = []
  /\ (List.length (clock_reads (timing_read body)) <= 1)%nat.
Proof.
  unfold timing_read. destruct (truthy (field body "timestamp"));
    repeat split; cbn; lia.
Qed.

(** X4.  The endpoint never calls the verification service: no run of
    [handler] contains a [fetch], and the run is the same in every world
    that differs only in the verification service and in the verification
    secret.  The bot score plays no part at the endpoint. *)
Theorem handler_never_verifies (w : world) (req : request) :
  fetches (trace (handler w req)) = []
  /\ forall (service : fetch_request -> completion fetch_response)
            (secret : option jsstring),
       handler
         {| env := {| RECAPTCHA_SECRET_KEY := secret;
                      PARTNER_EMAIL := w.(env).(PARTNER_EMAIL);
                      FINANCING_EMAIL := w.(env).(FINANCING_EMAIL);
                      RECIPIENT_EMAIL := w.(env).(RECIPIENT_EMAIL) |};
            Date_now := w.(Date_now);
            fetch := service;
            sendEmail := w.(sendEmail);
            StringToNumber := w.(StringToNumber);
            NumberToString := w.(NumberToString);
            TypeError_message := w.(TypeError_message) |} req
       = handler w req.
Proof.
  split.
  - pose proof (handler_runs w req) as H.
    destruct (timing_read_filters (req_body req)) as (F & _).
    remember (handler w req) as run eqn:E. clear E.
    destruct H; cbn [trace snd]; unfold fetches in *;
      rewrite ?filter_app, ?F; reflexivity.
  - intros service secret. reflexivity.
Qed.

(** X5.  A request causes at most one mail.  A mail is sent only for a
    POST whose body passes the honeypot and timing checks, and then it
    goes to the resolved recipient with the subject and html of the
    body.  In every other run the mail-send capability is not invoked. *)
Theorem handler_sends_at_most_once (w : world) (req : request) :
  mails (trace (handler w req)) = []
  \/ (is_POST req
      /\ passes_spam_checks w req.(req_body)
      /\ exists recipient,
           result (resolveRecipient w (field req.(req_body) "to")
                     (field req.(req_body) "subject")) = Normal recipient
           /\ mails (trace (handler w req))
              = [ESendEmail {| mail_to := recipient;
                               mail_subject := field req.(req_body) "subject";
                               mail_htmlMessage :=
                                 field req.(req_body) "htmlMessage" |}]).
Proof.
  pose proof (handler_runs w req) as H.
  destruct (timing_read_filters (req_body req)) as (_ & S & _).
  remember (handler w req) as run eqn:E.
  assert (Sent : forall recipient,
             is_POST req -> passes_spam_checks w (req_body req) ->
             resolveRecipient w (field (req_body req) "to")
               (field (req_body req) "subject") = (Normal recipient, []) ->
             mails (trace run)
             = [ESendEmail (mail_of recipient (req_body req))]).
  { intros recipient P PS R. subst run.
    apply (handler_sends_once w req recipient P PS).
    rewrite R. reflexivity. }
  clear E.
  destruct H as [ | | | | | | | recipient r P PS R
                  | recipient e P PS R | recipient e P PS R ];
    try (left; cbn [trace snd]; unfold mails in *;
         rewrite ?filter_app, ?S; reflexivity);
    right; (split; [exact P|]); (split; [exact PS|]);
    exists recipient; (split; [rewrite R; reflexivity|]);
    exact (Sent recipient P PS R).
Qed.

Lemma passes_sample_checks (w : world) (body : jsval) :
  nullish body = false ->
  field body "honeypot" = VStr [] ->
  timing_accepted w (field body "timestamp") ->
  passes_spam_checks w body.
Proof.
  intros N H T. split; [exact N|]. split; [|exact T].
  right. exists []. split; [exact H | constructor].
Qed.

(** X6.  With an explicit destination (a truthy [to]) the routing rules
    are not consulted: a submission that passes the checks is mailed to
    that destination whatever its subject is, even a subject that is not
    a string, and whatever mailboxes are configured. *)
Theorem handler_explicit_destination (w : world) (req : request) :
  is_POST req ->
  passes_spam_checks w req.(req_body) ->
  truthy (field req.(req_body) "to") = true ->
  mails (trace (handler w req))
  = [ESendEmail {| mail_to := field req.(req_body) "to";
                   mail_subject := field req.(req_body) "subject";
                   mail_htmlMessage := field req.(req_body) "htmlMessage" |}].
Proof.
  intros P PS T.
  apply (handler_sends_once w req (field (req_body req) "to") P PS).
  unfold resolveRecipient. rewrite T. reflexivity.
Qed.

(** A confirmation mail whose subject is the number 1 reaches its
    destination. *)
Lemma handler_explicit_destination_witness :
  mails (trace (handler Sample.friendly
                  (Sample.post
                     (Scenario.confirmation "user@example.com"
                        (VNum Num.one)))))
  = [ESendEmail {| mail_to := VStr `"user@example.com";
                   mail_subject := VNum Num.one;
                   mail_htmlMessage := VStr `"<p>thank you</p>" |}].
Proof.
  apply (handler_explicit_destination Sample.friendly
           (Sample.post
              (Scenario.confirmation "user@example.com" (VNum Num.one)))
           eq_refl).
  - apply passes_sample_checks; [reflexivity | reflexivity|].
    right. eexists. split; [reflexivity|]. split; reflexivity.
  - reflexivity.
Defined.

Lemma handler_catches_TypeError (w : world) (req : request) (s : site)
    (t : list event) :
  is_POST req ->
  handlerTry w req.(req_body) = (Throw (TypeError w s), t) ->
  handler w req
  = (Normal (failure (VStr (w.(TypeError_message) s))), t ++ error_logs).
Proof.
  intros P E. rewrite (handler_POST w _ P), E, try_catch_thrown.
  rewrite (handlerCatch_readable w (TypeError w s) eq_refl). reflexivity.
Qed.

(** X7.  A POST without a body ([req.body] is [null] or [undefined]) is
    answered with status 500 and, as the error, the engine's [TypeError]
    message for destructuring that value; nothing is sent and the clock is
    not read. *)
Theorem handler_missing_body (w : world) (req : request) :
  is_POST req ->
  nullish req.(req_body) = true ->
  handler w req
  = (Normal {| status := 500;
               json := VObj [(`"success", VBool false);
                             (`"response", VNull);
                             (`"error",
                              VStr (w.(TypeError_message)
                                      (DestructureOfNullish "req.body"
                                         req.(req_body))))] |},
     [EConsole error `"=== EMAIL ERROR ==="; EConsole error `"Full error:";
      EConsole error `"Error message:"]).
Proof.
  intros P N.
  exact (handler_catches_TypeError w req _ [] P (handlerTry_no_body w _ N)).
Qed.

Lemma handler_missing_body_witness :
  result (handler Sample.friendly (Sample.post VUndefined))
  = Normal {| status := 500;
              json := VObj [(`"success", VBool false); (`"response", VNull);
                            (`"error", VStr `"TypeError")] |}.
Proof.
  rewrite (handler_missing_body Sample.friendly (Sample.post VUndefined)
             eq_refl eq_refl).
  reflexivity.
Defined.

(** X8.  A honeypot that is truthy but not a string (a number, [true], an
    array, an object) has no [trim] method: the submission is answered
    with status 500 and the engine's message, it is not dropped silently,
    nothing is sent and the timing is not checked. *)
Theorem handler_untyped_honeypot (w : world) (req : request) :
  is_POST req ->
  nullish req.(req_body) = false ->
  truthy (field req.(req_body) "honeypot") = true ->
  (forall s, field req.(req_body) "honeypot" <> VStr s) ->
  handler w req
  = (Normal {| status := 500;
               json := VObj [(`"success", VBool false);
                             (`"response", VNull);
                             (`"error",
                              VStr (w.(TypeError_message)
                                      (NotAFunction "honeypot" "trim"
                                         (field req.(req_body) "honeypot"))))]
            |},
     [EConsole error `"=== EMAIL ERROR ==="; EConsole error `"Full error:";
      EConsole error `"Error message:"]).
Proof.
  intros P N T NS.
  exact (handler_catches_TypeError w req _ [] P
           (handlerTry_untyped_honeypot w _ N (conj T NS))).
Qed.

Lemma handler_untyped_honeypot_witness :
  result (handler Sample.friendly (Sample.post Scenario.numeric_honeypot))
  = Normal {| status := 500;
              json := VObj [(`"success", VBool false); (`"response", VNull);
                            (`"error", VStr `"TypeError")] |}.
Proof.
  rewrite (handler_untyped_honeypot Sample.friendly
             (Sample.post Scenario.numeric_honeypot)
             eq_refl eq_refl eq_refl ltac:(discriminate)).
  reflexivity.
Defined.

(** The subject 1 with no destination: status 500, no mail. *)
Lemma handler_untyped_subject_witness :
  result (handler Sample.friendly (Sample.post Scenario.numeric_subject))
  = Normal {| status := 500;
              json := VObj [(`"success", VBool false); (`"response", VNull);
                            (`"error", VStr `"TypeError")] |}
  /\ mails (trace (handler Sample.friendly
                     (Sample.post Scenario.numeric_subject))) = [].
Proof.
  apply (handler_untyped_subject Sample.friendly
           (Sample.post Scenario.numeric_subject) eq_refl).
  - apply passes_sample_checks; [reflexivity | reflexivity|].
    left. reflexivity.
  - reflexivity.
  - reflexivity.
  - discriminate.
  - discriminate.
Defined.

(** X10.  [handler] throws in exactly one situation: the submission passes
    the spam checks (its timestamp, if present, converts to a number inside
    the window), its recipient resolves, and the mail-send capability
    rejects with [null] or [undefined], so that reading [error.message] in
    the [catch] block throws in turn.  The exception that escapes is that
    [TypeError], and the mail-send capability had been invoked.  In every
    other run [handler] returns a reply. *)
Theorem handler_throws_iff (w : world) (req : request) (thrown : jsval) :
  result (handler w req) = Throw thrown
  <-> (is_POST req
       /\ passes_spam_checks w req.(req_body)
       /\ exists recipient err,
            result (resolveRecipient w (field req.(req_body) "to")
                      (field req.(req_body) "subject")) = Normal recipient
            /\ w.(sendEmail) (mail_of recipient req.(req_body)) = Throw err
            /\ nullish err = true
            /\ thrown
               = TypeError w (ReadOfNullish "error" `"message" err)).
Proof.
  split.
  - pose proof (handler_runs w req) as H.
    remember (handler w req) as run eqn:E. clear E.
    destruct H as [ | | | | | | | | | recipient e P PS R S N ];
      cbn [result fst]; try discriminate.
    intros X. injection X as <-.
    split; [exact P|]. split; [exact PS|].
    exists recipient, e. rewrite R. repeat split; assumption.
  - intros (P & PS & recipient & e & R & S & N & ->).
    rewrite (handler_POST w _ P), (handlerTry_passed w _ recipient PS R), S.
    rewrite try_catch_thrown, (handlerCatch_nullish w e N). reflexivity.
Qed.

Lemma handler_throws_iff_witness :
  result (handler Scenario.rejecting_with_null
            (Sample.post (Sample.untimed "Hello")))
  = Throw (mkError `"TypeError").
Proof.
  apply (proj2 (handler_throws_iff Scenario.rejecting_with_null
                  (Sample.post (Sample.untimed "Hello"))
                  (mkError `"TypeError"))).
  split; [reflexivity|]. split.
  - apply passes_sample_checks; [reflexivity | reflexivity|].
    left. reflexivity.
  - exists (VStr `"office@example.com"), VNull. repeat split.
Defined.

(** X11.  The clock is read at most once per request, and only for a POST
    whose honeypot is clean and whose timestamp is present: a filled
    honeypot is dropped before the timing check. *)
Theorem handler_clock_reads (w : world) (req : request) :
  clock_reads (trace (handler w req)) = []
  \/ (clock_reads (trace (handler w req)) = [EDateNow]
      /\ is_POST req
      /\ honeypot_clean (field req.(req_body) "honeypot")
      /\ truthy (field req.(req_body) "timestamp") = true).
Proof.
  pose proof (handler_runs w req) as H.
  remember (handler w req) as run eqn:E. clear E.
  assert (TI : forall ts, timing_implausible w ts -> truthy ts = true)
    by (intros ts (T & _); exact T).
  destruct H as [ | | | | P C I | err P N C (T & U) | P (N & C & A)
                  | recipient r P (N & C & A)
                  | recipient e P (N & C & A) | recipient e P (N & C & A) ];
    cbn [trace snd]; unfold clock_reads, timing_read;
    try (left; reflexivity);
    try (right; repeat split; auto; fail);
    rewrite ?filter_app;
    (destruct (truthy (field (req_body req) "timestamp")) eqn:T;
     [right; repeat split; auto | left; reflexivity]).
Qed.

(* ------------------------------------------------------------------ *)
(** * The endpoint against the spam-validation utilities *)

(** X12.  The inline honeypot test of the endpoint and [validateHoneypot]
    agree on every value the utility is typed for: for a string or an
    absent honeypot, the endpoint flags the submission exactly when
    [validateHoneypot] answers false, and it does so without throwing. *)
Theorem honeypot_checks_agree (w : world) (honeypot : option jsstring) :
  honeypotFilled w (env_value honeypot)
  = (Normal (negb (validateHoneypot honeypot)), [])
  /\ (honeypot_filled (env_value honeypot)
      <-> validateHoneypot honeypot = false)
  /\ (honeypot_clean (env_value honeypot)
      <-> validateHoneypot honeypot = true).
Proof.
  assert (E : honeypotFilled w (env_value honeypot)
              = (Normal (negb (validateHoneypot honeypot)), [])).
  { destruct honeypot as [s|]; [|reflexivity].
    unfold honeypotFilled. cbn [env_value truthy callTrim validateHoneypot].
    destruct (Str.truthy s); [rewrite bind_ret|]; reflexivity. }
  split; [exact E|].
  destruct (honeypot_cases (env_value honeypot)) as [F | [C | (T & NS)]].
  - pose proof (honeypotFilled_filled w _ F) as X. rewrite E in X.
    injection X as X. apply negb_true_iff in X. rewrite X.
    split; split; auto; try discriminate.
    intros C. pose proof (honeypotFilled_clean w _ C) as Y.
    rewrite E, X in Y. discriminate Y.
  - pose proof (honeypotFilled_clean w _ C) as X. rewrite E in X.
    injection X as X. apply negb_false_iff in X. rewrite X.
    split; split; auto; try discriminate.
    intros F. pose proof (honeypotFilled_filled w _ F) as Y.
    rewrite E, X in Y. discriminate Y.
  - destruct honeypot as [s|]; [|discriminate T].
    destruct (NS s). reflexivity.
Qed.

Lemma SFcompare_antisym (x y : number) :
  SFcompare y x = option_map CompOpp (SFcompare x y).
Proof.
  destruct x as [sx | sx | | sx mx ex], y as [sy | sy | | sy my ey];
    cbn [SFcompare option_map]; try reflexivity;
    try (destruct sx; reflexivity); try (destruct sy; reflexivity);
    try (destruct sx, sy; reflexivity).
  destruct sx, sy; cbn [CompOpp]; try reflexivity;
    rewrite (Z.compare_antisym ex ey); destruct (ex ?= ey)%Z;
    cbn [CompOpp]; try reflexivity;
    rewrite <- (Pos.compare_cont_antisym _ _ Eq); cbn [CompOpp];
    rewrite ?CompOpp_involutive; reflexivity.
Qed.

(** Below and not-at-least coincide unless an operand is NaN. *)
Lemma lt_negb_ge (x c : number) :
  SFcompare x c <> None -> Num.lt x c = negb (Num.ge x c).
Proof.
  unfold Num.lt, Num.ge, SFltb, SFleb. rewrite (SFcompare_antisym x c).
  destruct (SFcompare x c) as [[| |]|]; intros H; try reflexivity.
  destruct H. reflexivity.
Qed.

Lemma gt_negb_le (x c : number) :
  SFcompare x c <> None -> Num.gt x c = negb (Num.le x c).
Proof.
  unfold Num.gt, Num.le, SFltb, SFleb. rewrite (SFcompare_antisym x c).
  destruct (SFcompare x c) as [[| |]|]; intros H; try reflexivity.
  destruct H. reflexivity.
Qed.

Lemma compare_with_finite (x : number) (s : bool) (m : positive) (e : Z) :
  x <> Num.NaN -> SFcompare x (S754_finite s m e) <> None.
Proof.
  destruct x; cbn [SFcompare]; try discriminate.
  intros H. destruct H. reflexivity.
Qed.

(** X13.  On a number the inline timing test of the endpoint is the
    negation of [validateTimestamp], with two exceptions, both in favour
    of the sender: the endpoint skips the test when the timestamp is
    falsy (0 or NaN), and it lets an elapsed time that is NaN through,
    which [validateTimestamp] rejects. *)
Theorem timing_checks_agree (w : world) (timestamp : number) :
  let elapsed := Num.sub w.(Date_now) timestamp in
  exists valid suspicious,
    result (validateTimestamp w timestamp) = Normal valid
    /\ result (timingSuspicious w (VNum timestamp)) = Normal suspicious
    /\ (Num.truthy timestamp = true -> elapsed <> Num.NaN ->
        suspicious = negb valid)
    /\ (Num.truthy timestamp = false -> suspicious = false)
    /\ (elapsed = Num.NaN -> valid = false /\ suspicious = false).
Proof.
  intros elapsed. unfold validateTimestamp, timingSuspicious.
  cbn [truthy ToNumber DateNow emit lift bind ret app result fst].
  fold elapsed.
  destruct (Num.truthy timestamp) eqn:T;
    cbn [emit lift bind ret app result fst]; fold elapsed;
    eexists _, _; (split; [reflexivity|]); (split; [reflexivity|]).
  - refine (conj _ (conj _ _)).
    + intros _ NN.
      rewrite (lt_negb_ge elapsed Num.c3000),
              (gt_negb_le elapsed Num.c1800000)
        by (apply compare_with_finite; exact NN).
      rewrite negb_andb. reflexivity.
    + discriminate.
    + intros ->. split; reflexivity.
  - refine (conj _ (conj _ _)).
    + discriminate.
    + reflexivity.
    + intros ->. split; reflexivity.
Qed.

(** X14.  A timestamp that is present and converts to NaN (as the string
    "soon" does) passes the timing check of the endpoint: the clock is
    read, neither comparison holds, and the submission is mailed once its
    recipient resolves.  [validateTimestamp] rejects the same number. *)
Theorem handler_accepts_unreadable_timestamp
    (w : world) (req : request) (recipient : jsval) :
  is_POST req ->
  nullish req.(req_body) = false ->
  honeypot_clean (field req.(req_body) "honeypot") ->
  truthy (field req.(req_body) "timestamp") = true ->
  ToNumber w (field req.(req_body) "timestamp") = Normal Num.NaN ->
  result (resolveRecipient w (field req.(req_body) "to")
            (field req.(req_body) "subject")) = Normal recipient ->
  mails (trace (handler w req))
  = [ESendEmail (mail_of recipient req.(req_body))]
  /\ clock_reads (trace (handler w req)) = [EDateNow]
  /\ result (validateTimestamp w Num.NaN) = Normal false.
Proof.
  intros P N C T NaN R.
  assert (E : elapsed w (field (req_body req) "timestamp")
              = Normal Num.NaN).
  { unfold elapsed. rewrite NaN. destruct (Date_now w); reflexivity. }
  assert (PS : passes_spam_checks w (req_body req)).
  { split; [exact N|]. split; [exact C|]. right. exists Num.NaN.
    split; [exact E|]. split; reflexivity. }
  split; [exact (handler_sends_once w req recipient P PS R)|].
  split.
  - pose proof (handlerTry_passed w _ recipient PS R) as X.
    rewrite (handler_POST w _ P). rewrite T in X.
    destruct (sendEmail w (mail_of recipient (req_body req))) as [r|e].
    + rewrite X. reflexivity.
    + rewrite X, try_catch_thrown, handlerCatch_trace.
      destruct (nullish e); reflexivity.
  - unfold validateTimestamp.
    cbn [DateNow emit bind ret app result fst].
    destruct (Date_now w); reflexivity.
Qed.

Lemma handler_accepts_unreadable_timestamp_witness :
  mails (trace (handler Sample.friendly
                  (Sample.post Scenario.textual_timestamp)))
  = [ESendEmail (mail_of (VStr `"office@example.com")
                   Scenario.textual_timestamp)].
Proof.
  apply (handler_accepts_unreadable_timestamp Sample.friendly
           (Sample.post Scenario.textual_timestamp)
           (VStr `"office@example.com") eq_refl eq_refl);
    try reflexivity.
  right. exists []. split; [reflexivity | constructor].
Defined.

(** X22.  A timestamp that cannot be converted to a number (an object
    with a property named [toString], which hides the inherited method)
    makes the subtraction throw: a submission with a clean honeypot and
    such a timestamp is answered with status 500 and the engine's message,
    after one clock read; it is neither dropped silently nor mailed. *)
Theorem handler_unconvertible_timestamp
    (w : world) (req : request) (fields : list (jsstring * jsval)) :
  is_POST req ->
  nullish req.(req_body) = false ->
  honeypot_clean (field req.(req_body) "honeypot") ->
  field req.(req_body) "timestamp" = VObj fields ->
  existsb (fun f => Str.eqb (fst f) `"toString") fields = true ->
  handler w req
  = (Normal {| status := 500;
               json := VObj [(`"success", VBool false);
                             (`"response", VNull);
                             (`"error",
                              VStr (w.(TypeError_message)
                                      (NotConvertible (VObj fields))))] |},
     [EDateNow; EConsole error `"=== EMAIL ERROR ===";
      EConsole error `"Full error:"; EConsole error `"Error message:"])
  /\ mails (trace (handler w req)) = [].
Proof.
  intros P N C T H.
  assert (U : timing_unconvertible w (field (req_body req) "timestamp")
                (TypeError w (NotConvertible (VObj fields)))).
  { rewrite T. split; [reflexivity|]. unfold ToNumber. simpl. rewrite H.
    reflexivity. }
  assert (E : handler w req
              = (Normal (failure (VStr (w.(TypeError_message)
                                          (NotConvertible (VObj fields))))),
                 [EDateNow] ++ error_logs)).
  { exact (handler_catches_TypeError w req _ [EDateNow] P
             (handlerTry_unconvertible_timestamp w _ _ N C U)). }
  rewrite E. split; reflexivity.
Qed.

(** The timestamp [{toString: 1}] at [Sample.friendly]. *)
Lemma handler_unconvertible_timestamp_witness :
  result (handler Sample.friendly (Sample.post Scenario.opaque_timestamp))
  = Normal {| status := 500;
              json := VObj [(`"success", VBool false); (`"response", VNull);
                            (`"error", VStr `"TypeError")] |}
  /\ mails (trace (handler Sample.friendly
                     (Sample.post Scenario.opaque_timestamp))) = [].
Proof.
  destruct (handler_unconvertible_timestamp Sample.friendly
              (Sample.post Scenario.opaque_timestamp)
              [(`"toString", VNum Num.one)]
              eq_refl eq_refl
              (or_intror (ex_intro _ [] (conj eq_refl (Forall_nil _))))
              eq_refl eq_refl) as (E & S).
  rewrite E. split; reflexivity.
Defined.

(* ------------------------------------------------------------------ *)
(** * Mailboxes and fields *)

Lemma env_or_unset (o : option jsstring) (fallback : jsstring) :
  o = None \/ o = Some [] -> env_or o fallback = VStr fallback.
Proof. intros [-> | ->]; reflexivity. Qed.

Lemma includes_false_spec (s p : jsstring) :
  Str.includes s p = false -> ~ contains s p.
Proof. intros F C. apply includes_spec in C. congruence. Qed.

(** X15.  When a mailbox variable is missing, the partner and financing
    routes fall back to the addresses written in the code, also when the
    variable is set to the empty string; the default route has no
    fallback: with [RECIPIENT_EMAIL] unset the mail-send capability is
    invoked with [to] undefined. *)
Theorem handler_mailbox_fallbacks
    (w : world) (req : request) (s : jsstring) :
  is_POST req ->
  passes_spam_checks w req.(req_body) ->
  truthy (field req.(req_body) "to") = false ->
  field req.(req_body) "subject" = VStr s ->
  let unset (o : option jsstring) := o = None \/ o = Some [] in
  let sent_to (recipient : jsval) :=
    mails (trace (handler w req))
    = [ESendEmail (mail_of recipient req.(req_body))] in
  (contains s `"Partner" -> unset w.(env).(PARTNER_EMAIL) ->
     sent_to (VStr `"partners@luminarcapital.com"))
  /\ (~ contains s `"Partner" -> contains s `"Financing" ->
      unset w.(env).(FINANCING_EMAIL) ->
        sent_to (VStr `"clientsuccess@luminarcapital.com"))
  /\ (~ contains s `"Partner" -> ~ contains s `"Financing" ->
      w.(env).(RECIPIENT_EMAIL) = None -> sent_to VUndefined).
Proof.
  intros P PS T S unset sent_to.
  assert (X : subject_textual (field (req_body req) "subject"))
    by (right; exists s; exact S).
  destruct (resolveRecipient_routes w _ _ T X)
    as (recipient & R & RP & RF & RD).
  assert (Sent : sent_to recipient).
  { apply (handler_sends_once w req recipient P PS).
    rewrite R. reflexivity. }
  assert (Tag : forall tag,
             subject_tagged (field (req_body req) "subject") tag
             <-> contains s `tag).
  { intros tag. rewrite S. split.
    - intros (s' & E & C). injection E as <-. exact C.
    - intros C. exists s. auto. }
  refine (conj _ (conj _ _)).
  - intros C U. rewrite <- (env_or_unset _ _ U).
    fold (partner_mailbox w). rewrite <- RP by (apply Tag; exact C).
    exact Sent.
  - intros NC C U. rewrite <- (env_or_unset _ _ U).
    fold (financing_mailbox w).
    rewrite <- RF by (rewrite ?Tag; assumption).
    exact Sent.
  - intros NC NF U.
    replace VUndefined with (default_mailbox w)
      by (unfold default_mailbox; rewrite U; reflexivity).
    rewrite <- RD by (rewrite ?Tag; assumption).
    exact Sent.
Qed.

(** With no mailbox configured, "Financing request" goes to the address
    written in the code. *)
Lemma handler_mailbox_fallbacks_witness :
  mails (trace (handler Scenario.no_mailboxes
                  (Sample.post (Sample.untimed "Financing request"))))
  = [ESendEmail (mail_of (VStr `"clientsuccess@luminarcapital.com")
                   (Sample.untimed "Financing request"))].
Proof.
  assert (PS : passes_spam_checks Scenario.no_mailboxes
                 (Sample.untimed "Financing request")).
  { apply passes_sample_checks; [reflexivity | reflexivity|].
    left. reflexivity. }
  apply (proj1 (proj2 (handler_mailbox_fallbacks Scenario.no_mailboxes
                         (Sample.post (Sample.untimed "Financing request"))
                         `"Financing request" eq_refl PS eq_refl eq_refl))).
  - apply includes_false_spec. reflexivity.
  - apply includes_spec. reflexivity.
  - right. reflexivity.
Defined.

(** X16.  Of a body that can be destructured (one that is neither [null]
    nor [undefined]) the endpoint reads five fields and nothing else: two
    such bodies with the same [to], [subject], [htmlMessage], [honeypot]
    and [timestamp] are handled in the same way, whatever else they
    carry.  A bot token in the body has no effect. *)
Theorem handler_reads_five_fields (w : world) (req req' : request) :
  req.(req_method) = req'.(req_method) ->
  nullish req.(req_body) = false ->
  nullish req'.(req_body) = false ->
  field req.(req_body) "to" = field req'.(req_body) "to" ->
  field req.(req_body) "subject" = field req'.(req_body) "subject" ->
  field req.(req_body) "htmlMessage" = field req'.(req_body) "htmlMessage" ->
  field req.(req_body) "honeypot" = field req'.(req_body) "honeypot" ->
  field req.(req_body) "timestamp" = field req'.(req_body) "timestamp" ->
  handler w req = handler w req'.
Proof.
  intros Em N N' Et Es Eh Ep Ets. unfold handler. rewrite Em.
  destruct (not_POST (req_method req')); [reflexivity|].
  f_equal. unfold handlerTry.
  rewrite (destructure_value _ _ _ N), (destructure_value _ _ _ N').
  rewrite !(getProp_field _ _ _ _ N), !(getProp_field _ _ _ _ N'), !bind_ret.
  rewrite Et, Es, Eh, Ep, Ets. reflexivity.
Qed.

(** A body that also carries a bot token is handled like the same body
    without it. *)
Lemma handler_reads_five_fields_witness :
  handler Sample.friendly
    (Sample.post
       (VObj [(`"recaptchaToken", VStr `"token");
              (`"subject", VStr `"Hello");
              (`"htmlMessage", VStr `"<p>hello</p>");
              (`"honeypot", VStr `"")]))
  = handler Sample.friendly (Sample.post (Sample.untimed "Hello")).
Proof.
  apply handler_reads_five_fields; reflexivity.
Defined.

(* ------------------------------------------------------------------ *)
(** * The forms *)

Section FormFacts.

Variable IFormInput : Type.
Variable email : IFormInput -> jsstring.
Variable messages_admin : IFormInput -> jsstring.
Variable b : browser.
Variable v : form_variant.
Variable st : form_state.
Variable data : IFormInput.

Let admin := send_body (admin_mail IFormInput messages_admin v st data).
Let user := send_body (user_mail IFormInput email b v st data).
Let run := onSubmit IFormInput email messages_admin b v st data.

(** What the [finally] block does. *)
Let closing : list ui_event :=
  SetIsSubmitting false
  :: (if v.(form_clears_success) then [SetTimeout ClearSuccess 5000]
      else []).

(** What the [catch] block does with the value it caught. *)
Let caught (err : jsval) : UI unit :=
  message <~ responseMessage b err ;;
  ui_emit (SetSubmittedError
             (if truthy message then message else VStr v.(form_fallback))) >>
  ui_emit (SetTimeout ClearError 3000).

(** The run of a submit handler, by the outcome of its requests. *)
Lemma onSubmit_unfold :
  run
  = if negb st.(consent) then
      (Normal tt, [Alert `"Please check the consent box to proceed."])
    else
      match b.(axios_post) `"/api/email" admin with
      | Throw err =>
          (fst (caught err),
           [SetIsSubmitting true; AxiosPost `"/api/email" admin]
           ++ snd (caught err) ++ closing)
      | Normal _ =>
          match b.(axios_post) `"/api/email" user with
          | Throw err =>
              (fst (caught err),
               [SetIsSubmitting true; AxiosPost `"/api/email" admin;
                AxiosPost `"/api/email" user]
               ++ snd (caught err) ++ closing)
          | Normal _ =>
              (Normal tt,
               [SetIsSubmitting true; AxiosPost `"/api/email" admin;
                AxiosPost `"/api/email" user; SetIsSubmittedSuccess true;
                SetTimeout ResetForm 1000]
               ++ closing)
          end
      end.
Proof.
  subst run. unfold onSubmit, browserSendEmail.
  destruct (negb (consent st)); [reflexivity|].
  fold admin user. fold caught.
  destruct (axios_post b `"/api/email" admin) as [r|e].
  - destruct (axios_post b `"/api/email" user) as [r'|e].
    + subst closing.
      destruct (form_clears_success v); reflexivity.
    + subst closing. cbn [ui_emit ui_bind app try_catch_finally].
      destruct (caught e) as [r2 t2].
      destruct (form_clears_success v); cbn [ui_emit ui_ret ui_bind app];
        cbn [fst snd]; rewrite <- ?app_assoc; reflexivity.
  - subst closing. cbn [ui_emit ui_bind app try_catch_finally].
    destruct (caught e) as [r2 t2].
    destruct (form_clears_success v); cbn [ui_emit ui_ret ui_bind app];
      cbn [fst snd]; rewrite <- ?app_assoc; reflexivity.
Qed.

(** The [catch] block posts nothing; it throws exactly on [null] and
    [undefined]. *)
Lemma caught_spec (err : jsval) :
  posts (snd (caught err)) = []
  /\ (nullish err = true ->
      caught err
      = (Throw (mkError (b.(browser_TypeError_message)
                          (ReadOfNullish "error" `"response" err))), []))
  /\ (nullish err = false ->
      exists message,
        caught err
        = (Normal tt,
           [SetSubmittedError message; SetTimeout ClearError 3000])
        /\ (message = VStr v.(form_fallback)
            \/ (truthy message = true
                /\ message = field (field (field err "response") "data")
                               "message"))).
Proof.
  subst caught. cbv beta. unfold responseMessage.
  destruct (nullish err) eqn:N.
  - repeat split; discriminate.
  - destruct (nullish (field err "response")).
    { split; [reflexivity|]. split; [discriminate|]. intros _.
      eexists. split; [reflexivity|]. left. reflexivity. }
    destruct (nullish (field (field err "response") "data")).
    { split; [reflexivity|]. split; [discriminate|]. intros _.
      eexists. split; [reflexivity|]. left. reflexivity. }
    cbn [ui_ret ui_bind ui_emit app].
    split; [reflexivity|]. split; [discriminate|]. intros _.
    eexists. split; [reflexivity|].
    destruct (truthy (field (field (field err "response") "data")
                        "message")) eqn:T;
      [right; split; [exact T | reflexivity] | left; reflexivity].
Qed.

(** A request of the run was rejected with [err]. *)
Let rejected (err : jsval) : Prop :=
  b.(axios_post) `"/api/email" admin = Throw err
  \/ (exists r, b.(axios_post) `"/api/email" admin = Normal r
                /\ b.(axios_post) `"/api/email" user = Throw err).

(** A consented run whose requests both resolve. *)
Lemma onSubmit_resolved (r r' : jsval) :
  st.(consent) = true ->
  b.(axios_post) `"/api/email" admin = Normal r ->
  b.(axios_post) `"/api/email" user = Normal r' ->
  run = (Normal tt,
         [SetIsSubmitting true; AxiosPost `"/api/email" admin;
          AxiosPost `"/api/email" user; SetIsSubmittedSuccess true;
          SetTimeout ResetForm 1000] ++ closing).
Proof.
  intros C A U. rewrite onSubmit_unfold, C, A, U. reflexivity.
Qed.

(** A consented run with a rejected request. *)
Lemma onSubmit_rejected (err : jsval) :
  st.(consent) = true -> rejected err ->
  exists sent,
    run = (fst (caught err),
           SetIsSubmitting true :: sent ++ snd (caught err) ++ closing)
    /\ (sent = [AxiosPost `"/api/email" admin]
        \/ sent = [AxiosPost `"/api/email" admin;
                   AxiosPost `"/api/email" user]).
Proof.
  intros C [A | (r & A & U)]; rewrite onSubmit_unfold, C; cbn [negb].
  - rewrite A. eexists. split; [reflexivity|]. left. reflexivity.
  - rewrite A, U. eexists. split; [reflexivity|]. right. reflexivity.
Qed.

(** The requests of a consented run either both resolve or one of them is
    rejected. *)
Lemma onSubmit_outcomes :
  (exists r r', b.(axios_post) `"/api/email" admin = Normal r
                /\ b.(axios_post) `"/api/email" user = Normal r')
  \/ exists err, rejected err.
Proof.
  subst rejected. cbv beta.
  destruct (axios_post b `"/api/email" admin) as [r|e] eqn:A.
  - destruct (axios_post b `"/api/email" user) as [r'|e] eqn:U.
    + left. eauto.
    + right. exists e. right. eauto.
  - right. exists e. left. reflexivity.
Qed.

(** X17.  A form posts nothing without consent: the handler shows the
    alert and returns, and no state changes.  With consent it posts the
    mail to the administrators first and the confirmation to the user
    only when the first request resolved: never more than two requests,
    both to [/api/email], the first without a destination and the second
    to the e-mail address of the form, both with the honeypot value and
    the start time of the form. *)
Theorem onSubmit_requests :
  (st.(consent) = false ->
     run = (Normal tt, [Alert `"Please check the consent box to proceed."]))
  /\ (st.(consent) = true ->
      posts (snd run)
      = AxiosPost `"/api/email" admin
        :: match b.(axios_post) `"/api/email" admin with
           | Normal _ => [AxiosPost `"/api/email" user]
           | Throw _ => []
           end)
  /\ (field admin "to" = VUndefined
      /\ field user "to" = VStr (email data)
      /\ field admin "subject" = field user "subject"
      /\ field admin "honeypot" = VStr st.(honeypot)
      /\ field user "honeypot" = VStr st.(honeypot)
      /\ field admin "timestamp" = VNum st.(formStartTime)
      /\ field user "timestamp" = VNum st.(formStartTime)).
Proof.
  refine (conj _ (conj _ _)).
  - intros C. rewrite onSubmit_unfold, C. reflexivity.
  - intros C. rewrite onSubmit_unfold, C. cbn [negb].
    assert (Q : posts closing = [])
      by (subst closing; destruct (form_clears_success v); reflexivity).
    destruct (axios_post b `"/api/email" admin) as [r|e].
    + destruct (axios_post b `"/api/email" user) as [r'|e]; cbn [snd].
      * unfold posts in *. rewrite filter_app, Q. reflexivity.
      * destruct (caught_spec e) as (P & _).
        unfold posts in *. rewrite !filter_app, P, Q. reflexivity.
    + cbn [snd]. destruct (caught_spec e) as (P & _).
      unfold posts in *. rewrite !filter_app, P, Q. reflexivity.
  - repeat split.
Qed.

(** X18.  In every consented run the submitting flag is raised first and
    lowered in the [finally] block, after everything else, also when a
    request is rejected and also when the [catch] block itself throws;
    only the scheduling of the success reset may follow.  The flag is not
    touched in between. *)
Theorem onSubmit_submitting_flag :
  st.(consent) = true ->
  exists middle,
    snd run
    = SetIsSubmitting true
      :: middle
      ++ SetIsSubmitting false
         :: (if v.(form_clears_success)
             then [SetTimeout ClearSuccess 5000] else [])
    /\ forall flag, ~ In (SetIsSubmitting flag) middle.
Proof.
  intros C. fold closing.
  destruct onSubmit_outcomes as [(r & r' & A & U) | (err & R)].
  - rewrite (onSubmit_resolved r r' C A U). eexists.
    split; [reflexivity|].
    intros flag [H|[H|[H|[H|[]]]]]; discriminate H.
  - destruct (onSubmit_rejected err C R) as (sent & -> & S).
    exists (sent ++ snd (caught err)). cbn [snd].
    split; [rewrite <- app_assoc; reflexivity|].
    intros flag I. apply in_app_or in I.
    destruct I as [I | I].
    + destruct S as [-> | ->]; cbn in I; intuition discriminate.
    + destruct (caught_spec err) as (_ & T & O).
      destruct (nullish err).
      * rewrite (T eq_refl) in I. destruct I.
      * destruct (O eq_refl) as (m & E & _). rewrite E in I.
        cbn in I. intuition discriminate.
Qed.

(** X19.  The outcomes of a consented run exclude each other.  The
    success flag is set exactly when both requests resolve.  An error
    message is set exactly when a request is rejected with a value other
    than [null] and [undefined].  The handler throws exactly when a
    request is rejected with [null] or [undefined]: reading
    [error.response] in the [catch] block throws, the [finally] block
    still runs, and nothing is shown. *)
Theorem onSubmit_outcome :
  st.(consent) = true ->
  (In (SetIsSubmittedSuccess true) (snd run)
   <-> exists r r', b.(axios_post) `"/api/email" admin = Normal r
                    /\ b.(axios_post) `"/api/email" user = Normal r')
  /\ ((exists message, In (SetSubmittedError message) (snd run))
      <-> exists err, rejected err /\ nullish err = false)
  /\ ((exists thrown, fst run = Throw thrown)
      <-> exists err, rejected err /\ nullish err = true).
Proof.
  intros C.
  assert (Excl : forall r err,
             b.(axios_post) `"/api/email" admin = Normal r ->
             forall r', b.(axios_post) `"/api/email" user = Normal r' ->
             rejected err -> False).
  { intros r err A r' U [X | (r0 & _ & X)]; congruence. }
  assert (Same : forall e e', rejected e -> rejected e' -> e = e').
  { intros e e' [A | (r & A & U)] [A' | (r' & A' & U')]; congruence. }
  assert (Closing : forall x,
             In x closing ->
             x = SetIsSubmitting false \/ x = SetTimeout ClearSuccess 5000).
  { intros x. subst closing. destruct (form_clears_success v); cbn;
      intuition auto. }
  destruct onSubmit_outcomes as [(r & r' & A & U) | (err & R)].
  - rewrite (onSubmit_resolved r r' C A U). cbn [fst snd].
    refine (conj _ (conj _ _)).
    + split; [intros _; eauto | intros _; cbn; auto 10].
    + split.
      * intros (m & I). apply in_app_or in I. destruct I as [I | I].
        -- cbn in I. intuition discriminate.
        -- apply Closing in I. destruct I; discriminate.
      * intros (e & X & _). destruct (Excl r e A r' U X).
    + split.
      * intros (x & X). discriminate X.
      * intros (e & X & _). destruct (Excl r e A r' U X).
  - destruct (onSubmit_rejected err C R) as (sent & -> & S).
    cbn [fst snd].
    assert (NoSent : forall x,
               In x (sent ++ snd (caught err) ++ closing) ->
               In x (snd (caught err))
               \/ (exists d, x = AxiosPost `"/api/email" d)
               \/ x = SetIsSubmitting false
               \/ x = SetTimeout ClearSuccess 5000).
    { intros x I. apply in_app_or in I. destruct I as [I | I].
      - right; left. destruct S as [-> | ->]; cbn in I;
          intuition eauto.
      - apply in_app_or in I. destruct I as [I | I]; [left; exact I|].
        right; right. apply Closing. exact I. }
    destruct (caught_spec err) as (_ & T & O).
    destruct (nullish err) eqn:N.
    + rewrite (T eq_refl) in *. cbn [fst snd] in *.
      refine (conj _ (conj _ _)).
      * split.
        -- intros [I | I]; [discriminate I|]. apply NoSent in I.
           destruct I as [[] | [(d & I) | [I | I]]]; discriminate I.
        -- intros (r & r' & A & U). destruct (Excl r err A r' U R).
      * split.
        -- intros (m & [I | I]); [discriminate I|]. apply NoSent in I.
           destruct I as [[] | [(d & I) | [I | I]]]; discriminate I.
        -- intros (e & X & Ne). rewrite (Same e err X R) in Ne. congruence.
      * split; [intros _; eauto | intros _; eauto].
    + destruct (O eq_refl) as (m & E & _). rewrite E in *.
      cbn [fst snd] in *.
      refine (conj _ (conj _ _)).
      * split.
        -- intros [I | I]; [discriminate I|]. apply NoSent in I.
           destruct I as [[I | [I | []]] | [(d & I) | [I | I]]];
             discriminate I.
        -- intros (r & r' & A & U). destruct (Excl r err A r' U R).
      * split; [intros _; eauto|].
        intros _. exists m. right. apply in_or_app. right.
        left. reflexivity.
      * split.
        -- intros (x & X). discriminate X.
        -- intros (e & X & Ne). rewrite (Same e err X R) in Ne. congruence.
Qed.

(** No reply of the endpoint has a [message] field. *)
Lemma handler_reply_has_no_message (w : world) (req : request) (r : reply) :
  result (handler w req) = Normal r ->
  nullish r.(json) = false /\ field r.(json) "message" = VUndefined.
Proof.
  pose proof (handler_runs w req) as H.
  remember (handler w req) as outcome eqn:E. clear E.
  destruct H; cbn [result fst]; intros X; try discriminate X;
    injection X as <-; split; reflexivity.
Qed.

(** X20.  The forms read the error text from [response.data.message], and
    no reply of the endpoint has a [message] field (its text is in
    [error]).  So whenever a request is rejected with a reply of the
    endpoint as its response data, whatever the request and the world of
    the endpoint, the form shows its own fallback text and never the
    message of the endpoint. *)
Theorem onSubmit_hides_endpoint_error
    (w : world) (req : request) (r : reply) (err : jsval) :
  st.(consent) = true ->
  rejected err ->
  result (handler w req) = Normal r ->
  field (field err "response") "data" = r.(json) ->
  In (SetSubmittedError (VStr v.(form_fallback))) (snd run)
  /\ forall message,
       In (SetSubmittedError message) (snd run) ->
       message = VStr v.(form_fallback).
Proof.
  intros C R H D.
  destruct (handler_reply_has_no_message w req r H) as (NJ & NM).
  assert (NR : nullish (field err "response") = false).
  { destruct (field err "response"); try reflexivity;
      rewrite <- D in NJ; discriminate NJ. }
  assert (NE : nullish err = false).
  { destruct err; try reflexivity; discriminate NR. }
  assert (K : caught err
              = (Normal tt,
                 [SetSubmittedError (VStr v.(form_fallback));
                  SetTimeout ClearError 3000])).
  { subst caught. cbv beta. unfold responseMessage.
    rewrite NE, NR, D, NJ, NM. reflexivity. }
  destruct (onSubmit_rejected err C R) as (sent & -> & S).
  rewrite K. cbn [fst snd]. split.
  - right. apply in_or_app. right. left. reflexivity.
  - intros message [I | I]; [discriminate I|].
    apply in_app_or in I. destruct I as [I | I].
    + destruct S as [-> | ->]; cbn in I; intuition discriminate.
    + destruct I as [I | [I | I]].
      * injection I as <-. reflexivity.
      * discriminate I.
      * subst closing. destruct (form_clears_success v); cbn in I;
          intuition discriminate.
Qed.

End FormFacts.

(** The modal financing form, filled in and consented, in a browser whose
    requests resolve: the flag is raised first and lowered last, and no
    reset of the success flag is scheduled. *)
Lemma onSubmit_submitting_flag_witness :
  exists middle,
    snd (ApplyForFinancingModalForm_onSubmit jsstring
           (fun address => address) Page.admin_html Page.online
           Page.filled_in `"user@example.com")
    = SetIsSubmitting true :: middle ++ [SetIsSubmitting false]
    /\ forall flag, ~ In (SetIsSubmitting flag) middle.
Proof.
  exact (onSubmit_submitting_flag jsstring (fun address => address)
           Page.admin_html Page.online
           {| form_subject := Page.online.(EMAIL_SUBJECT_FINANCING);
              form_fallback := `"Submission failed. Please try again.";
              form_clears_success := false |}
           Page.filled_in `"user@example.com" eq_refl).
Defined.

(** The partner form: in a browser whose requests are rejected with
    [undefined] the handler throws; in one whose requests resolve the
    success flag is set. *)
Lemma onSubmit_outcome_witness :
  (exists thrown,
     fst (BecomeAPartnerDefaultForm_onSubmit jsstring
            (fun address => address) Page.admin_html Page.broken
            Page.filled_in `"user@example.com") = Throw thrown)
  /\ In (SetIsSubmittedSuccess true)
       (snd (BecomeAPartnerDefaultForm_onSubmit jsstring
               (fun address => address) Page.admin_html Page.online
               Page.filled_in `"user@example.com")).
Proof.
  split.
  - apply (proj2 (proj2 (onSubmit_outcome jsstring (fun address => address)
                           Page.admin_html Page.broken
                           {| form_subject :=
                                Page.broken.(EMAIL_SUBJECT_PARTNER);
                              form_fallback := `"Submission failed";
                              form_clears_success := true |}
                           Page.filled_in `"user@example.com" eq_refl))).
    exists VUndefined. split; [left; reflexivity | reflexivity].
  - apply (proj1 (onSubmit_outcome jsstring (fun address => address)
                    Page.admin_html Page.online
                    {| form_subject := Page.online.(EMAIL_SUBJECT_PARTNER);
                       form_fallback := `"Submission failed";
                       form_clears_success := true |}
                    Page.filled_in `"user@example.com" eq_refl)).
    eexists _, _. split; reflexivity.
Defined.

(** The endpoint of [Sample.smtp_down] answers 500 with the error
    "SMTP timeout"; the financing form shows "Submission failed". *)
Lemma onSubmit_hides_endpoint_error_witness :
  In (SetSubmittedError (VStr `"Submission failed"))
    (snd (ApplyForFinancingDefaultForm_onSubmit jsstring
            (fun address => address) Page.admin_html Page.failing
            Page.filled_in `"user@example.com")).
Proof.
  apply (onSubmit_hides_endpoint_error jsstring (fun address => address)
           Page.admin_html Page.failing
           {| form_subject := Page.failing.(EMAIL_SUBJECT_FINANCING);
              form_fallback := `"Submission failed";
              form_clears_success := true |}
           Page.filled_in `"user@example.com"
           Sample.smtp_down (Sample.post (Sample.untimed "Hello"))
           (failure (VStr `"SMTP timeout"))
           (Page.axios_error (failure (VStr `"SMTP timeout")))
           eq_refl (or_introl eq_refl) eq_refl eq_refl).
Defined.

(* ------------------------------------------------------------------ *)
(** * Typed submissions at the endpoint *)

(** The five fields of a posted body as the endpoint reads them: strings
    arrive as they are, an absent field stays absent, and the timestamp
    arrives as [wire_number] writes it. *)
Lemma wire_send_body (a : ISendEmail) :
  nullish (wire (send_body a)) = false
  /\ field (wire (send_body a)) "to" = env_value a.(arg_to)
  /\ field (wire (send_body a)) "subject" = VStr a.(arg_subject)
  /\ field (wire (send_body a)) "htmlMessage" = VStr a.(arg_htmlMessage)
  /\ field (wire (send_body a)) "honeypot" = env_value a.(arg_honeypot)
  /\ field (wire (send_body a)) "timestamp"
     = match a.(arg_timestamp) with
       | Some x => wire_number x
       | None => VUndefined
       end.
Proof.
  destruct a as [[to|] subject html [pot|] [stamp|]];
    repeat split; reflexivity.
Qed.

(** A number that arrives over the wire converts to a number. *)
Lemma wire_number_converts (w : world) (x : number) :
  exists y, ToNumber w (wire_number x) = Normal y.
Proof. destruct x; eexists; reflexivity. Qed.

(** X21.  A body built by [browserSendEmail] from a typed argument, as it
    reaches the endpoint (written as JSON and parsed), cannot trip the
    endpoint: it is a POST with a body, its honeypot and subject are
    strings or absent and its timestamp is a number, [null] or absent, so
    no [TypeError] arises.  Such a submission is either dropped silently,
    with no mail, or it passes the checks and the mail-send capability is
    invoked exactly once; status 500 then means that the capability itself
    rejected. *)
Theorem handler_on_typed_submission (w : world) (a : ISendEmail) :
  let body := req_body (api_request (send_body a)) in
  let run := handler w (api_request (send_body a)) in
  (detects_spam w body
   /\ result run
      = Normal {| status := 200;
                  json := VObj [(`"success", VBool true);
                                (`"response", VNull); (`"error", VNull)] |}
   /\ mails (trace run) = [])
  \/ (passes_spam_checks w body
      /\ exists recipient,
           mails (trace run) = [ESendEmail (mail_of recipient body)]
           /\ ((exists response,
                  w.(sendEmail) (mail_of recipient body) = Normal response
                  /\ result run
                     = Normal {| status := 200;
                                 json := VObj [(`"success", VBool true);
                                               (`"response", response);
                                               (`"error", VNull)] |})
               \/ exists err,
                    w.(sendEmail) (mail_of recipient body) = Throw err
                    /\ (result run
                        = Normal {| status := 500;
                                    json :=
                                      VObj [(`"success", VBool false);
                                            (`"response", VNull);
                                            (`"error",
                                             field err "message")] |}
                        \/ result run
                           = Throw (TypeError w
                                      (ReadOfNullish "error" `"message"
                                         err))))).
Proof.
  intros body run.
  pose proof (handler_runs w (api_request (send_body a))) as H.
  destruct (wire_send_body a) as (Nb & Fto & Fsubject & _ & Fpot & Fstamp).
  change (wire (send_body a)) with body in Nb, Fto, Fsubject, Fpot, Fstamp.
  change (req_body (api_request (send_body a))) with body in H.
  assert (Sent : forall recipient,
             passes_spam_checks w body ->
             resolveRecipient w (field body "to") (field body "subject")
             = (Normal recipient, []) ->
             mails (trace run) = [ESendEmail (mail_of recipient body)]).
  { intros recipient PS R.
    apply (handler_sends_once w (api_request (send_body a)) recipient
             eq_refl PS).
    change (req_body (api_request (send_body a))) with body.
    rewrite R. reflexivity. }
  assert (Typed : forall o : option jsstring, ~ untyped_text (env_value o)).
  { intros [s|] (T & NS); [destruct (NS s); reflexivity | discriminate T]. }
  fold run in H. remember run as outcome eqn:E.
  destruct H as [ NP | P N | P N U | P F | P C I | err P N C (T & U)
                  | P PS T (_ & NS) NA
                  | recipient r P PS R S | recipient e P PS R S N
                  | recipient e P PS R S N ].
  - destruct NP. reflexivity.
  - change (nullish body = true) in N. rewrite Nb in N. discriminate N.
  - change (untyped_text (field body "honeypot")) in U.
    rewrite Fpot in U. destruct (Typed _ U).
  - left. repeat split. left. exact F.
  - left. repeat split. right. split; assumption.
  - change (ToNumber w (field body "timestamp") = Throw err) in U.
    rewrite Fstamp in U. destruct (arg_timestamp a) as [x|].
    + destruct (wire_number_converts w x) as (y & Y). congruence.
    + discriminate U.
  - destruct (NS (arg_subject a)). exact Fsubject.
  - right. split; [exact PS|]. exists recipient.
    split; [exact (Sent recipient PS R)|]. left. exists r.
    split; [exact S | reflexivity].
  - right. split; [exact PS|]. exists recipient.
    split; [exact (Sent recipient PS R)|]. right. exists e.
    split; [exact S | left; reflexivity].
  - right. split; [exact PS|]. exists recipient.
    split; [exact (Sent recipient PS R)|]. right. exists e.
    split; [exact S | right; reflexivity].
Qed.

(** X23.  A timestamp that is not finite (NaN or an infinity) is written
    as [null] in the posted JSON, so the endpoint receives no timestamp:
    it skips the timing check, never reads the clock and logs no timing
    warning, whatever the other fields of the typed argument are. *)
Theorem handler_skips_timing_for_non_finite_timestamp
    (w : world) (a : ISendEmail) (x : number) :
  a.(arg_timestamp) = Some x ->
  x = Num.NaN \/ (exists sign, x = S754_infinity sign) ->
  let run := handler w (api_request (send_body a)) in
  field (req_body (api_request (send_body a))) "timestamp" = VNull
  /\ clock_reads (trace run) = []
  /\ ~ In (EConsole warn `"Spam detected: Suspicious timing") (trace run).
Proof.
  intros Ex NF run.
  destruct (wire_send_body a) as (Nb & _ & _ & _ & _ & Fstamp).
  rewrite Ex in Fstamp.
  assert (Null : field (wire (send_body a)) "timestamp" = VNull).
  { rewrite Fstamp. destruct NF as [-> | (sign & ->)]; reflexivity. }
  split; [exact Null|].
  pose proof (handler_runs w (api_request (send_body a))) as H.
  assert (TR : timing_read (req_body (api_request (send_body a))) = []).
  { unfold timing_read. cbn [req_body api_request]. rewrite Null.
    reflexivity. }
  fold run in H. remember run as outcome eqn:E. clear E.
  destruct H as [ NP | P N | P N U | P F | P C (T & _) | err P N C (T & U)
                  | P PS T U NA
                  | recipient r P PS R S | recipient e P PS R S N
                  | recipient e P PS R S N ];
    cbn [trace snd]; rewrite ?TR;
    try (cbn [req_body api_request] in T; rewrite Null in T;
         discriminate T);
    (split; [reflexivity|]); cbn; intuition discriminate.
Qed.

(** A form whose start time is not a number: the submission is mailed
    without a clock read. *)
Lemma handler_skips_timing_for_non_finite_timestamp_witness :
  clock_reads
    (trace (handler Sample.friendly
              (api_request
                 (send_body {| arg_to := None;
                               arg_subject := `"Partner inquiry";
                               arg_htmlMessage := `"<p>lead</p>";
                               arg_honeypot := Some [];
                               arg_timestamp := Some Num.NaN |})))) = [].
Proof.
  apply (handler_skips_timing_for_non_finite_timestamp Sample.friendly
           {| arg_to := None;
              arg_subject := `"Partner inquiry";
              arg_htmlMessage := `"<p>lead</p>";
              arg_honeypot := Some [];
              arg_timestamp := Some Num.NaN |}
           Num.NaN eq_refl (or_introl eq_refl)).
Defined.

